(** * Shrync: a shallow embedding of [app/main.py]

    The job lifecycle engine of Shrync (scanner, watcher enqueue, worker
    finalisation, startup recovery, queue API) is embedded as pure functions
    over an explicit system state: the SQLite tables are lists of rows (row
    order is rowid order, which is what [fetchone] observes), the settings
    table and the filesystem are finite maps, and everything the program
    cannot decide itself (clock, fresh uuids, the transcoder's exit) is an
    argument of the operation that consumes it. *)

From Stdlib Require Import ZArith Floats Ascii String Decimal DecimalString DecimalPos.
From stdpp Require Import gmap strings list sorting.

Set Warnings "-register-all".

Local Open Scope Z_scope.
Local Open Scope string_scope.

(** ** Python string primitives (ASCII fragment) *)

Module PyStr.

(** [s[:n]] *)
Fixpoint take (n : nat) (s : string) : string :=
  match n, s with
  | S n', String c s' => String c (take n' s')
  | _, _ => ""
  end.

(** [s.startswith(p)] *)
Fixpoint startswith (p s : string) : bool :=
  match p, s with
  | "", _ => true
  | String a p', String b s' => Ascii.eqb a b && startswith p' s'
  | String _ _, "" => false
  end.

(** [p in s] *)
Fixpoint contains (p s : string) : bool :=
  startswith p s ||
  match s with
  | "" => false
  | String _ s' => contains p s'
  end.

Definition lower_ascii (c : ascii) : ascii :=
  let n := nat_of_ascii c in
  if ((65 <=? n) && (n <=? 90))%nat then ascii_of_nat (n + 32) else c.

(** [s.lower()] *)
Fixpoint lower (s : string) : string :=
  match s with
  | "" => ""
  | String c s' => String (lower_ascii c) (lower s')
  end.

(** The characters [str.strip()] and [int()] treat as blank. *)
Definition is_space (c : ascii) : bool :=
  let n := nat_of_ascii c in
  (((9 <=? n) && (n <=? 13)) || ((28 <=? n) && (n <=? 32)))%nat.

Fixpoint lstrip (s : string) : string :=
  match s with
  | "" => ""
  | String c s' => if is_space c then lstrip s' else s
  end.

Fixpoint rstrip (s : string) : string :=
  match s with
  | "" => ""
  | String c s' =>
      let r := rstrip s' in
      if is_space c && String.eqb r "" then "" else String c r
  end.

Definition strip (s : string) : string := rstrip (lstrip s).

(** Split at the last occurrence of [sep]: [s.rpartition(sep)] without the
    separator, [None] when [sep] does not occur. *)
Fixpoint rsplit1 (sep : ascii) (s : string) : option (string * string) :=
  match s with
  | "" => None
  | String c s' =>
      match rsplit1 sep s' with
      | Some (a, b) => Some (String c a, b)
      | None => if Ascii.eqb c sep then Some ("", s') else None
      end
  end.

(** Split at the first occurrence of [sep]. *)
Fixpoint split1 (sep : ascii) (s : string) : option (string * string) :=
  match s with
  | "" => None
  | String c s' =>
      if Ascii.eqb c sep then Some ("", s')
      else match split1 sep s' with
           | Some (a, b) => Some (String c a, b)
           | None => None
           end
  end.

(** [s.split("=")[1]]: the text between the first and the second [=];
    [None] is Python's [IndexError]. *)
Definition split_eq_1 (s : string) : option string :=
  match split1 "=" s with
  | None => None
  | Some (_, r) =>
      match split1 "=" r with
      | Some (a, _) => Some a
      | None => Some r
      end
  end.

Definition digit_val (c : ascii) : option Z :=
  let n := nat_of_ascii c in
  if ((48 <=? n) && (n <=? 57))%nat then Some (Z.of_nat (n - 48)) else None.

(** Decimal digits, single underscores allowed between two digits. *)
Fixpoint parse_digits (acc : Z) (after_digit : bool) (s : string) : option Z :=
  match s with
  | "" => if after_digit then Some acc else None
  | String c s' =>
      match digit_val c with
      | Some d => parse_digits (10 * acc + d) true s'
      | None =>
          if Ascii.eqb c "_" && after_digit then parse_digits acc false s'
          else None
      end
  end.

(** The blanks [int()] skips around an ASCII literal: C's [isspace]. The
    separators 28-31, which [str.strip] removes, are not among them. *)
Definition is_c_space (c : ascii) : bool :=
  let n := nat_of_ascii c in
  (((9 <=? n) && (n <=? 13)) || (n =? 32))%nat.

Fixpoint lstrip_c (s : string) : string :=
  match s with
  | "" => ""
  | String c s' => if is_c_space c then lstrip_c s' else s
  end.

Fixpoint rstrip_c (s : string) : string :=
  match s with
  | "" => ""
  | String c s' =>
      let r := rstrip_c s' in
      if is_c_space c && String.eqb r "" then "" else String c r
  end.

(** The digits of a literal; underscores are not counted. *)
Fixpoint count_digits (s : string) : nat :=
  match s with
  | "" => 0
  | String c s' =>
      ((match digit_val c with Some _ => 1 | None => 0 end) + count_digits s')%nat
  end.

(** [sys.get_int_max_str_digits()] at its default: a literal of more
    digits is refused. *)
Definition MAX_STR_DIGITS : nat := 4300.

(** [PyLong_FromString(s, 10)] on ASCII text; [None] is [ValueError]. *)
Definition int_of_ascii (s : string) : option Z :=
  let t := rstrip_c (lstrip_c s) in
  let body := match t with
              | String "+" r | String "-" r => r
              | _ => t
              end in
  if (MAX_STR_DIGITS <? count_digits body)%nat then None
  else match t with
       | String "+" r => parse_digits 0 false r
       | String "-" r => Z.opp <$> parse_digits 0 false r
       | _ => parse_digits 0 false t
       end.

Definition is_ascii (s : string) : bool :=
  forallb (fun c => (nat_of_ascii c <? 128)%nat) (list_ascii_of_string s).

Definition continuation (c : ascii) : option N :=
  let n := N_of_ascii c in
  if ((128 <=? n) && (n <=? 191))%N then Some (n - 128)%N else None.

(** The code points of a text stored as UTF-8; [None] when the bytes are
    no UTF-8 (overlong forms and surrogates included), which no [str]
    read from the store is. *)
Fixpoint utf8_decode (s : string) : option (list N) :=
  match s with
  | "" => Some []
  | String b0 r0 =>
      let n0 := N_of_ascii b0 in
      if (n0 <? 128)%N then cons n0 <$> utf8_decode r0
      else if ((194 <=? n0) && (n0 <=? 223))%N then
        match r0 with
        | String b1 r1 =>
            match continuation b1 with
            | Some c1 => cons ((n0 - 192) * 64 + c1)%N <$> utf8_decode r1
            | None => None
            end
        | _ => None
        end
      else if ((224 <=? n0) && (n0 <=? 239))%N then
        match r0 with
        | String b1 (String b2 r2) =>
            match continuation b1, continuation b2 with
            | Some c1, Some c2 =>
                let cp := ((n0 - 224) * 4096 + c1 * 64 + c2)%N in
                if ((2048 <=? cp) && negb ((55296 <=? cp) && (cp <=? 57343)))%N
                then cons cp <$> utf8_decode r2
                else None
            | _, _ => None
            end
        | _ => None
        end
      else if ((240 <=? n0) && (n0 <=? 244))%N then
        match r0 with
        | String b1 (String b2 (String b3 r3)) =>
            match continuation b1, continuation b2, continuation b3 with
            | Some c1, Some c2, Some c3 =>
                let cp := ((n0 - 240) * 262144 + c1 * 4096 + c2 * 64 + c3)%N in
                if ((65536 <=? cp) && (cp <=? 1114111))%N
                then cons cp <$> utf8_decode r3
                else None
            | _, _, _ => None
            end
        | _ => None
        end
      else None
  end.

(** The code points from 128 on for which [str.isspace] holds
    (Unicode 14.0, as in CPython 3.11). *)
Definition UNICODE_SPACES : list N :=
  [ 133; 160; 5760; 8192; 8193; 8194; 8195; 8196; 8197; 8198; 8199; 8200;
    8201; 8202; 8232; 8233; 8239; 8287; 12288 ]%N.

(** The digit zero of every decimal-digit block from 128 on (Unicode 14.0):
    the ten digits of a block follow one another. *)
Definition DECIMAL_ZEROS : list N :=
  [ 1632; 1776; 1984; 2406; 2534; 2662; 2790; 2918; 3046; 3174; 3302; 3430;
    3558; 3664; 3792; 3872; 4160; 4240; 6112; 6160; 6470; 6608; 6784; 6800;
    6992; 7088; 7232; 7248; 42528; 43216; 43264; 43472; 43504; 43600; 44016;
    65296; 66720; 68912; 69734; 69872; 69942; 70096; 70384; 70736; 70864;
    71248; 71360; 71472; 71904; 72016; 72784; 73040; 73120; 92768; 92864;
    93008; 120782; 120792; 120802; 120812; 120822; 123200; 123632; 125264;
    130032 ]%N.

(** [Py_UNICODE_TODECIMAL] from 128 on. *)
Definition to_decimal (cp : N) : option N :=
  (fun z => cp - z)%N <$>
    List.find (fun z => ((z <=? cp) && (cp <? z + 10))%N) DECIMAL_ZEROS.

(** [_PyUnicode_TransformDecimalAndSpaceToASCII]: blanks become a space,
    decimal digits their ASCII digit; at the first other character from
    127 on the text is cut and ends in [?]. *)
Fixpoint transform_to_ascii (cps : list N) : string :=
  match cps with
  | [] => ""
  | cp :: rest =>
      if (cp <? 127)%N then String (ascii_of_N cp) (transform_to_ascii rest)
      else if existsb (N.eqb cp) UNICODE_SPACES
      then String " " (transform_to_ascii rest)
      else match to_decimal cp with
           | Some d => String (ascii_of_N (48 + d)) (transform_to_ascii rest)
           | None => "?"
           end
  end.

(** [int(s)] in base 10; [None] is [ValueError]. ASCII text is read as it
    is, other text after the transformation above. *)
Definition py_int (s : string) : option Z :=
  if is_ascii s then int_of_ascii s
  else match utf8_decode s with
       | Some cps => int_of_ascii (transform_to_ascii cps)
       | None => None
       end.

(** [s[-n:]] for [n > 0] *)
Definition last (n : nat) (s : string) : string :=
  String.substring (String.length s - n) n s.

(** [str(z)] *)
Definition of_Z (z : Z) : string := NilZero.string_of_int (Z.to_int z).

End PyStr.

(** ** Python numbers: [float] is IEEE binary64, [int] is unbounded *)

Module PyNum.

Definition Z2SF (z : Z) : spec_float :=
  match z with
  | Z0 => S754_zero false
  | Zpos p => S754_finite false p 0
  | Zneg p => S754_finite true p 0
  end.

(** [a / b] on two [int]s: the correctly rounded quotient; [None] is
    [ZeroDivisionError] or [OverflowError]. *)
Definition truediv (a b : Z) : option float :=
  if (b =? 0)%Z then None
  else match SFdiv prec emax (Z2SF a) (Z2SF b) with
       | S754_infinity _ | S754_nan => None
       | q => Some (SF2Prim q)
       end.

(** The integer part of a finite binary float, rounded toward zero. *)
Definition SF_trunc (x : spec_float) : option Z :=
  match x with
  | S754_zero _ => Some 0%Z
  | S754_finite s m e =>
      let mag := if (0 <=? e)%Z then (Z.pos m * 2 ^ e)%Z else (Z.pos m / 2 ^ (- e))%Z in
      Some (if s then (- mag)%Z else mag)
  | S754_infinity _ | S754_nan => None
  end.

(** The greatest integer below a finite binary float. *)
Definition SF_floor (x : spec_float) : option Z :=
  match x with
  | S754_zero _ => Some 0%Z
  | S754_finite s m e =>
      if (0 <=? e)%Z
      then Some (if s then (- (Z.pos m * 2 ^ e))%Z else (Z.pos m * 2 ^ e)%Z)
      else Some (if s then (- ((Z.pos m + 2 ^ (- e) - 1) / 2 ^ (- e)))%Z
                 else (Z.pos m / 2 ^ (- e))%Z)
  | S754_infinity _ | S754_nan => None
  end.

(** [int(x)] on a [float]: truncation toward zero; [None] is the
    [ValueError] (nan) or [OverflowError] (infinity) it raises. *)
Definition int (x : float) : option Z := SF_trunc (Prim2SF x).

(** [math.floor(x)] *)
Definition floor (x : float) : option Z := SF_floor (Prim2SF x).

End PyNum.

(** ** [pathlib.Path] and [os.path] on POSIX path strings

    Paths are the strings the program stores: joined by [os.path.join] from
    a walk or taken from a request, without a trailing slash. *)

Module PyPath.
Import PyStr.

(** [Path(p).name] *)
Definition name (p : string) : string :=
  match rsplit1 "/" p with
  | Some (_, b) => b
  | None => p
  end.

(** [str(Path(p).parent)] *)
Definition parent (p : string) : string :=
  match rsplit1 "/" p with
  | Some ("", _) => "/"
  | Some (a, _) => a
  | None => "."
  end.

(** [Path(p).suffix]: from the last dot of the name, unless that dot is the
    first or the last character. *)
Definition suffix (p : string) : string :=
  match rsplit1 "." (name p) with
  | Some (String a0 a, String b0 b) => String "." (String b0 b)
  | _ => ""
  end.

(** [Path(p).stem] *)
Definition stem (p : string) : string :=
  match rsplit1 "." (name p) with
  | Some (String a0 a, String _ _) => String a0 a
  | _ => name p
  end.

(** [os.path.join(a, b)] *)
Definition join (a b : string) : string :=
  if startswith "/" b then b
  else match a with
       | "" => b
       | _ => match rsplit1 "/" a with
              | Some (_, "") => a +:+ b
              | _ => a +:+ "/" +:+ b
              end
       end.

End PyPath.

(** ** The store: tables of [/config/shrync.db] *)

Inductive QueueStatus := Pending | Processing | QError.
Inductive HistoryStatus := Success | HError.

Definition QueueStatus_eqb (a b : QueueStatus) : bool :=
  match a, b with
  | Pending, Pending | Processing, Processing | QError, QError => true
  | _, _ => false
  end.

Record LibraryRow := {
  l_id : string;
  l_name : string;
  l_path : string;
  l_enabled : bool;
  l_scan_interval : Z;
  l_last_scan : option string
}.

Record QueueRow := {
  q_id : string;
  q_library_id : option string;
  q_file_path : string;
  q_file_size : Z;
  q_status : QueueStatus;
  q_progress : Z;
  q_fps : float;
  q_eta : string;
  q_added_at : string;
  q_started_at : option string;
  q_finished_at : option string;
  q_error_msg : option string;
  q_original_size : Z;
  q_new_size : Z
}.

Record HistoryRow := {
  h_id : string;
  h_library_id : option string;
  h_file_path : string;
  h_original_size : Z;
  h_new_size : Z;
  h_duration_seconds : Z;
  h_status : HistoryStatus;
  h_error_msg : option string;
  h_finished_at : string
}.

Record Db := {
  libraries : list LibraryRow;
  queue : list QueueRow;
  history : list HistoryRow;
  settings : gmap string string
}.

Definition set_queue (f : list QueueRow -> list QueueRow) (d : Db) : Db :=
  {| libraries := libraries d; queue := f (queue d);
     history := history d; settings := settings d |}.

Definition set_history (f : list HistoryRow -> list HistoryRow) (d : Db) : Db :=
  {| libraries := libraries d; queue := queue d;
     history := f (history d); settings := settings d |}.

Definition set_libraries (f : list LibraryRow -> list LibraryRow) (d : Db) : Db :=
  {| libraries := f (libraries d); queue := queue d;
     history := history d; settings := settings d |}.

(** [INSERT INTO queue (id,library_id,file_path,file_size[,status])]: the
    other columns take their declared defaults; [status] defaults to
    ['pending'], [added_at] to the store's [CURRENT_TIMESTAMP]. *)
Definition new_queue_row (jid : string) (lib : option string) (fpath : string)
    (fsize : Z) (timestamp : string) : QueueRow :=
  {| q_id := jid; q_library_id := lib; q_file_path := fpath;
     q_file_size := fsize; q_status := Pending; q_progress := 0;
     q_fps := 0%float; q_eta := ""; q_added_at := timestamp;
     q_started_at := None; q_finished_at := None; q_error_msg := None;
     q_original_size := 0; q_new_size := 0 |}.

(** [SELECT * FROM queue WHERE id=?] with [fetchone] *)
Definition queue_by_id (jid : string) (q : list QueueRow) : option QueueRow :=
  List.find (fun r => String.eqb (q_id r) jid) q.

(** [UPDATE queue SET ... WHERE id=?] *)
Definition queue_update (jid : string) (f : QueueRow -> QueueRow)
    (q : list QueueRow) : list QueueRow :=
  List.map (fun r => if String.eqb (q_id r) jid then f r else r) q.

(** [DELETE FROM queue WHERE id=?] *)
Definition queue_delete (jid : string) (q : list QueueRow) : list QueueRow :=
  List.filter (fun r => negb (String.eqb (q_id r) jid)) q.

(** The duplicate check of the scanner, the watcher and the API:
    [SELECT id FROM queue WHERE file_path=? AND status IN
    ('pending','processing')] with [fetchone]. *)
Definition is_active (r : QueueRow) : bool :=
  match q_status r with
  | Pending | Processing => true
  | QError => false
  end.

Definition queue_existing (fpath : string) (q : list QueueRow) : option string :=
  q_id <$> List.find (fun r => String.eqb (q_file_path r) fpath && is_active r) q.

(** [SELECT id FROM history WHERE file_path=? AND status='success'] *)
Definition history_done (fpath : string) (h : list HistoryRow) : option string :=
  h_id <$> List.find (fun r => String.eqb (h_file_path r) fpath &&
                     match h_status r with Success => true | HError => false end) h.

(** ** Settings helper *)

Definition get_global_setting (d : Db) (key default : string) : string :=
  match settings d !! key with
  | Some v => v
  | None => default
  end.

Definition get_max_workers (d : Db) : Z :=
  match PyStr.py_int (get_global_setting d "max_workers" "1") with
  | Some v => Z.max 1 (Z.min 3 v)
  | None => 1
  end.


(** ** Conversion profiles *)

Definition Profile : Type := string * string * string.

Definition PROFILES : list (string * Profile) :=
  [ ("nvenc_max",      ("hevc_nvenc", "p7", "19"));
    ("nvenc_high",     ("hevc_nvenc", "p6", "23"));
    ("nvenc_balanced", ("hevc_nvenc", "p4", "26"));
    ("cpu_slow",       ("libx265", "slow", "22"));
    ("cpu_medium",     ("libx265", "medium", "24"));
    ("cpu_fast",       ("libx265", "fast", "26"));
    ("h264_nvenc",     ("h264_nvenc", "p6", "20"));
    ("h264_cpu",       ("libx264", "medium", "22")) ].

Definition profiles_get (profile_id : string) : option Profile :=
  snd <$> List.find (fun kv => String.eqb (fst kv) profile_id) PROFILES.

Definition profile_to_ffmpeg (profile_id : string) : Profile :=
  match profiles_get profile_id with
  | Some p => p
  | None => ("hevc_nvenc", "p7", "19")
  end.

(** ** The filesystem and the probe

    A regular file is what the program can observe of it: its size and what
    [ffprobe] prints for it ([None]: the probe fails, times out or prints no
    JSON). [files] holds every path that names a regular file (or a link to
    one); [dirs] gives the tree [os.walk] sees below a directory path;
    [mount_of] tells which mounted filesystem a path lives on, because
    [os.rename] does not cross mounts. *)

Record Stream := { codec_type : string; codec_name : string }.

Record File := {
  f_size : Z;
  f_streams : option (list Stream);
  f_duration : option float
}.

(** [Dir name readable files subdirs]: a directory entry called [name];
    [files] are its non-directory entries as [os.walk] lists them (dangling
    links included), [readable] is false when [os.listdir] raises. The name
    of the tree's root is not used: the root is reached by its path. *)
Inductive DirTree :=
| Dir (name : string) (readable : bool) (files : list string) (subdirs : list DirTree).

Record FS := {
  files : gmap string File;
  dirs : gmap string DirTree;
  mount_of : string -> nat
}.

Definition set_files (f : gmap string File -> gmap string File) (fs : FS) : FS :=
  {| files := f (files fs); dirs := dirs fs; mount_of := mount_of fs |}.

Inductive OSError :=
| ENOENT (path : string)
| EXDEV (src dst : string).

(** [str(e)] for the exceptions above. *)
Definition OSError_str (e : OSError) : string :=
  match e with
  | ENOENT p => "[Errno 2] No such file or directory: '" +:+ p +:+ "'"
  | EXDEV a b => "[Errno 18] Invalid cross-device link: '" +:+ a +:+ "' -> '" +:+ b +:+ "'"
  end.

Definition os_path_exists (fs : FS) (p : string) : bool :=
  match files fs !! p with Some _ => true | None => false end.


Definition os_path_getsize (fs : FS) (p : string) : OSError + Z :=
  match files fs !! p with
  | Some f => inr (f_size f)
  | None => inl (ENOENT p)
  end.

Definition os_remove (fs : FS) (p : string) : OSError + FS :=
  match files fs !! p with
  | Some _ => inr (set_files (delete p) fs)
  | None => inl (ENOENT p)
  end.

Definition os_rename (fs : FS) (a b : string) : OSError + FS :=
  match files fs !! a with
  | None => inl (ENOENT a)
  | Some f =>
      if Nat.eqb (mount_of fs a) (mount_of fs b)
      then inr (set_files (fun m => <[b := f]> (delete a m)) fs)
      else inl (EXDEV a b)
  end.

(** [os.walk(path)] with the scanner's pruning [dirs[:] = [d for d in dirs
    if not d.startswith('.')]] applied before descending; an unreadable
    directory yields nothing. Each item is [(root, files)]. *)
Fixpoint os_walk (root : string) (t : DirTree) : list (string * list string) :=
  match t with
  | Dir _ false _ _ => []
  | Dir _ true fnames subs =>
      (root, fnames) ::
      (fix descend (l : list DirTree) : list (string * list string) :=
         match l with
         | [] => []
         | (Dir d _ _ _ as sub) :: l' =>
             if PyStr.startswith "." d then descend l'
             else (os_walk (PyPath.join root d) sub ++ descend l')%list
         end) subs
  end.

(** The video streams [ffprobe -show_streams] reports; [None] is any
    failure ([json.loads] raising, timeout). A missing file makes ffprobe
    print an empty JSON object. *)
Definition ffprobe_streams (fs : FS) (p : string) : option (list Stream) :=
  match files fs !! p with
  | Some f => f_streams f
  | None => Some []
  end.

(** [float(info.get("format", {}).get("duration", 0))], [None] on failure. *)
Definition ffprobe_duration (fs : FS) (p : string) : option float :=
  match files fs !! p with
  | Some f => f_duration f
  | None => None
  end.

Definition VIDEO_EXTENSIONS : list string :=
  [".mkv"; ".mp4"; ".avi"; ".mov"; ".m4v"; ".ts"; ".wmv"; ".flv"].

Definition str_in (s : string) (l : list string) : bool :=
  existsb (String.eqb s) l.

Definition needs_conversion (fs : FS) (file_path target_codec : string) : bool :=
  match ffprobe_streams fs file_path with
  | None => true
  | Some streams =>
      negb (existsb (fun st =>
        String.eqb (codec_type st) "video" &&
        ((PyStr.contains "hevc" target_codec && str_in (codec_name st) ["hevc"; "h265"]) ||
         (PyStr.contains "h264" target_codec && String.eqb (codec_name st) "h264")))
        streams)
  end.

(** ** Process-wide state *)

(** A transcoder child: still running, or exited with a return code. *)
Inductive Process := Running | Exited (returncode : Z).

Record ScanStatus := {
  ss_status : string;
  ss_scanned : Z;
  ss_added : Z;
  ss_skipped : Z;
  ss_already_converted : Z;
  ss_current_file : string;
  ss_path : string;
  ss_error : option string
}.

(** [active_jobs] maps a slot name to the job id and the handle (pid) of
    its transcoder; the handle is shared with [st_procs], so a kill through
    one slot is seen by the worker waiting on the same child. *)
Record State := {
  st_db : Db;
  st_fs : FS;
  st_procs : gmap nat Process;
  active_jobs : gmap string (string * nat);
  scan_status : gmap string ScanStatus
}.

Definition with_db (f : Db -> Db) (s : State) : State :=
  {| st_db := f (st_db s); st_fs := st_fs s; st_procs := st_procs s;
     active_jobs := active_jobs s; scan_status := scan_status s |}.

Definition with_fs (f : FS -> FS) (s : State) : State :=
  {| st_db := st_db s; st_fs := f (st_fs s); st_procs := st_procs s;
     active_jobs := active_jobs s; scan_status := scan_status s |}.

Definition with_procs (f : gmap nat Process -> gmap nat Process) (s : State) : State :=
  {| st_db := st_db s; st_fs := st_fs s; st_procs := f (st_procs s);
     active_jobs := active_jobs s; scan_status := scan_status s |}.

Definition with_active_jobs
    (f : gmap string (string * nat) -> gmap string (string * nat)) (s : State) : State :=
  {| st_db := st_db s; st_fs := st_fs s; st_procs := st_procs s;
     active_jobs := f (active_jobs s); scan_status := scan_status s |}.

Definition with_scan_status
    (f : gmap string ScanStatus -> gmap string ScanStatus) (s : State) : State :=
  {| st_db := st_db s; st_fs := st_fs s; st_procs := st_procs s;
     active_jobs := active_jobs s; scan_status := f (scan_status s) |}.

Section Shrync.

(** [os.environ] at import time. *)
Variable environ : gmap string string.

Definition CACHE_DIR : string :=
  PyStr.strip (default "" (environ !! "CACHE_DIR")).

(** [os.environ.get("GPU_MODE", "cpu").lower()] *)
Definition gpu_mode : string :=
  PyStr.lower (default "cpu" (environ !! "GPU_MODE")).

(** ** Scanner *)

(** The loop state of [scan_library]: the connection's view of the store
    and the library's entry of [scan_status]; the local counters [scanned],
    [added], [skipped], [already_converted] are always written to the entry
    in the same breath, so the entry stands for them. *)
Record Scan := { sc_db : Db; sc_st : ScanStatus }.

Definition count_scanned (fname : string) (s : Scan) : Scan :=
  let t := sc_st s in
  {| sc_db := sc_db s;
     sc_st := {| ss_status := ss_status t; ss_scanned := ss_scanned t + 1;
                 ss_added := ss_added t; ss_skipped := ss_skipped t;
                 ss_already_converted := ss_already_converted t;
                 ss_current_file := fname; ss_path := ss_path t;
                 ss_error := ss_error t |} |}.

Definition count_skipped (s : Scan) : Scan :=
  let t := sc_st s in
  {| sc_db := sc_db s;
     sc_st := {| ss_status := ss_status t; ss_scanned := ss_scanned t;
                 ss_added := ss_added t; ss_skipped := ss_skipped t + 1;
                 ss_already_converted := ss_already_converted t;
                 ss_current_file := ss_current_file t; ss_path := ss_path t;
                 ss_error := ss_error t |} |}.

Definition count_already_converted (s : Scan) : Scan :=
  let t := sc_st s in
  {| sc_db := sc_db s;
     sc_st := {| ss_status := ss_status t; ss_scanned := ss_scanned t;
                 ss_added := ss_added t; ss_skipped := ss_skipped t;
                 ss_already_converted := ss_already_converted t + 1;
                 ss_current_file := ss_current_file t; ss_path := ss_path t;
                 ss_error := ss_error t |} |}.

Definition count_added (row : QueueRow) (s : Scan) : Scan :=
  let t := sc_st s in
  {| sc_db := set_queue (fun q => q ++ [row])%list (sc_db s);
     sc_st := {| ss_status := ss_status t; ss_scanned := ss_scanned t;
                 ss_added := ss_added t + 1; ss_skipped := ss_skipped t;
                 ss_already_converted := ss_already_converted t;
                 ss_current_file := ss_current_file t; ss_path := ss_path t;
                 ss_error := ss_error t |} |}.

Section Scanner.

(** What one run of [scan_library] is given from outside: the filesystem
    (unchanged while it runs), the values [uuid.uuid4()] returns, in order,
    and the store's [CURRENT_TIMESTAMP]. *)
Variable fs : FS.
Variable library_id : string.
Variable uuid4 : nat -> string.
Variable timestamp : string.

(** The body of [for fname in files]; the flag is [false] when an
    exception leaves the function ([os.path.getsize] on a vanished file or
    a dangling link), in which case the rows committed so far stay. *)
Definition scan_file (root fname : string) (s : Scan) : Scan * bool :=
  let ext := PyStr.lower (PyPath.suffix fname) in
  if negb (str_in ext VIDEO_EXTENSIONS) then (s, true) else
  let fpath := PyPath.join root fname in
  if PyStr.contains "_shrync_" fname then (s, true) else
  if negb (String.eqb CACHE_DIR "") && PyStr.contains CACHE_DIR fpath then (s, true) else
  let s := count_scanned fname s in
  match queue_existing fpath (queue (sc_db s)) with
  | Some _ => (count_skipped s, true)
  | None =>
  match history_done fpath (history (sc_db s)) with
  | Some _ => (count_skipped s, true)
  | None =>
      let profile_id := get_global_setting (sc_db s) "conversion_profile" "nvenc_max" in
      let '(global_codec, _, _) := profile_to_ffmpeg profile_id in
      if negb (needs_conversion fs fpath global_codec)
      then (count_already_converted s, true)
      else
        match os_path_getsize fs fpath with
        | inl _ => (s, false)
        | inr fsize =>
            let jid := uuid4 (Z.to_nat (ss_added (sc_st s))) in
            (count_added (new_queue_row jid (Some library_id) fpath fsize timestamp) s,
             true)
        end
  end
  end.

Fixpoint scan_files (root : string) (fnames : list string) (s : Scan) : Scan * bool :=
  match fnames with
  | [] => (s, true)
  | fname :: rest =>
      let '(s', ok) := scan_file root fname s in
      if ok then scan_files root rest s' else (s', false)
  end.

(** [for root, dirs, files in os.walk(path)] *)
Fixpoint scan_walk (walk : list (string * list string)) (s : Scan) : Scan * bool :=
  match walk with
  | [] => (s, true)
  | (root, fnames) :: rest =>
      let '(s', ok) := scan_files root fnames s in
      if ok then scan_walk rest s' else (s', false)
  end.

End Scanner.

Definition library_by_id (lid : string) (l : list LibraryRow) : option LibraryRow :=
  List.find (fun r => String.eqb (l_id r) lid) l.

Definition set_last_scan (lid now : string) (l : list LibraryRow) : list LibraryRow :=
  List.map (fun r =>
    if String.eqb (l_id r) lid
    then {| l_id := l_id r; l_name := l_name r; l_path := l_path r;
            l_enabled := l_enabled r; l_scan_interval := l_scan_interval r;
            l_last_scan := Some now |}
    else r) l.

Definition scan_started (path : string) : ScanStatus :=
  {| ss_status := "scanning"; ss_scanned := 0; ss_added := 0; ss_skipped := 0;
     ss_already_converted := 0; ss_current_file := ""; ss_path := path;
     ss_error := None |}.

Definition scan_failed (path msg : string) : ScanStatus :=
  {| ss_status := "error"; ss_scanned := 0; ss_added := 0; ss_skipped := 0;
     ss_already_converted := 0; ss_current_file := ""; ss_path := path;
     ss_error := Some msg |}.

Definition scan_done (t : ScanStatus) : ScanStatus :=
  {| ss_status := "done"; ss_scanned := ss_scanned t; ss_added := ss_added t;
     ss_skipped := ss_skipped t; ss_already_converted := ss_already_converted t;
     ss_current_file := ""; ss_path := ss_path t; ss_error := ss_error t |}.

(** [scan_library(library_id)]; [now] is [datetime.utcnow().isoformat()] at
    the end of the walk. When an exception escapes the walk the thread
    ends there: the rows already committed and the counters stay, the
    status entry still says [scanning]. *)
Definition scan_library (library_id : string) (uuid4 : nat -> string)
    (timestamp now : string) (st : State) : State :=
  match library_by_id library_id (libraries (st_db st)) with
  | None => st
  | Some lib =>
      let path := l_path lib in
      match dirs (st_fs st) !! path with
      | None =>
          with_scan_status
            <[library_id := scan_failed path ("Map niet gevonden: " +:+ path)]> st
      | Some (Dir _ false _ _) =>
          with_scan_status
            <[library_id := scan_failed path
                ("Kan map niet lezen: [Errno 13] Permission denied: '" +:+ path +:+ "'")]> st
      | Some tree =>
          let '(s, ok) :=
            scan_walk (st_fs st) library_id uuid4 timestamp (os_walk path tree)
                      {| sc_db := st_db st; sc_st := scan_started path |} in
          if ok
          then with_scan_status <[library_id := scan_done (sc_st s)]>
                 (with_db (fun _ => set_libraries (set_last_scan library_id now) (sc_db s)) st)
          else with_scan_status <[library_id := sc_st s]>
                 (with_db (fun _ => sc_db s) st)
      end
  end.

(** ** Startup recovery *)

Definition reset_to_pending (r : QueueRow) : QueueRow :=
  {| q_id := q_id r; q_library_id := q_library_id r; q_file_path := q_file_path r;
     q_file_size := q_file_size r; q_status := Pending; q_progress := 0;
     q_fps := 0%float; q_eta := ""; q_added_at := q_added_at r;
     q_started_at := None; q_finished_at := q_finished_at r;
     q_error_msg := q_error_msg r; q_original_size := q_original_size r;
     q_new_size := q_new_size r |}.

(** The temp path [cleanup_stale_conversions] computes for a job. *)
Definition cleanup_tmp_file (job : QueueRow) : string :=
  let src_name := PyPath.stem (q_file_path job) +:+ "_" +:+ PyStr.take 8 (q_id job) +:+ ".mkv" in
  PyPath.join CACHE_DIR src_name.

(** The body of [for job in stale_jobs]. *)
Definition cleanup_job (st : State) (job : QueueRow) : State :=
  let tmp_file := cleanup_tmp_file job in
  let st :=
    if os_path_exists (st_fs st) tmp_file
    then match os_remove (st_fs st) tmp_file with
         | inr fs' => with_fs (fun _ => fs') st
         | inl _ => st
         end
    else st in
  with_db (set_queue (queue_update (q_id job) reset_to_pending)) st.

Definition cleanup_stale_conversions (st : State) : State :=
  let stale_jobs :=
    List.filter (fun r => QueueStatus_eqb (q_status r) Processing) (queue (st_db st)) in
  fold_left cleanup_job stale_jobs st.

(** ** Conversion *)

(** The temp output path [run_conversion] writes to. *)
Definition tmp_out_of (src job_id : string) : string :=
  let src_name := PyPath.stem src +:+ "_shrync_" +:+ PyStr.take 8 job_id +:+ ".mkv" in
  let _cache := if String.eqb CACHE_DIR "" then PyPath.parent src else CACHE_DIR in
  PyPath.join _cache src_name.

Definition is_nvenc_of (video_codec : string) : bool :=
  PyStr.contains "nvenc" video_codec && String.eqb gpu_mode "nvidia".

Definition effective_codec_of (video_codec : string) : string :=
  if PyStr.contains "nvenc" video_codec && negb (String.eqb gpu_mode "nvidia")
  then (if PyStr.contains "hevc" video_codec then "libx265" else "libx264")
  else video_codec.

(** The argument vector handed to [subprocess.Popen]. *)
Definition ffmpeg_cmd (src video_codec preset quality audio_codec tmp_out : string)
    : list string :=
  let effective_codec := effective_codec_of video_codec in
  if is_nvenc_of video_codec
  then [ "ffmpeg"; "-y"; "-i"; src; "-c:v"; effective_codec; "-preset"; preset;
         "-rc"; "constqp"; "-qp"; quality; "-b:v"; "0"; "-c:a"; audio_codec;
         "-c:s"; "copy"; "-progress"; "pipe:1"; "-nostats"; tmp_out ]
  else [ "ffmpeg"; "-y"; "-i"; src; "-c:v"; effective_codec; "-preset"; preset;
         "-crf"; quality; "-c:a"; audio_codec;
         "-c:s"; "copy"; "-progress"; "pipe:1"; "-nostats"; tmp_out ].

(** The locals of [run_conversion] that live across the transcode. *)
Record Conversion := {
  c_job : QueueRow;
  c_job_id : string;
  c_src : string;
  c_tmp_out : string;
  c_cmd : list string;
  c_duration : float;
  c_original_size : Z;
  c_slot_id : string;
  c_process : nat;
  c_out_time_us : Z
}.

Definition set_out_time_us (v : Z) (c : Conversion) : Conversion :=
  {| c_job := c_job c; c_job_id := c_job_id c; c_src := c_src c;
     c_tmp_out := c_tmp_out c; c_cmd := c_cmd c; c_duration := c_duration c;
     c_original_size := c_original_size c; c_slot_id := c_slot_id c;
     c_process := c_process c; c_out_time_us := v |}.

Definition mark_missing (now : string) (r : QueueRow) : QueueRow :=
  {| q_id := q_id r; q_library_id := q_library_id r; q_file_path := q_file_path r;
     q_file_size := q_file_size r; q_status := QError; q_progress := q_progress r;
     q_fps := q_fps r; q_eta := q_eta r; q_added_at := q_added_at r;
     q_started_at := q_started_at r; q_finished_at := Some now;
     q_error_msg := Some "Bestand niet gevonden";
     q_original_size := q_original_size r; q_new_size := q_new_size r |}.

Definition mark_processing (now : string) (original_size : Z) (r : QueueRow) : QueueRow :=
  {| q_id := q_id r; q_library_id := q_library_id r; q_file_path := q_file_path r;
     q_file_size := q_file_size r; q_status := Processing; q_progress := q_progress r;
     q_fps := q_fps r; q_eta := q_eta r; q_added_at := q_added_at r;
     q_started_at := Some now; q_finished_at := q_finished_at r;
     q_error_msg := q_error_msg r;
     q_original_size := original_size; q_new_size := q_new_size r |}.

Definition set_progress (progress : Z) (fps_val : float) (eta : string)
    (r : QueueRow) : QueueRow :=
  {| q_id := q_id r; q_library_id := q_library_id r; q_file_path := q_file_path r;
     q_file_size := q_file_size r; q_status := q_status r; q_progress := progress;
     q_fps := fps_val; q_eta := eta; q_added_at := q_added_at r;
     q_started_at := q_started_at r; q_finished_at := q_finished_at r;
     q_error_msg := q_error_msg r;
     q_original_size := q_original_size r; q_new_size := q_new_size r |}.

(** How the first part of [run_conversion] ends: it returns early, an
    exception leaves it, or the transcoder is running and registered. *)
Inductive Begun :=
| Returned (st : State)
| Raised (st : State)
| Spawned (c : Conversion) (st : State).

(** [run_conversion(job_id)] up to the registration in [active_jobs].
    [slot_id] is the worker thread's name, [now] the clock at the claim,
    [popen] the handle of the child [subprocess.Popen] returns, or [None]
    when it raises (no transcoder binary). *)
Definition run_conversion_begin (job_id slot_id now : string) (popen : option nat)
    (st : State) : Begun :=
  match queue_by_id job_id (queue (st_db st)) with
  | None => Returned st
  | Some job =>
      let src := q_file_path job in
      if negb (os_path_exists (st_fs st) src)
      then Returned (with_db (set_queue (queue_update job_id (mark_missing now))) st)
      else
        let tmp_out := tmp_out_of src job_id in
        let profile := get_global_setting (st_db st) "conversion_profile" "nvenc_max" in
        let '(video_codec, preset, quality) := profile_to_ffmpeg profile in
        let audio_codec := get_global_setting (st_db st) "audio_codec" "copy" in
        let duration := default 0%float (ffprobe_duration (st_fs st) src) in
        let cmd := ffmpeg_cmd src video_codec preset quality audio_codec tmp_out in
        match os_path_getsize (st_fs st) src with
        | inl _ => Raised st
        | inr original_size =>
            let st := with_db (set_queue
                        (queue_update job_id (mark_processing now original_size))) st in
            match popen with
            | None => Raised st
            | Some process =>
                let st := with_procs <[process := Running]> st in
                let st := with_active_jobs <[slot_id := (job_id, process)]> st in
                Spawned {| c_job := job; c_job_id := job_id; c_src := src;
                           c_tmp_out := tmp_out; c_cmd := cmd; c_duration := duration;
                           c_original_size := original_size; c_slot_id := slot_id;
                           c_process := process; c_out_time_us := 0 |} st
            end
        end
  end.

(** What one [fps=] frame commits, from the locals [duration],
    [out_time_us] and the parsed [fps_val]: [(progress, eta)], or [None]
    when an exception is swallowed by the frame's [except: pass] and
    nothing is committed. *)
Definition fps_frame (duration : float) (out_time_us : Z) (fps_val : float)
    : option (Z * string) :=
  if (0 <? duration)%float then
    current_sec ← PyNum.truediv out_time_us 1000000;
    p ← PyNum.int (current_sec / duration * 100)%float;
    let progress := Z.min p 99 in
    if (0 <? fps_val)%float then
      remaining_sec ← PyNum.int ((duration - current_sec) / fps_val * 25)%float;
      Some (progress,
            PyStr.of_Z (remaining_sec / 60) +:+ "m" +:+
            PyStr.of_Z (remaining_sec mod 60) +:+ "s")
    else Some (progress, "")
  else Some (0, "").

Section Stdout.

(** [float(s)] on the text of a frame: Python's decimal-to-binary64
    conversion, [None] when it raises. *)
Variable py_float : string -> option float.

(** The body of [for line in process.stdout]. *)
Definition run_conversion_stdout (line : string) (c : Conversion) (st : State)
    : Conversion * State :=
  let line := PyStr.strip line in
  if PyStr.startswith "out_time_us=" line then
    match PyStr.split_eq_1 line ≫= PyStr.py_int with
    | Some v => (set_out_time_us v c, st)
    | None => (c, st)
    end
  else if PyStr.startswith "fps=" line then
    match PyStr.split_eq_1 line ≫= py_float with
    | None => (c, st)
    | Some fps_val =>
        match fps_frame (c_duration c) (c_out_time_us c) fps_val with
        | None => (c, st)
        | Some (progress, eta) =>
            (c, with_db (set_queue
                  (queue_update (c_job_id c) (set_progress progress fps_val eta))) st)
        end
    end
  else (c, st).

End Stdout.

Definition new_history_row (hid : string) (lib : option string) (fpath : string)
    (original_size new_size elapsed : Z) (status : HistoryStatus)
    (error_msg : option string) (now : string) : HistoryRow :=
  {| h_id := hid; h_library_id := lib; h_file_path := fpath;
     h_original_size := original_size; h_new_size := new_size;
     h_duration_seconds := elapsed; h_status := status;
     h_error_msg := error_msg; h_finished_at := now |}.

(** [if os.path.exists(tmp_out): try: os.remove(tmp_out) except: pass] *)
Definition remove_if_exists (p : string) (fs : FS) : FS :=
  if os_path_exists fs p
  then match os_remove fs p with inr fs' => fs' | inl _ => fs end
  else fs.

(** Record an error in history, drop the queue row. *)
Definition finish_error (c : Conversion) (hid now : string) (elapsed : Z)
    (msg : string) (st : State) : State :=
  with_db (fun d =>
    set_queue (queue_delete (c_job_id c))
      (set_history (fun h =>
         h ++ [new_history_row hid (q_library_id (c_job c)) (c_src c)
                 (c_original_size c) 0 elapsed HError (Some msg) now])%list d)) st.

(** [run_conversion] from [process.wait()] on. It can only proceed once
    the child has exited ([None]: the worker is still blocked in [wait]).
    [stderr_out] is what the drain thread collected, [elapsed] the wall
    time in seconds, [hid] the fresh uuid of the history row. *)
Definition run_conversion_end (c : Conversion) (stderr_out : string) (elapsed : Z)
    (now hid : string) (st : State) : option State :=
  match st_procs st !! c_process c with
  | Some (Exited returncode) =>
      let st := with_active_jobs (delete (c_slot_id c)) st in
      let src := c_src c in
      let tmp_out := c_tmp_out c in
      if (returncode =? 0)%Z && os_path_exists (st_fs st) tmp_out then
        let new_size := match os_path_getsize (st_fs st) tmp_out with
                        | inr n => n | inl _ => 0 end in
        let moved :=
          match os_remove (st_fs st) src with
          | inl e => inl (e, st_fs st)
          | inr fs1 =>
              match os_rename fs1 tmp_out src with
              | inl e => inl (e, fs1)
              | inr fs2 => inr fs2
              end
          end in
        match moved with
        | inl (e, fs') =>
            let st := with_fs (fun _ => remove_if_exists tmp_out fs') st in
            let err_msg := "Bestand verplaatsen mislukt: " +:+ OSError_str e in
            Some (finish_error c hid now elapsed err_msg st)
        | inr fs' =>
            let st := with_fs (fun _ => fs') st in
            Some (with_db (fun d =>
              set_queue (queue_delete (c_job_id c))
                (set_history (fun h =>
                   h ++ [new_history_row hid (q_library_id (c_job c)) src
                           (c_original_size c) new_size elapsed Success None now])%list d)) st)
        end
      else
        let error_detail :=
          if String.eqb (PyStr.strip stderr_out) ""
          then "ffmpeg returncode: " +:+ PyStr.of_Z returncode
          else PyStr.strip (PyStr.last 1000 stderr_out) in
        let st := with_fs (remove_if_exists tmp_out) st in
        Some (finish_error c hid now elapsed error_detail st)
  | _ => None
  end.

(** ** The transcoder child, seen from outside *)

(** [process.kill()]: SIGKILL; a child that already exited keeps its code. *)
Definition kill (pid : nat) (procs : gmap nat Process) : gmap nat Process :=
  match procs !! pid with
  | Some Running => <[pid := Exited (-9)]> procs
  | _ => procs
  end.


(** The child ends by itself with [returncode], having left [output] (if
    any) at the path it was told to write. *)
Definition transcoder_exits (c : Conversion) (returncode : Z) (output : option File)
    (st : State) : State :=
  match st_procs st !! c_process c with
  | Some Running =>
      let st := with_procs <[c_process c := Exited returncode]> st in
      match output with
      | Some f => with_fs (set_files <[c_tmp_out c := f]>) st
      | None => st
      end
  | _ => st
  end.

(** ** Queue API *)

Inductive Response :=
| Ok200 (body : list (string * string))
| HTTPException (status_code : Z) (detail : string).

(** [DELETE /api/queue/{jid}] *)
Definition api_remove_queue (jid : string) (st : State) : State * Response :=
  let st :=
    match queue_by_id jid (queue (st_db st)) with
    | Some job =>
        if QueueStatus_eqb (q_status job) Processing
        then
          let handles :=
            List.map snd (List.filter (fun slot => String.eqb (fst slot) jid)
                            (List.map snd (map_to_list (active_jobs st)))) in
          with_procs (fun procs => foldr kill procs handles) st
        else st
    | None => st
    end in
  (with_db (set_queue (queue_delete jid)) st, Ok200 [("ok", "True")]).

(** [POST /api/queue/add]; [jid] is the uuid drawn for the new row. *)
Definition api_add_to_queue (data : gmap string string) (jid timestamp : string)
    (st : State) : State * Response :=
  let file_path := default "" (data !! "file_path") in
  let library_id := data !! "library_id" in
  if String.eqb file_path "" || negb (os_path_exists (st_fs st) file_path)
  then (st, HTTPException 400 "Bestand niet gevonden")
  else
    match queue_existing file_path (queue (st_db st)) with
    | Some _ => (st, HTTPException 400 "Al in wachtrij")
    | None =>
        match os_path_getsize (st_fs st) file_path with
        | inl _ => (st, HTTPException 500 "Internal Server Error")
        | inr fsize =>
            (with_db (set_queue (fun q =>
               q ++ [new_queue_row jid library_id file_path fsize timestamp])%list) st,
             Ok200 [("id", jid)])
        end
    end.

(** ** File watcher *)

Record LibraryWatcher := {
  w_library_id : string;
  w_library_path : string;
  _pending : gmap string Z
}.

Definition set_pending (f : gmap string Z -> gmap string Z) (w : LibraryWatcher)
    : LibraryWatcher :=
  {| w_library_id := w_library_id w; w_library_path := w_library_path w;
     _pending := f (_pending w) |}.

(** [LibraryWatcher._handle(fpath)] at time [t]; the flag tells whether a
    deferred enqueue was scheduled. *)
Definition _handle (fpath : string) (t : Z) (w : LibraryWatcher) : LibraryWatcher * bool :=
  if negb (str_in (PyStr.lower (PyPath.suffix fpath)) VIDEO_EXTENSIONS) then (w, false)
  else if PyStr.contains "_shrync_" (PyPath.name fpath) then (w, false)
  else if negb (String.eqb CACHE_DIR "") && PyStr.contains CACHE_DIR fpath then (w, false)
  else (set_pending <[fpath := t]> w, true).

(** [LibraryWatcher._delayed_queue(fpath)]. [fs1] is the filesystem at the
    first size sample, [fs2] at the second sample and after; the store is
    read and written through [d]. *)
Definition _delayed_queue (fpath : string) (fs1 fs2 : FS) (jid timestamp : string)
    (w : LibraryWatcher) (d : Db) : LibraryWatcher * Db :=
  match _pending w !! fpath with
  | None => (w, d)
  | Some _ =>
      let w := set_pending (delete fpath) w in
      match os_path_getsize fs1 fpath, os_path_getsize fs2 fpath with
      | inr size1, inr size2 =>
          if negb (size1 =? size2)%Z then (w, d)
          else
            match queue_existing fpath (queue d), history_done fpath (history d) with
            | None, None =>
                let lib := library_by_id (w_library_id w) (libraries d) in
                let '(global_codec, _, _) :=
                  profile_to_ffmpeg (get_global_setting d "conversion_profile" "nvenc_max") in
                match lib with
                | None => (w, d)
                | Some _ =>
                    if negb (needs_conversion fs2 fpath global_codec) then (w, d)
                    else (w, set_queue (fun q =>
                           q ++ [new_queue_row jid (Some (w_library_id w)) fpath
                                   size2 timestamp])%list d)
                end
            | _, _ => (w, d)
            end
      | _, _ => (w, d)
      end
  end.

End Shrync.

(** [POST /api/settings] for one key: [INSERT OR REPLACE INTO settings]. *)
Definition save_setting (key value : string) (d : Db) : Db :=
  {| libraries := libraries d; queue := queue d; history := history d;
     settings := <[key := value]> (settings d) |}.

(** * The rest of [main.py] that the store and the workers go through *)

(** ** Store initialisation *)

(** [INSERT OR IGNORE INTO settings (key, value) VALUES (?, ?)] *)
Definition insert_or_ignore (key value : string) (m : gmap string string)
    : gmap string string :=
  match m !! key with
  | Some _ => m
  | None => <[key := value]> m
  end.

(** [init_db()]: the tables are created only when absent, so the rows of
    an existing store stay; the four default settings are added unless
    their key is already there. *)
Definition init_db (d : Db) : Db :=
  {| libraries := libraries d; queue := queue d; history := history d;
     settings :=
       insert_or_ignore "audio_codec" "copy"
         (insert_or_ignore "conversion_profile" "nvenc_max"
            (insert_or_ignore "language" "en"
               (insert_or_ignore "max_workers" "1" (settings d)))) |}.

(** ** Worker pool *)

(** [[v["id"] for v in active_jobs.values()]] *)
Definition active_ids (st : State) : list string :=
  List.map fst (List.map snd (map_to_list (active_jobs st))).

(** [status='pending' AND id NOT IN (active_ids)]; with no active id the
    code issues the same query without the [NOT IN]. *)
Definition selectable (ids : list string) (r : QueueRow) : bool :=
  QueueStatus_eqb (q_status r) Pending && negb (str_in (q_id r) ids).

(** [ORDER BY added_at ASC LIMIT 1] over the rows given in rowid order:
    a row with the least [added_at] (text comparison), the first such row
    when several share it. *)
Fixpoint oldest (l : list QueueRow) : option QueueRow :=
  match l with
  | [] => None
  | r :: l' =>
      match oldest l' with
      | None => Some r
      | Some m => if String.leb (q_added_at r) (q_added_at m) then Some r else Some m
      end
  end.

Definition select_pending (ids : list string) (q : list QueueRow) : option string :=
  q_id <$> oldest (List.filter (selectable ids) q).

(** What one turn of the [while worker_running] loop does next. *)
Inductive WorkerAction :=
| Sleep (seconds : Z)
| Run (job_id : string).

(** One turn of [worker_loop]: which job, if any, it hands to
    [run_conversion]. *)
Definition worker_loop_turn (workers_paused : bool) (st : State) : WorkerAction :=
  if workers_paused then Sleep 1
  else match select_pending (active_ids st) (queue (st_db st)) with
       | Some jid => Run jid
       | None => Sleep 3
       end.

(** ** Threads started by a request *)

(** A thread a handler starts with [threading.Thread(target=...).start()]
    and does not wait for: it runs after, or while, the request is
    answered. *)
Inductive Thread :=
| ScanLibrary (library_id : string)
| StartWatchers
| StartWorkers.

(** ** Settings API *)





(** ** Library API *)



(** [DELETE /api/libraries/{lid}] *)
Definition api_delete_library (lid : string) (d : Db) : Db :=
  set_libraries (List.filter (fun r => negb (String.eqb (l_id r) lid))) d.

(** [POST /api/libraries/{lid}/scan] *)
Definition api_scan_library (lid : string) : list Thread := [ScanLibrary lid].

(** [DELETE /api/history] *)
Definition api_clear_history (d : Db) : Db := set_history (fun _ => []) d.

(** ** Startup *)




(** ** Statistics API *)

(** [status = 'success'] on a history row. *)
Definition is_success (h : HistoryRow) : bool :=
  match h_status h with Success => true | HError => false end.

(** [x or dflt] on a text value. *)
Definition py_or (s dflt : string) : string :=
  if String.eqb s "" then dflt else s.

(** [sum(f(r) for r in rows)] *)
Definition py_sum {A} (f : A -> Z) (rows : list A) : Z :=
  fold_left (fun acc r => acc + f r) rows 0.

(** [SELECT h.*, l.name as library_name FROM history h LEFT JOIN libraries
    l ON h.library_id = l.id WHERE h.status = 'success'], the history rows
    taken in rowid order: a row comes once per library row with its id, and
    once with a NULL name when there is none (or its [library_id] is
    NULL). *)
Definition success_rows (d : Db) : list (HistoryRow * option string) :=
  flat_map (fun h =>
    match List.filter (fun l => match h_library_id h with
                                | Some i => String.eqb i (l_id l)
                                | None => false
                                end) (libraries d) with
    | [] => [(h, None)]
    | ls => List.map (fun l => (h, Some (l_name l))) ls
    end)
    (List.filter is_success (history d)).

Record Totals := {
  total_files : Z;
  total_original : Z;
  total_new : Z;
  total_saved : Z
}.

Record LibrarySavings := {
  ls_library_name : string;
  ls_files : Z;
  ls_original : Z;
  ls_new_size : Z;
  ls_saved : Z
}.

Record DaySavings := {
  ds_day : string;
  ds_files : Z;
  ds_saved : Z
}.

Record Savings := {
  totals : option Totals;
  per_library : list LibrarySavings;
  daily : list DaySavings
}.

(** A [dict] in insertion order.
    [if key not in m: m[key] = init] followed by [m[key] = f(m[key])]. *)
Fixpoint dict_update {A} (key : string) (init : A) (f : A -> A)
    (m : list (string * A)) : list (string * A) :=
  match m with
  | [] => [(key, f init)]
  | (k, v) :: m' =>
      if String.eqb k key then (k, f v) :: m'
      else (k, v) :: dict_update key init f m'
  end.

(** [sorted]: a stable sort; [before x y] tells whether [x], met earlier
    than [y], stays in front of it. *)
Fixpoint insert_sorted {A} (before : A -> A -> bool) (x : A) (l : list A) : list A :=
  match l with
  | [] => [x]
  | y :: l' => if before x y then x :: y :: l' else y :: insert_sorted before x l'
  end.

Definition sorted {A} (before : A -> A -> bool) (l : list A) : list A :=
  foldr (insert_sorted before) [] l.

Definition saved_of (r : HistoryRow * option string) : Z :=
  h_original_size (fst r) - h_new_size (fst r).

Definition libs_map_step (m : list (string * LibrarySavings))
    (r : HistoryRow * option string) : list (string * LibrarySavings) :=
  dict_update (py_or (default "" (h_library_id (fst r))) "onbekend")
    {| ls_library_name := py_or (default "" (snd r)) "Onbekend";
       ls_files := 0; ls_original := 0; ls_new_size := 0; ls_saved := 0 |}
    (fun e => {| ls_library_name := ls_library_name e;
                 ls_files := ls_files e + 1;
                 ls_original := ls_original e + h_original_size (fst r);
                 ls_new_size := ls_new_size e + h_new_size (fst r);
                 ls_saved := ls_saved e + saved_of r |})
    m.

Definition daily_map_step (m : list (string * DaySavings))
    (r : HistoryRow * option string) : list (string * DaySavings) :=
  if String.eqb (h_finished_at (fst r)) "" then m
  else
    let day := PyStr.take 10 (h_finished_at (fst r)) in
    dict_update day {| ds_day := day; ds_files := 0; ds_saved := 0 |}
      (fun e => {| ds_day := ds_day e; ds_files := ds_files e + 1;
                   ds_saved := ds_saved e + saved_of r |})
      m.

(** [GET /api/savings] *)
Definition api_savings (d : Db) : Savings :=
  let rows := success_rows d in
  match rows with
  | [] => {| totals := None; per_library := []; daily := [] |}
  | _ =>
      let total_original := py_sum (fun r => h_original_size (fst r)) rows in
      let total_new := py_sum (fun r => h_new_size (fst r)) rows in
      {| totals := Some {| total_files := Z.of_nat (length rows);
                           total_original := total_original;
                           total_new := total_new;
                           total_saved := total_original - total_new |};
         per_library :=
           sorted (fun x y => (ls_saved y <=? ls_saved x)%Z)
                  (List.map snd (fold_left libs_map_step rows []));
         daily :=
           sorted (fun x y => String.leb (ds_day x) (ds_day y))
                  (List.map snd (fold_left daily_map_step rows [])) |}
  end.

(** A number in a response: an integer, or the outcome of a sum SQLite
    computed in floating point (that float, or 0 in place of 0.0), whose
    value the model does not follow. *)
Inductive Number :=
| Integer (z : Z)
| Real.

Record Stats := {
  pending : Z;
  processing : Z;
  done_today : Z;
  errors : Z;
  saved_bytes : Number;
  active_libraries : Z
}.

Definition count {A} (p : A -> bool) (l : list A) : Z :=
  Z.of_nat (length (List.filter p l)).

(** SQLite's integers are 64-bit. *)
Definition int64 (z : Z) : bool := ((- 2 ^ 63 <=? z) && (z <=? 2 ^ 63 - 1))%Z.

(** The accumulator of SQLite's [SUM]: nothing summed yet, an integer
    sum, a floating-point sum (once a term was REAL), or an integer sum
    that has overflowed. *)
Inductive SqlSum :=
| SumNull
| SumInteger (z : Z)
| SumReal
| SumOverflow.

(** One term [original_size-new_size] more. The difference of two
    integers that does not fit 64 bits is a REAL; an integer sum that
    stops fitting is an overflow, whatever comes after. *)
Definition sum_step (acc : SqlSum) (h : HistoryRow) : SqlSum :=
  let term := h_original_size h - h_new_size h in
  match acc with
  | SumOverflow => SumOverflow
  | SumReal => SumReal
  | SumNull => if int64 term then SumInteger term else SumReal
  | SumInteger a =>
      if int64 term
      then (if int64 (a + term) then SumInteger (a + term) else SumOverflow)
      else SumReal
  end.

(** [GET /api/stats]. [date] is SQLite's [date()] on a stored text
    ([None] for NULL), [today] is [date('now')]. [SUM] over no row is NULL,
    which [or 0] turns into 0; when the sum overflows the query raises
    [sqlite3.OperationalError: integer overflow] and the request fails
    ([None]). The rows are summed in rowid order. *)
Definition api_stats (date : string -> option string) (today : string) (d : Db)
    : option Stats :=
  match fold_left sum_step (List.filter is_success (history d)) SumNull with
  | SumOverflow => None
  | saved =>
      Some
        {| pending := count (fun r => QueueStatus_eqb (q_status r) Pending) (queue d);
           processing :=
             count (fun r => QueueStatus_eqb (q_status r) Processing) (queue d);
           done_today :=
             count (fun h => is_success h &&
                             bool_decide (date (h_finished_at h) = Some today))
                   (history d);
           errors := count (fun h => negb (is_success h)) (history d);
           saved_bytes := match saved with
                          | SumInteger z => Integer z
                          | SumReal => Real
                          | _ => Integer 0
                          end;
           active_libraries := count l_enabled (libraries d) |}
  end.

(** * Definitions used to state the properties *)

(** ** The specification's wording, where it differs from the code *)

(** The frame values as section 4.7 of the specification words them: the
    formulas of [fps_frame] with [floor] where the code has [int]. *)
Definition claimed_fps_frame (duration : float) (out_time_us : Z) (fps_val : float)
    : option (Z * string) :=
  if (0 <? duration)%float then
    current_sec ← PyNum.truediv out_time_us 1000000;
    p ← PyNum.floor (current_sec / duration * 100)%float;
    let progress := Z.min p 99 in
    if (0 <? fps_val)%float then
      remaining_sec ← PyNum.floor ((duration - current_sec) / fps_val * 25)%float;
      Some (progress,
            PyStr.of_Z (remaining_sec / 60) +:+ "m" +:+
            PyStr.of_Z (remaining_sec mod 60) +:+ "s")
    else Some (progress, "")
  else Some (0, "").


(** ** Auxiliary notions *)

(** The rows of [fpath], if any, all have status ['error']. *)
Definition only_error_rows (fpath : string) (q : list QueueRow) : Prop :=
  forall r, In r q -> q_file_path r = fpath -> q_status r = QError.



(** Recovery seen as one pass over the queue: the rows whose id is among
    [ids] are reset. *)
Definition reset_ids (ids : list string) (q : list QueueRow) : list QueueRow :=
  List.map (fun r => if str_in (q_id r) ids then reset_to_pending r else r) q.

(** [q'] is [q] with [pending] or [processing] rows appended. *)
Definition extends (q q' : list QueueRow) : Prop :=
  exists rows, q' = (q ++ rows)%list /\ Forall (fun r => is_active r = true) rows.

(** The store after the scanner has dealt with the entry once ([covers ok
    q q']: [q'] is any later queue when the scan went on, the very queue
    when it stopped there). *)
Definition covers (ok : bool) (q q' : list QueueRow) : Prop :=
  if ok then extends q q' else q' = q.

Section ScanVerdict.

Variable environ : gmap string string.
Variable fs : FS.
Variable library_id : string.

(** What the scanner decides for one directory entry, as a function of
    the store it reads. *)
Inductive Verdict :=
| Ignored
| Skipped
| AlreadyConverted
| Crashed
| Added (fsize : Z).

Definition scan_verdict (root fname : string) (d : Db) : Verdict :=
  let fpath := PyPath.join root fname in
  if negb (str_in (PyStr.lower (PyPath.suffix fname)) VIDEO_EXTENSIONS) then Ignored
  else if PyStr.contains "_shrync_" fname then Ignored
  else if negb (String.eqb (CACHE_DIR environ) "") && PyStr.contains (CACHE_DIR environ) fpath
  then Ignored
  else match queue_existing fpath (queue d), history_done fpath (history d) with
       | Some _, _ | None, Some _ => Skipped
       | None, None =>
           if needs_conversion fs fpath
                (fst (fst (profile_to_ffmpeg
                             (get_global_setting d "conversion_profile" "nvenc_max"))))
           then match os_path_getsize fs fpath with
                | inl _ => Crashed
                | inr fsize => Added fsize
                end
           else AlreadyConverted
       end.

Definition apply_scan_verdict (uuid4 : nat -> string) (timestamp root fname : string)
    (v : Verdict) (s : Scan) : Scan * bool :=
  match v with
  | Ignored => (s, true)
  | Skipped => (count_skipped (count_scanned fname s), true)
  | AlreadyConverted => (count_already_converted (count_scanned fname s), true)
  | Crashed => (count_scanned fname s, false)
  | Added fsize =>
      (count_added
         (new_queue_row (uuid4 (Z.to_nat (ss_added (sc_st s)))) (Some library_id)
            (PyPath.join root fname) fsize timestamp)
         (count_scanned fname s), true)
  end.

End ScanVerdict.

(** [scan_library] once the library row is found. *)
Definition scan_library_of (environ : gmap string string) (library_id : string)
    (uuid4 : nat -> string) (timestamp now : string) (path : string) (st : State)
    : State :=
  match dirs (st_fs st) !! path with
  | None =>
      with_scan_status
        <[library_id := scan_failed path ("Map niet gevonden: " +:+ path)]> st
  | Some (Dir _ false _ _) =>
      with_scan_status
        <[library_id := scan_failed path
            ("Kan map niet lezen: [Errno 13] Permission denied: '" +:+ path +:+ "'")]> st
  | Some tree =>
      let '(s, ok) :=
        scan_walk environ (st_fs st) library_id uuid4 timestamp (os_walk path tree)
                  {| sc_db := st_db st; sc_st := scan_started path |} in
      if ok
      then with_scan_status <[library_id := scan_done (sc_st s)]>
             (with_db (fun _ => set_libraries (set_last_scan library_id now) (sc_db s)) st)
      else with_scan_status <[library_id := sc_st s]>
             (with_db (fun _ => sc_db s) st)
  end.

(** [c in s] for a single character. *)
Fixpoint occurs (c : ascii) (s : string) : bool :=
  match s with
  | "" => false
  | String x s' => Ascii.eqb x c || occurs c s'
  end.

(** Files counted as scanned that ended in none of the three outcomes. *)
Definition unaccounted (t : ScanStatus) : Z :=
  ss_scanned t - (ss_added t + ss_skipped t + ss_already_converted t).

(** A joined history row with a finish time. *)
Definition has_finished_at (r : HistoryRow * option string) : bool :=
  negb (String.eqb (h_finished_at (fst r)) "").

(** ** Startup *)



(** ** The progress loop *)

(** [for line in process.stdout] over the lines the child prints. *)
Definition run_conversion_lines (py_float : string -> option float)
    (lines : list string) (c : Conversion) (st : State) : Conversion * State :=
  fold_left (fun cs line => run_conversion_stdout py_float line (fst cs) (snd cs))
            lines (c, st).

(** [r'] is the row [r] with, at most, other progress columns; only a row
    of the job [jid] may differ at all, and its progress does not pass 99
    unless it already did. *)
Definition progress_of (jid : string) (r r' : QueueRow) : Prop :=
  (q_id r <> jid -> r' = r) /\
  exists progress fps_val eta,
    r' = set_progress progress fps_val eta r /\
    (q_progress r <= 99 -> progress <= 99).

(** What one line of output can change. *)
Definition stdout_frame (c c' : Conversion) (st st' : State) : Prop :=
  set_out_time_us (c_out_time_us c) c' = c /\
  history (st_db st') = history (st_db st) /\
  settings (st_db st') = settings (st_db st) /\
  libraries (st_db st') = libraries (st_db st) /\
  st_fs st' = st_fs st /\ st_procs st' = st_procs st /\
  active_jobs st' = active_jobs st /\ scan_status st' = scan_status st /\
  Forall2 (progress_of (c_job_id c)) (queue (st_db st)) (queue (st_db st')).

(** What the store must say for the scanner or the watcher to want the
    file at [fpath]: no successful history row, and a probe that asks for a
    conversion to the active profile's codec. *)
Definition wanted (fs : FS) (fpath : string) (d : Db) : Prop :=
  history_done fpath (history d) = None /\
  needs_conversion fs fpath
    (fst (fst (profile_to_ffmpeg
                 (get_global_setting d "conversion_profile" "nvenc_max")))) = true.

(** ** Queue invariants *)

(** The paths that have a [pending] or [processing] row, in row order. *)
Definition active_paths (q : list QueueRow) : list string :=
  List.map q_file_path (List.filter is_active q).

(** At most one [pending] or [processing] row per path. *)
Definition exclusive (q : list QueueRow) : Prop := NoDup (active_paths q).

(** [r] is a row the scanner of library [library_id] may append to the
    queue [q], given the filesystem and the history it reads. *)
Definition scan_enqueued (environ : gmap string string) (fs : FS) (library_id : string)
    (h : list HistoryRow) (q : list QueueRow) (r : QueueRow) : Prop :=
  q_status r = Pending /\
  q_library_id r = Some library_id /\
  queue_existing (q_file_path r) q = None /\
  history_done (q_file_path r) h = None /\
  exists root fname f,
    q_file_path r = PyPath.join root fname /\
    str_in (PyStr.lower (PyPath.suffix fname)) VIDEO_EXTENSIONS = true /\
    PyStr.contains "_shrync_" fname = false /\
    files fs !! q_file_path r = Some f /\
    q_file_size r = f_size f.

(** [q'] is reached from [q] by appending rows one at a time, each one
    allowed by [may_append] for the queue it is appended to. *)
Inductive appended (may_append : list QueueRow -> QueueRow -> Prop)
    : list QueueRow -> list QueueRow -> Prop :=
| appended_none q : appended may_append q q
| appended_row q q' r :
    appended may_append q q' -> may_append q' r ->
    appended may_append q (q' ++ [r])%list.

(** ** Concrete configurations *)

Module Sample.

Definition env_cpu : gmap string string := {[ "GPU_MODE" := "cpu" ]}.
Definition env_cache : gmap string string :=
  {[ "GPU_MODE" := "cpu"; "CACHE_DIR" := "/cache" ]}.

Definition default_settings : gmap string string :=
  {[ "max_workers" := "1"; "language" := "en";
     "conversion_profile" := "nvenc_max"; "audio_codec" := "copy" ]}.

Definition h264_stream : Stream := {| codec_type := "video"; codec_name := "h264" |}.
Definition hevc_stream : Stream := {| codec_type := "video"; codec_name := "hevc" |}.

Definition movie : File :=
  {| f_size := 1000; f_streams := Some [h264_stream]; f_duration := Some 10%float |}.
Definition movie_hevc : File :=
  {| f_size := 400; f_streams := Some [hevc_stream]; f_duration := Some 10%float |}.
Definition partial_output : File :=
  {| f_size := 120; f_streams := None; f_duration := None |}.

Definition job_id : string := "3f2a9c1e-77aa-4c1b-9d52-0a1b2c3d4e5f".

Definition movie_job : QueueRow :=
  new_queue_row job_id (Some "lib1") "/lib/a/movie.mkv" 1000 "2024-05-01 10:00:00".

Definition lib1 : LibraryRow :=
  {| l_id := "lib1"; l_name := "Films"; l_path := "/lib"; l_enabled := true;
     l_scan_interval := 3600; l_last_scan := None |}.

Definition db_of (q : list QueueRow) (h : list HistoryRow) : Db :=
  {| libraries := [lib1]; queue := q; history := h; settings := default_settings |}.

Definition state_of (d : Db) (fs : FS) : State :=
  {| st_db := d; st_fs := fs; st_procs := ∅; active_jobs := ∅; scan_status := ∅ |}.

(** One mount for everything. *)
Definition one_mount (fl : gmap string File) : FS :=
  {| files := fl; dirs := ∅; mount_of := fun _ => 0%nat |}.

(** The media library and the transcode cache are separate mounts. *)
Definition two_mounts (fl : gmap string File) : FS :=
  {| files := fl; dirs := ∅;
     mount_of := fun p => if PyStr.startswith "/cache" p then 1%nat else 0%nat |}.

(** The queued file was deleted before a worker picked the job. *)
Definition st_missing : State := state_of (db_of [movie_job] []) (one_mount ∅).

(** The queued file is there. *)
Definition st_queued : State :=
  state_of (db_of [movie_job] []) (one_mount {[ "/lib/a/movie.mkv" := movie ]}).

(** The same job with a transcode cache on its own volume. *)
Definition st_cache : State :=
  state_of (db_of [movie_job] []) (two_mounts {[ "/lib/a/movie.mkv" := movie ]}).

Definition claimed_at : string := "2024-05-01T10:05:00".

(** The locals of [run_conversion] once the child runs, without and with
    [CACHE_DIR]. *)
Definition conv (tmp_out : string) : Conversion :=
  {| c_job := movie_job; c_job_id := job_id; c_src := "/lib/a/movie.mkv";
     c_tmp_out := tmp_out;
     c_cmd := [ "ffmpeg"; "-y"; "-i"; "/lib/a/movie.mkv"; "-c:v"; "libx265";
                "-preset"; "p7"; "-crf"; "19"; "-c:a"; "copy"; "-c:s"; "copy";
                "-progress"; "pipe:1"; "-nostats"; tmp_out ];
     c_duration := 10%float; c_original_size := 1000; c_slot_id := "Worker-1";
     c_process := 1%nat; c_out_time_us := 0 |}.

Definition conv_beside : Conversion := conv "/lib/a/movie_shrync_3f2a9c1e.mkv".
Definition conv_cache : Conversion := conv "/cache/movie_shrync_3f2a9c1e.mkv".

(** The state right after the claim: row [processing], child registered. *)
Definition running (st : State) : State :=
  with_active_jobs <["Worker-1" := (job_id, 1%nat)]>
    (with_procs <[1%nat := Running]>
       (with_db (set_queue (queue_update job_id (mark_processing claimed_at 1000))) st)).

(** The process died mid-transcode: the row is still [processing] and the
    half-written output sits in the cache. *)
Definition interrupted_job : QueueRow := mark_processing claimed_at 1000 movie_job.

Definition st_interrupted : State :=
  state_of (db_of [interrupted_job] [])
    (two_mounts {[ "/lib/a/movie.mkv" := movie;
                   "/cache/movie_shrync_3f2a9c1e.mkv" := partial_output ]}).


(** The job failed earlier because its file was missing; the row stayed in
    the queue with status ['error']. Now the file is back. *)
Definition failed_job : QueueRow := mark_missing claimed_at movie_job.

Definition st_failed : State :=
  state_of (db_of [failed_job] []) (one_mount {[ "/lib/a/movie.mkv" := movie ]}).

Definition watcher : LibraryWatcher :=
  {| w_library_id := "lib1"; w_library_path := "/lib";
     _pending := {[ "/lib/a/movie.mkv" := 1714557600 ]} |}.

(** A library on disk: one H.264 film to convert, one file already in
    HEVC, a leftover temp artifact, a text file and a hidden directory. *)
Definition lib_tree : DirTree :=
  Dir "lib" true ["notes.txt"]
    [ Dir "a" true ["movie.mkv"; "old.mp4"; "clip_shrync_0a1b2c3d.mkv"] [];
      Dir ".trash" true ["gone.mkv"] [] ].

Definition st_library : State :=
  state_of (db_of [] [])
    {| files := {[ "/lib/a/movie.mkv" := movie; "/lib/a/old.mp4" := movie_hevc;
                   "/lib/a/clip_shrync_0a1b2c3d.mkv" := partial_output;
                   "/lib/.trash/gone.mkv" := movie ]};
       dirs := {[ "/lib" := lib_tree ]};
       mount_of := fun _ => 0%nat |}.

(** The same library on disk while the only queue row of the film is the
    ['error'] row of an earlier failure. *)
Definition st_failed_library : State :=
  state_of (db_of [failed_job] []) (st_fs st_library).

Definition uuids (n : nat) : string := "job-" +:+ PyStr.of_Z (Z.of_nat n).

(** [float] on the few frame texts the samples use. *)
Definition float_of (s : string) : option float :=
  if String.eqb s "25.0" then Some 25%float
  else if String.eqb s "0.0" then Some 0%float
  else None.

End Sample.

(** * Properties *)

(** ** Store lemmas *)

Lemma queue_by_id_update jid f q :
  (forall r, q_id (f r) = q_id r) ->
  queue_by_id jid (queue_update jid f q) = f <$> queue_by_id jid q.
Proof.
  intros Hid. unfold queue_by_id, queue_update.
  induction q as [|r q IH]; simpl; [reflexivity|].
  destruct (String.eqb (q_id r) jid) eqn:E.
  - rewrite Hid, E. reflexivity.
  - rewrite E. exact IH.
Qed.

Lemma queue_by_id_delete jid q : queue_by_id jid (queue_delete jid q) = None.
Proof.
  unfold queue_by_id, queue_delete.
  induction q as [|r q IH]; simpl; [reflexivity|].
  destruct (String.eqb (q_id r) jid) eqn:E; simpl; [exact IH|].
  rewrite E. exact IH.
Qed.


(** ** [int(str(z))] *)
















(** ** Worker pool size *)



(** C9, refuted as worded: a stored string integer need not give
    [max(1, min(3, v))]. The integer 10^4300, stored as its 4301 digits, is
    refused by [int]; the pool size is then 1, not 3. *)
Lemma get_max_workers_long_integer :
  let v := 10 ^ 4300 in
  let d := save_setting "max_workers" (PyStr.of_Z v) (Sample.db_of [] []) in
  String.length (PyStr.of_Z v) = 4301%nat /\
  get_max_workers d = 1 /\
  Z.max 1 (Z.min 3 v) = 3.
Proof. vm_compute. repeat split. Qed.


(** ** Missing source *)

(** C3 (as the code has it): when the job's source path does not exist at
    the time [run_conversion] loads it, the function returns at once; no
    history row is written, and the queue row is kept, updated to status
    ['error'] with [error_msg] "Bestand niet gevonden" and [finished_at]
    set. *)
Theorem run_conversion_missing_source
    (environ : gmap string string) (job_id slot_id now : string)
    (popen : option nat) (st : State) (job : QueueRow) :
  queue_by_id job_id (queue (st_db st)) = Some job ->
  os_path_exists (st_fs st) (q_file_path job) = false ->
  exists st',
    run_conversion_begin environ job_id slot_id now popen st = Returned st' /\
    history (st_db st') = history (st_db st) /\
    st_fs st' = st_fs st /\
    queue (st_db st') = queue_update job_id (mark_missing now) (queue (st_db st)) /\
    exists r,
      queue_by_id job_id (queue (st_db st')) = Some r /\
      q_status r = QError /\
      q_error_msg r = Some "Bestand niet gevonden" /\
      q_finished_at r = Some now /\
      q_file_path r = q_file_path job.
Proof.
  intros Hjob Hmiss. unfold run_conversion_begin. rewrite Hjob, Hmiss. simpl.
  eexists. split; [reflexivity|]. simpl. repeat split.
  exists (mark_missing now job). split; [|repeat split].
  rewrite queue_by_id_update by reflexivity. now rewrite Hjob.
Qed.

Lemma run_conversion_missing_source_witness :
  exists st',
    run_conversion_begin Sample.env_cpu Sample.job_id "Worker-1"
      "2024-05-01T10:05:00" (Some 1%nat) Sample.st_missing = Returned st' /\
    history (st_db st') = [] /\
    (q_status <$> queue_by_id Sample.job_id (queue (st_db st'))) = Some QError.
Proof.
  destruct (run_conversion_missing_source Sample.env_cpu Sample.job_id "Worker-1"
              "2024-05-01T10:05:00" (Some 1%nat) Sample.st_missing Sample.movie_job
              eq_refl eq_refl)
    as (st' & Hrun & Hh & _ & _ & r & Hr & Hs & _).
  exists st'. split; [exact Hrun|]. split; [exact Hh|].
  rewrite Hr. simpl. now rewrite Hs.
Defined.

(** C3 as the specification words it does not hold: for the job whose file
    is gone, no history row is inserted and the queue row is not deleted. *)
Lemma run_conversion_missing_source_no_history :
  ~ (exists st',
       run_conversion_begin Sample.env_cpu Sample.job_id "Worker-1"
         "2024-05-01T10:05:00" (Some 1%nat) Sample.st_missing = Returned st' /\
       (exists h, In h (history (st_db st')) /\ h_status h = HError /\
                  h_error_msg h = Some "Bestand niet gevonden") /\
       queue_by_id Sample.job_id (queue (st_db st')) = None).
Proof.
  intros (st' & Hrun & (h & Hin & _) & _).
  vm_compute in Hrun. injection Hrun as <-. exact Hin.
Qed.

(** ** GPU fallback *)





(** C5, refuted as worded: [GPU_MODE] need not be ['nvidia'] for the NVENC
    form. With [GPU_MODE=NVIDIA] the variable is not ['nvidia'], yet the
    code compares its lower-cased value: the job runs with [hevc_nvenc]
    and [-rc constqp -qp], not with [libx265] and [-crf]. *)
Lemma nvenc_profile_uppercase_gpu_mode :
  let environ : gmap string string := {[ "GPU_MODE" := "NVIDIA" ]} in
  environ !! "GPU_MODE" = Some "NVIDIA" /\ "NVIDIA" <> "nvidia" /\
  profile_to_ffmpeg
    (get_global_setting (st_db Sample.st_queued) "conversion_profile" "nvenc_max")
    = ("hevc_nvenc", "p7", "19") /\
  exists c st',
    run_conversion_begin environ Sample.job_id "Worker-1" "2024-05-01T10:05:00"
      (Some 1%nat) Sample.st_queued = Spawned c st' /\
    c_cmd c =
      [ "ffmpeg"; "-y"; "-i"; "/lib/a/movie.mkv"; "-c:v"; "hevc_nvenc";
        "-preset"; "p7"; "-rc"; "constqp"; "-qp"; "19"; "-b:v"; "0";
        "-c:a"; "copy"; "-c:s"; "copy"; "-progress"; "pipe:1"; "-nostats";
        "/lib/a/movie_shrync_3f2a9c1e.mkv" ].
Proof.
  cbn zeta. split; [reflexivity|]. split; [discriminate|]. split; [reflexivity|].
  eexists. eexists. split; [vm_compute; reflexivity | reflexivity].
Qed.

(** ** Finalisation *)

Lemma remove_if_exists_gone p fs : files (remove_if_exists p fs) !! p = None.
Proof.
  unfold remove_if_exists, os_path_exists, os_remove.
  destruct (files fs !! p) eqn:E; simpl; [apply lookup_delete_eq | exact E].
Qed.

Lemma remove_if_exists_other p p' fs :
  p <> p' -> files (remove_if_exists p fs) !! p' = files fs !! p'.
Proof.
  intros Hne. unfold remove_if_exists, os_path_exists, os_remove.
  destruct (files fs !! p) eqn:E; simpl; [now apply lookup_delete_ne | reflexivity].
Qed.

(** Exit code 0, output present, same mount: the source path ends up
    holding the transcoded file and one success row is appended. *)
Lemma run_conversion_end_success c stderr_out elapsed now hid st original output :
  st_procs st !! c_process c = Some (Exited 0) ->
  files (st_fs st) !! c_src c = Some original ->
  files (st_fs st) !! c_tmp_out c = Some output ->
  c_src c <> c_tmp_out c ->
  mount_of (st_fs st) (c_tmp_out c) = mount_of (st_fs st) (c_src c) ->
  exists st',
    run_conversion_end c stderr_out elapsed now hid st = Some st' /\
    files (st_fs st') !! c_src c = Some output /\
    files (st_fs st') !! c_tmp_out c = None /\
    history (st_db st') =
      (history (st_db st) ++
       [new_history_row hid (q_library_id (c_job c)) (c_src c) (c_original_size c)
          (f_size output) elapsed Success None now])%list /\
    queue_by_id (c_job_id c) (queue (st_db st')) = None.
Proof.
  intros Hp Hsrc Htmp Hne Hmnt. unfold run_conversion_end. rewrite Hp. simpl.
  unfold os_path_exists, os_path_getsize, os_remove, os_rename. simpl.
  rewrite Htmp, Hsrc. simpl.
  rewrite lookup_delete_ne by exact Hne. rewrite Htmp, Hmnt, Nat.eqb_refl. simpl.
  eexists. split; [reflexivity|]. simpl.
  split; [apply lookup_insert_eq|].
  split; [rewrite lookup_insert_ne by exact Hne; apply lookup_delete_eq|].
  split; [reflexivity | apply queue_by_id_delete].
Qed.


(** C1, where the code departs from it: when the transcoder succeeded but
    the temp file lives on another mount than the source (a separate
    [CACHE_DIR] volume), [os.remove(src)] has already deleted the
    original when [os.rename] fails, and the handler then deletes the temp
    file too: after finalisation neither the original nor the transcoded
    file exists, and the only history row written is an error row. *)
Theorem run_conversion_end_rename_failure_loses_source
    (c : Conversion) (stderr_out : string) (elapsed : Z) (now hid : string)
    (st : State) (original output : File) :
  st_procs st !! c_process c = Some (Exited 0) ->
  files (st_fs st) !! c_src c = Some original ->
  files (st_fs st) !! c_tmp_out c = Some output ->
  c_src c <> c_tmp_out c ->
  mount_of (st_fs st) (c_tmp_out c) <> mount_of (st_fs st) (c_src c) ->
  exists st',
    run_conversion_end c stderr_out elapsed now hid st = Some st' /\
    files (st_fs st') !! c_src c = None /\
    files (st_fs st') !! c_tmp_out c = None /\
    history (st_db st') =
      (history (st_db st) ++
       [new_history_row hid (q_library_id (c_job c)) (c_src c) (c_original_size c)
          0 elapsed HError
          (Some ("Bestand verplaatsen mislukt: " +:+
                 OSError_str (EXDEV (c_tmp_out c) (c_src c)))) now])%list.
Proof.
  intros Hp Hsrc Htmp Hne Hmnt. unfold run_conversion_end. rewrite Hp. simpl.
  unfold os_path_exists at 1. rewrite Htmp. simpl.
  unfold os_remove at 1. rewrite Hsrc. unfold os_rename. simpl.
  rewrite lookup_delete_ne by exact Hne. rewrite Htmp.
  apply Nat.eqb_neq in Hmnt. rewrite Hmnt.
  eexists. split; [reflexivity|]. simpl.
  split.
  - rewrite remove_if_exists_other by congruence. simpl. apply lookup_delete_eq.
  - split; [apply remove_if_exists_gone | reflexivity].
Qed.

Lemma sample_begin_cache :
  run_conversion_begin Sample.env_cache Sample.job_id "Worker-1" Sample.claimed_at
    (Some 1%nat) Sample.st_cache
  = Spawned Sample.conv_cache (Sample.running Sample.st_cache).
Proof. vm_compute. reflexivity. Qed.

Lemma sample_begin_beside :
  run_conversion_begin Sample.env_cpu Sample.job_id "Worker-1" Sample.claimed_at
    (Some 1%nat) Sample.st_queued
  = Spawned Sample.conv_beside (Sample.running Sample.st_queued).
Proof. vm_compute. reflexivity. Qed.

Lemma run_conversion_end_rename_failure_witness :
  os_path_exists (st_fs Sample.st_cache) "/lib/a/movie.mkv" = true /\
  run_conversion_begin Sample.env_cache Sample.job_id "Worker-1" Sample.claimed_at
    (Some 1%nat) Sample.st_cache
  = Spawned Sample.conv_cache (Sample.running Sample.st_cache) /\
  exists st',
    run_conversion_end Sample.conv_cache "" 42 "2024-05-01T10:05:42" "hist-1"
      (transcoder_exits Sample.conv_cache 0 (Some Sample.movie_hevc)
         (Sample.running Sample.st_cache)) = Some st' /\
    files (st_fs st') !! "/lib/a/movie.mkv" = None /\
    files (st_fs st') !! "/cache/movie_shrync_3f2a9c1e.mkv" = None /\
    List.map h_status (history (st_db st')) = [HError].
Proof.
  split; [reflexivity|]. split; [exact sample_begin_cache|].
  destruct (run_conversion_end_rename_failure_loses_source
              Sample.conv_cache "" 42 "2024-05-01T10:05:42" "hist-1"
              (transcoder_exits Sample.conv_cache 0 (Some Sample.movie_hevc)
                 (Sample.running Sample.st_cache))
              Sample.movie Sample.movie_hevc)
    as (st' & Hend & Hsrc & Htmp & Hhist).
  - vm_compute. reflexivity.
  - vm_compute. reflexivity.
  - vm_compute. reflexivity.
  - discriminate.
  - vm_compute. discriminate.
  - exists st'. split; [exact Hend|]. split; [exact Hsrc|]. split; [exact Htmp|].
    rewrite Hhist. reflexivity.
Defined.

(** ** Startup recovery *)

Lemma length_append (a b : string) :
  String.length (a +:+ b) = (String.length a + String.length b)%nat.
Proof. induction a as [|ch a IH]; simpl; [reflexivity | now rewrite IH]. Qed.

Lemma length_join_ge a b : (String.length b <= String.length (PyPath.join a b))%nat.
Proof.
  unfold PyPath.join. destruct (PyStr.startswith "/" b); [lia|].
  destruct a as [|ch a]; [lia|].
  destruct (PyStr.rsplit1 "/" (String ch a)) as [[x [|y0 y]]|];
    rewrite ?length_append; simpl; lia.
Qed.

(** Two names with the same first character are joined to a directory the
    same way. *)
Lemma length_join_same_dir a b1 b2 :
  PyStr.startswith "/" b1 = PyStr.startswith "/" b2 ->
  (String.length (PyPath.join a b2) + String.length b1
   = String.length (PyPath.join a b1) + String.length b2)%nat.
Proof.
  intros Hs. unfold PyPath.join. rewrite Hs.
  destruct (PyStr.startswith "/" b2); [lia|].
  destruct a as [|ch a]; [lia|].
  destruct (PyStr.rsplit1 "/" (String ch a)) as [[x [|y0 y]]|];
    rewrite ?length_append; simpl; lia.
Qed.

Lemma startswith_slash_append s t1 t2 :
  PyStr.startswith "/" (s +:+ String "_" t1) = PyStr.startswith "/" (s +:+ String "_" t2).
Proof. destruct s; reflexivity. Qed.

(** The path recovery looks at is never the path the transcode wrote to:
    the names differ by the marker [shrync_]. *)
Lemma cleanup_tmp_file_differs environ job :
  cleanup_tmp_file environ job <> tmp_out_of environ (q_file_path job) (q_id job).
Proof.
  unfold cleanup_tmp_file, tmp_out_of.
  set (stem := PyPath.stem (q_file_path job)).
  set (id8 := PyStr.take 8 (q_id job)).
  set (n1 := stem +:+ "_" +:+ id8 +:+ ".mkv").
  set (n2 := stem +:+ "_shrync_" +:+ id8 +:+ ".mkv").
  assert (Hlen : (String.length n2 = String.length n1 + 7)%nat).
  { unfold n1, n2. rewrite !length_append. simpl. lia. }
  assert (Hs : PyStr.startswith "/" n1 = PyStr.startswith "/" n2).
  { unfold n1, n2. apply startswith_slash_append. }
  intros Heq. apply (f_equal String.length) in Heq.
  destruct (String.eqb (CACHE_DIR environ) "") eqn:E.
  - apply String.eqb_eq in E. rewrite E in Heq.
    assert (Hj : PyPath.join "" n1 = n1).
    { unfold PyPath.join. now destruct (PyStr.startswith "/" n1). }
    rewrite Hj in Heq.
    pose proof (length_join_ge (PyPath.parent (q_file_path job)) n2). lia.
  - pose proof (length_join_same_dir (CACHE_DIR environ) n1 n2 Hs). lia.
Qed.


Lemma cleanup_job_queue environ st job :
  queue (st_db (cleanup_job environ st job))
  = queue_update (q_id job) reset_to_pending (queue (st_db st)).
Proof.
  unfold cleanup_job.
  destruct (os_path_exists _ _); [destruct (os_remove _ _)|]; reflexivity.
Qed.

Lemma cleanup_job_files environ st job p :
  cleanup_tmp_file environ job <> p ->
  files (st_fs (cleanup_job environ st job)) !! p = files (st_fs st) !! p.
Proof.
  intros Hne. unfold cleanup_job. simpl.
  unfold os_path_exists, os_remove.
  destruct (files (st_fs st) !! cleanup_tmp_file environ job); simpl;
    [now apply lookup_delete_ne | reflexivity].
Qed.

Lemma cleanup_fold_queue environ stale st :
  queue (st_db (fold_left (cleanup_job environ) stale st))
  = reset_ids (List.map q_id stale) (queue (st_db st)).
Proof.
  revert st. induction stale as [|j stale IH]; intros st; simpl.
  - unfold reset_ids. simpl. now rewrite map_id.
  - rewrite IH, cleanup_job_queue. unfold reset_ids, queue_update.
    rewrite map_map. apply map_ext. intros r. unfold str_in. simpl.
    destruct (String.eqb (q_id r) (q_id j)); simpl; [|reflexivity].
    now destruct (existsb _ _).
Qed.

Lemma cleanup_fold_files environ stale st p :
  (forall j, In j stale -> cleanup_tmp_file environ j <> p) ->
  files (st_fs (fold_left (cleanup_job environ) stale st)) !! p = files (st_fs st) !! p.
Proof.
  revert st. induction stale as [|j stale IH]; intros st Hall; simpl; [reflexivity|].
  rewrite IH by (intros j' Hj'; apply Hall; now right).
  apply cleanup_job_files, Hall. now left.
Qed.

Lemma str_in_In s l : In s l -> str_in s l = true.
Proof.
  intros H. unfold str_in. apply existsb_exists. exists s.
  split; [exact H | apply String.eqb_refl].
Qed.

(** Recovery does reset every interrupted row. *)
Lemma cleanup_resets_rows environ st r :
  In r (queue (st_db st)) -> q_status r = Processing ->
  In (reset_to_pending r) (queue (st_db (cleanup_stale_conversions environ st))).
Proof.
  intros Hin Hst. unfold cleanup_stale_conversions. rewrite cleanup_fold_queue.
  unfold reset_ids. apply in_map_iff. exists r. split; [|exact Hin].
  rewrite str_in_In; [reflexivity|].
  apply in_map, filter_In. split; [exact Hin | now rewrite Hst].
Qed.

Lemma cleanup_no_processing environ st r :
  In r (queue (st_db (cleanup_stale_conversions environ st))) ->
  q_status r <> Processing.
Proof.
  unfold cleanup_stale_conversions. rewrite cleanup_fold_queue. unfold reset_ids.
  intros Hin. apply in_map_iff in Hin as (r0 & <- & Hin0).
  destruct (str_in (q_id r0) _) eqn:E; [discriminate|].
  intros Hst. assert (str_in (q_id r0)
    (List.map q_id (List.filter (fun r => QueueStatus_eqb (q_status r) Processing)
                      (queue (st_db st)))) = true) as Habs.
  { apply str_in_In, in_map, filter_In. split; [exact Hin0 | now rewrite Hst]. }
  congruence.
Qed.

(** C2, where the code departs from it: recovery resets each interrupted
    row to [pending] with progress, fps, eta and [started_at] cleared, but
    the file it looks for is [<CACHE_DIR>/<stem>_<id8>.mkv], not the
    [<cache or source dir>/<stem>_shrync_<id8>.mkv] the transcode wrote; so
    the temp artifact of an interrupted job is still there afterwards
    (unless another stale job's lookup path happens to be that very path). *)
Theorem cleanup_stale_conversions_leaves_temp
    (environ : gmap string string) (st : State) (job : QueueRow) (artifact : File) :
  In job (queue (st_db st)) ->
  q_status job = Processing ->
  files (st_fs st) !! tmp_out_of environ (q_file_path job) (q_id job) = Some artifact ->
  (forall j, In j (queue (st_db st)) -> q_status j = Processing ->
             cleanup_tmp_file environ j <> tmp_out_of environ (q_file_path job) (q_id job)) ->
  let st' := cleanup_stale_conversions environ st in
  In (reset_to_pending job) (queue (st_db st')) /\
  (forall r, In r (queue (st_db st')) -> q_status r <> Processing) /\
  files (st_fs st') !! tmp_out_of environ (q_file_path job) (q_id job) = Some artifact.
Proof.
  intros Hin Hst Hart Hothers st'. subst st'.
  split; [now apply cleanup_resets_rows|].
  split; [intros r; apply cleanup_no_processing|].
  unfold cleanup_stale_conversions. rewrite cleanup_fold_files; [exact Hart|].
  intros j Hj. apply filter_In in Hj as [Hj Hs].
  apply Hothers; [exact Hj|]. now destruct (q_status j).
Qed.

Lemma cleanup_stale_conversions_leaves_temp_witness :
  let st' := cleanup_stale_conversions Sample.env_cache Sample.st_interrupted in
  queue (st_db st') = [reset_to_pending Sample.interrupted_job] /\
  files (st_fs st') !! "/cache/movie_shrync_3f2a9c1e.mkv" = Some Sample.partial_output.
Proof.
  destruct (cleanup_stale_conversions_leaves_temp Sample.env_cache Sample.st_interrupted
              Sample.interrupted_job Sample.partial_output)
    as (_ & _ & Hfile).
  - left. reflexivity.
  - reflexivity.
  - vm_compute. reflexivity.
  - intros j [<-|[]] _. apply cleanup_tmp_file_differs.
  - split; [vm_compute; reflexivity | exact Hfile].
Defined.

(** ** Cancelling a running job *)

Lemma kill_other pid p procs : p <> pid -> kill p procs !! pid = procs !! pid.
Proof.
  intros Hne. unfold kill. destruct (procs !! p) as [[|rc]|]; try reflexivity.
  now apply lookup_insert_ne.
Qed.





Lemma foldr_kill_other (pid : nat) (procs : gmap nat Process) (handles : list nat) :
  ~ In pid handles -> foldr kill procs handles !! pid = procs !! pid.
Proof.
  induction handles as [|p handles IH]; simpl; [reflexivity|].
  intros Hn. rewrite kill_other by tauto. apply IH. tauto.
Qed.

Lemma handle_registered (aj : gmap string (string * nat)) (jid : string) (pid : nat) :
  In pid (List.map snd (List.filter (fun s => String.eqb (fst s) jid)
                          (List.map snd (map_to_list aj)))) ->
  exists slot, aj !! slot = Some (jid, pid).
Proof.
  intros ([j p] & Hp & [Hin Hj]%filter_In)%in_map_iff. cbn in Hp, Hj. subst p.
  apply String.eqb_eq in Hj. subst j.
  apply in_map_iff in Hin as ([slot v] & Hv & Hin). cbn in Hv. subst v.
  exists slot. now apply elem_of_map_to_list, list_elem_of_In.
Qed.






(** ** Duplicate checks before enqueueing *)

Lemma queue_existing_app fpath q q' :
  queue_existing fpath (q ++ q')%list =
  match queue_existing fpath q with
  | Some i => Some i
  | None => queue_existing fpath q'
  end.
Proof.
  unfold queue_existing. induction q as [|r q IH]; simpl; [reflexivity|].
  destruct (String.eqb (q_file_path r) fpath && is_active r); [reflexivity | exact IH].
Qed.

Lemma queue_existing_new_row fpath q jid lib fsize timestamp :
  is_Some (queue_existing fpath (q ++ [new_queue_row jid lib fpath fsize timestamp])%list).
Proof.
  rewrite queue_existing_app. destruct (queue_existing fpath q); [eauto|].
  unfold queue_existing. simpl. rewrite String.eqb_refl. simpl. eauto.
Qed.


Lemma queue_existing_only_error fpath q :
  only_error_rows fpath q -> queue_existing fpath q = None.
Proof.
  intros Honly. unfold queue_existing.
  destruct (List.find _ q) as [r|] eqn:E; [|reflexivity].
  apply find_some in E as [Hin Hr]. apply andb_true_iff in Hr as [Hp Ha].
  apply String.eqb_eq in Hp. unfold is_active in Ha.
  rewrite (Honly r Hin Hp) in Ha. discriminate Ha.
Qed.

(** C8: [POST /api/queue/add] for a path that already has a [pending] or
    [processing] row answers 400 and leaves the state as it was; and when
    a first call succeeded (it answers with the new job id and has
    appended one [pending] row for the path), any further call for the
    same path answers 400 "Al in wachtrij" and inserts nothing. *)
Theorem api_add_to_queue_duplicate
    (data : gmap string string) (jid timestamp : string) (st : State) :
  let file_path := default "" (data !! "file_path") in
  (is_Some (queue_existing file_path (queue (st_db st))) ->
   exists detail,
     api_add_to_queue data jid timestamp st = (st, HTTPException 400 detail)) /\
  (forall st1 body,
     api_add_to_queue data jid timestamp st = (st1, Ok200 body) ->
     body = [("id", jid)] /\
     (exists r, queue (st_db st1) = (queue (st_db st) ++ [r])%list /\
                q_id r = jid /\ q_file_path r = file_path /\ q_status r = Pending) /\
     forall jid2 timestamp2,
       api_add_to_queue data jid2 timestamp2 st1
       = (st1, HTTPException 400 "Al in wachtrij")).
Proof.
  intros file_path. split.
  - intros [i Hi]. unfold api_add_to_queue. fold file_path.
    destruct (String.eqb file_path "" || negb (os_path_exists (st_fs st) file_path));
      [eauto|]. rewrite Hi. eauto.
  - intros st1 body. unfold api_add_to_queue at 1. fold file_path.
    destruct (String.eqb file_path "" || negb (os_path_exists (st_fs st) file_path))
      eqn:Hchk; [discriminate|].
    destruct (queue_existing file_path (queue (st_db st))); [discriminate|].
    destruct (os_path_getsize (st_fs st) file_path) as [|fsize]; [discriminate|].
    intros H. injection H as <- <-. split; [reflexivity|]. split.
    + eexists. split; [reflexivity|]. repeat split.
    + intros jid2 timestamp2. unfold api_add_to_queue. fold file_path. simpl.
      rewrite Hchk.
      destruct (queue_existing_new_row file_path (queue (st_db st)) jid
                  (data !! "library_id") fsize timestamp) as [i ->].
      reflexivity.
Qed.

Lemma api_add_to_queue_duplicate_witness :
  let data : gmap string string :=
    {[ "file_path" := "/lib/a/movie.mkv"; "library_id" := "lib1" ]} in
  let st := Sample.state_of (Sample.db_of [] [])
              (Sample.one_mount {[ "/lib/a/movie.mkv" := Sample.movie ]}) in
  exists st1,
    api_add_to_queue data "job-1" "2024-05-01 10:00:00" st
      = (st1, Ok200 [("id", "job-1")]) /\
    api_add_to_queue data "job-2" "2024-05-01 10:00:05" st1
      = (st1, HTTPException 400 "Al in wachtrij") /\
    exists detail,
      api_add_to_queue data "job-3" "2024-05-01 10:00:09" Sample.st_queued
      = (Sample.st_queued, HTTPException 400 detail).
Proof.
  intros data st.
  destruct (api_add_to_queue data "job-1" "2024-05-01 10:00:00" st) as [st1 resp] eqn:E.
  assert (Hresp : resp = Ok200 [("id", "job-1")]).
  { vm_compute in E. now injection E as _ <-. }
  subst resp. exists st1. split; [reflexivity|]. split.
  - apply (proj2 (api_add_to_queue_duplicate data "job-1" "2024-05-01 10:00:00" st)
             st1 _ E).
  - apply (proj1 (api_add_to_queue_duplicate data "job-3" "2024-05-01 10:00:09"
                    Sample.st_queued)).
    vm_compute. eauto.
Defined.

(** ** Scanning twice *)

Section ScanTwice.

Variable environ : gmap string string.
Variable fs : FS.
Variable library_id : string.

Local Abbreviation verdict := (scan_verdict environ fs).
Local Abbreviation apply_verdict := (apply_scan_verdict library_id).


Lemma scan_file_verdict uuid4 timestamp root fname s :
  scan_file environ fs library_id uuid4 timestamp root fname s
  = apply_verdict uuid4 timestamp root fname (verdict root fname (sc_db s)) s.
Proof.
  unfold scan_file, scan_verdict.
  destruct (negb (str_in _ VIDEO_EXTENSIONS)); [reflexivity|].
  destruct (PyStr.contains "_shrync_" fname); [reflexivity|].
  destruct (negb (String.eqb (CACHE_DIR environ) "") && _); [reflexivity|].
  cbn [sc_db count_scanned].
  destruct (queue_existing _ _); [reflexivity|].
  destruct (history_done _ _); [reflexivity|].
  destruct (profile_to_ffmpeg _) as [[global_codec preset] quality]. cbn [fst].
  destruct (needs_conversion _ _ _); cbn [negb]; [|reflexivity].
  destruct (os_path_getsize _ _); reflexivity.
Qed.


Lemma extends_refl q : extends q q.
Proof. exists []. split; [now rewrite app_nil_r | constructor]. Qed.

Lemma extends_trans q1 q2 q3 : extends q1 q2 -> extends q2 q3 -> extends q1 q3.
Proof.
  intros (r1 & -> & H1) (r2 & -> & H2). exists (r1 ++ r2)%list.
  split; [now rewrite app_assoc | now apply Forall_app].
Qed.

Lemma queue_existing_extends fpath q q' :
  extends q q' -> is_Some (queue_existing fpath q) -> is_Some (queue_existing fpath q').
Proof. intros (rows & -> & _) [i Hi]. rewrite queue_existing_app, Hi. eauto. Qed.

Lemma queue_existing_In r q :
  In r q -> is_active r = true -> is_Some (queue_existing (q_file_path r) q).
Proof.
  intros Hin Hact. unfold queue_existing.
  destruct (List.find _ q) as [r'|] eqn:E; [simpl; eauto|].
  apply (find_none _ _ E) in Hin. rewrite String.eqb_refl, Hact in Hin. discriminate Hin.
Qed.

(** A row the queue gained is found by the duplicate check. *)
Lemma extends_new_rows_found q q' r :
  extends q q' -> In r q' -> ~ In r q ->
  is_Some (queue_existing (q_file_path r) q').
Proof.
  intros (rows & -> & Hact) Hin Hnew. apply queue_existing_In; [exact Hin|].
  apply in_app_or in Hin as [Hin|Hin]; [contradiction|].
  rewrite Forall_forall in Hact. apply Hact, list_elem_of_In, Hin.
Qed.


Lemma covers_weaken ok q1 q2 q3 : extends q1 q2 -> covers ok q2 q3 -> extends q1 q3.
Proof.
  intros H12. destruct ok; simpl; [now apply extends_trans | now intros ->].
Qed.

(** One entry, first pass: the store only grows. *)
Lemma apply_verdict_grows uuid4 timestamp root fname s s1 ok :
  apply_verdict uuid4 timestamp root fname (verdict root fname (sc_db s)) s = (s1, ok) ->
  extends (queue (sc_db s)) (queue (sc_db s1)) /\
  history (sc_db s1) = history (sc_db s) /\
  settings (sc_db s1) = settings (sc_db s) /\
  libraries (sc_db s1) = libraries (sc_db s).
Proof.
  destruct (verdict root fname (sc_db s)); simpl; intros H; injection H as <- <-;
    simpl; repeat split; try apply extends_refl.
  eexists. split; [reflexivity|]. repeat constructor.
Qed.

Lemma verdict_same_store root fname d d' :
  queue d' = queue d -> history d' = history d -> settings d' = settings d ->
  verdict root fname d' = verdict root fname d.
Proof.
  intros Hq Hh Hs. unfold scan_verdict, get_global_setting. now rewrite Hq, Hh, Hs.
Qed.

(** One entry, second pass over a store that covers the first pass:
    nothing is inserted, and an entry that was added is now skipped. *)
Lemma scan_file_again u1 ts1 u2 ts2 root fname s s1 ok r :
  scan_file environ fs library_id u1 ts1 root fname s = (s1, ok) ->
  history (sc_db r) = history (sc_db s) ->
  settings (sc_db r) = settings (sc_db s) ->
  covers ok (queue (sc_db s1)) (queue (sc_db r)) ->
  exists r',
    scan_file environ fs library_id u2 ts2 root fname r = (r', ok) /\
    sc_db r' = sc_db r /\
    ss_added (sc_st r') = ss_added (sc_st r) /\
    ss_added (sc_st s1) - ss_added (sc_st s)
      <= ss_skipped (sc_st r') - ss_skipped (sc_st r).
Proof.
  rewrite !scan_file_verdict. intros Hfirst Hh Hs Hcov.
  assert (Hprof : get_global_setting (sc_db r) "conversion_profile" "nvenc_max"
                  = get_global_setting (sc_db s) "conversion_profile" "nvenc_max").
  { unfold get_global_setting. now rewrite Hs. }
  revert Hfirst. unfold scan_verdict. rewrite Hh, Hprof.
  destruct (negb (str_in _ VIDEO_EXTENSIONS)).
  { intros H; injection H as <- <-. eexists. split; [reflexivity|].
    repeat split; lia. }
  destruct (PyStr.contains "_shrync_" fname).
  { intros H; injection H as <- <-. eexists. split; [reflexivity|].
    repeat split; lia. }
  destruct (negb (String.eqb (CACHE_DIR environ) "") && _).
  { intros H; injection H as <- <-. eexists. split; [reflexivity|].
    repeat split; lia. }
  set (fpath := PyPath.join root fname).
  destruct (queue_existing fpath (queue (sc_db s))) as [i|] eqn:Hex.
  { intros H; injection H as <- <-. simpl in Hcov.
    destruct (queue_existing_extends fpath _ _ Hcov) as [i' ->]; [rewrite Hex; eauto|].
    eexists. split; [reflexivity|]. simpl. repeat split; lia. }
  destruct (history_done fpath (history (sc_db s))) as [i|].
  { intros H; injection H as <- <-.
    destruct (queue_existing fpath (queue (sc_db r)));
      (eexists; split; [reflexivity|]; simpl; repeat split; lia). }
  destruct (needs_conversion fs fpath _).
  2:{ intros H; injection H as <- <-.
      destruct (queue_existing fpath (queue (sc_db r)));
        (eexists; split; [reflexivity|]; simpl; repeat split; lia). }
  destruct (os_path_getsize fs fpath) as [e|fsize].
  - intros H; injection H as <- <-. simpl in Hcov. rewrite Hcov, Hex.
    eexists. split; [reflexivity|]. simpl. repeat split; lia.
  - intros H; injection H as <- <-. simpl in Hcov.
    destruct (queue_existing_extends fpath _ _ Hcov) as [i' ->].
    { apply queue_existing_new_row. }
    eexists. split; [reflexivity|]. simpl. repeat split; lia.
Qed.

Lemma scan_file_grows uuid4 timestamp root fname s s1 ok :
  scan_file environ fs library_id uuid4 timestamp root fname s = (s1, ok) ->
  extends (queue (sc_db s)) (queue (sc_db s1)) /\
  history (sc_db s1) = history (sc_db s) /\
  settings (sc_db s1) = settings (sc_db s) /\
  libraries (sc_db s1) = libraries (sc_db s).
Proof. rewrite scan_file_verdict. apply apply_verdict_grows. Qed.

Lemma scan_files_grows uuid4 timestamp root fnames s s1 ok :
  scan_files environ fs library_id uuid4 timestamp root fnames s = (s1, ok) ->
  extends (queue (sc_db s)) (queue (sc_db s1)) /\
  history (sc_db s1) = history (sc_db s) /\
  settings (sc_db s1) = settings (sc_db s) /\
  libraries (sc_db s1) = libraries (sc_db s).
Proof.
  revert s. induction fnames as [|fname rest IH]; intros s; simpl.
  - intros H; injection H as <- <-. repeat split. apply extends_refl.
  - destruct (scan_file _ _ _ _ _ root fname s) as [s' ok'] eqn:E.
    apply scan_file_grows in E as (Hq & Hh & Hs & Hl).
    destruct ok'.
    + intros H. apply IH in H as (Hq' & Hh' & Hs' & Hl').
      split; [eapply extends_trans; eassumption|]. repeat split; congruence.
    + intros H; injection H as <- <-. tauto.
Qed.

Lemma scan_files_again u1 ts1 u2 ts2 root fnames s s1 ok r :
  scan_files environ fs library_id u1 ts1 root fnames s = (s1, ok) ->
  history (sc_db r) = history (sc_db s) ->
  settings (sc_db r) = settings (sc_db s) ->
  covers ok (queue (sc_db s1)) (queue (sc_db r)) ->
  exists r',
    scan_files environ fs library_id u2 ts2 root fnames r = (r', ok) /\
    sc_db r' = sc_db r /\
    ss_added (sc_st r') = ss_added (sc_st r) /\
    ss_added (sc_st s1) - ss_added (sc_st s)
      <= ss_skipped (sc_st r') - ss_skipped (sc_st r).
Proof.
  revert s r. induction fnames as [|fname rest IH]; intros s r; simpl.
  - intros H _ _ _; injection H as <- <-. exists r. repeat split; lia.
  - destruct (scan_file _ _ _ u1 _ root fname s) as [s' ok'] eqn:E.
    pose proof (scan_file_grows _ _ _ _ _ _ _ E) as (Hq & Hh & Hs & _).
    destruct ok'.
    + intros Hrest Hhr Hsr Hcov.
      pose proof (scan_files_grows _ _ _ _ _ _ _ Hrest) as (Hq' & _).
      destruct (scan_file_again u1 ts1 u2 ts2 root fname s s' true r E Hhr Hsr)
        as (r1 & Hr1 & Hdb1 & Ha1 & Hk1).
      { simpl. eapply covers_weaken; eassumption. }
      rewrite Hr1.
      destruct (IH s' r1 Hrest) as (r' & Hr' & Hdb' & Ha' & Hk');
        [rewrite Hdb1; congruence | rewrite Hdb1; congruence | now rewrite Hdb1 |].
      exists r'. split; [exact Hr'|]. split; [congruence|]. split; lia.
    + intros H Hhr Hsr Hcov; injection H as <- <-.
      destruct (scan_file_again u1 ts1 u2 ts2 root fname s s' false r E Hhr Hsr Hcov)
        as (r1 & Hr1 & Hdb1 & Ha1 & Hk1).
      rewrite Hr1. exists r1. auto.
Qed.

Lemma scan_walk_grows uuid4 timestamp walk s s1 ok :
  scan_walk environ fs library_id uuid4 timestamp walk s = (s1, ok) ->
  extends (queue (sc_db s)) (queue (sc_db s1)) /\
  history (sc_db s1) = history (sc_db s) /\
  settings (sc_db s1) = settings (sc_db s) /\
  libraries (sc_db s1) = libraries (sc_db s).
Proof.
  revert s. induction walk as [|[root fnames] rest IH]; intros s; simpl.
  - intros H; injection H as <- <-. repeat split. apply extends_refl.
  - destruct (scan_files _ _ _ _ _ root fnames s) as [s' ok'] eqn:E.
    apply scan_files_grows in E as (Hq & Hh & Hs & Hl).
    destruct ok'.
    + intros H. apply IH in H as (Hq' & Hh' & Hs' & Hl').
      split; [eapply extends_trans; eassumption|]. repeat split; congruence.
    + intros H; injection H as <- <-. tauto.
Qed.

Lemma scan_walk_again u1 ts1 u2 ts2 walk s s1 ok r :
  scan_walk environ fs library_id u1 ts1 walk s = (s1, ok) ->
  history (sc_db r) = history (sc_db s) ->
  settings (sc_db r) = settings (sc_db s) ->
  covers ok (queue (sc_db s1)) (queue (sc_db r)) ->
  exists r',
    scan_walk environ fs library_id u2 ts2 walk r = (r', ok) /\
    sc_db r' = sc_db r /\
    ss_added (sc_st r') = ss_added (sc_st r) /\
    ss_added (sc_st s1) - ss_added (sc_st s)
      <= ss_skipped (sc_st r') - ss_skipped (sc_st r).
Proof.
  revert s r. induction walk as [|[root fnames] rest IH]; intros s r; simpl.
  - intros H _ _ _; injection H as <- <-. exists r. repeat split; lia.
  - destruct (scan_files _ _ _ u1 _ root fnames s) as [s' ok'] eqn:E.
    pose proof (scan_files_grows _ _ _ _ _ _ _ E) as (Hq & Hh & Hs & _).
    destruct ok'.
    + intros Hrest Hhr Hsr Hcov.
      pose proof (scan_walk_grows _ _ _ _ _ _ Hrest) as (Hq' & _).
      destruct (scan_files_again u1 ts1 u2 ts2 root fnames s s' true r E Hhr Hsr)
        as (r1 & Hr1 & Hdb1 & Ha1 & Hk1).
      { simpl. eapply covers_weaken; eassumption. }
      rewrite Hr1.
      destruct (IH s' r1 Hrest) as (r' & Hr' & Hdb' & Ha' & Hk');
        [rewrite Hdb1; congruence | rewrite Hdb1; congruence | now rewrite Hdb1 |].
      exists r'. split; [exact Hr'|]. split; [congruence|]. split; lia.
    + intros H Hhr Hsr Hcov; injection H as <- <-.
      destruct (scan_files_again u1 ts1 u2 ts2 root fnames s s' false r E Hhr Hsr Hcov)
        as (r1 & Hr1 & Hdb1 & Ha1 & Hk1).
      rewrite Hr1. exists r1. auto.
Qed.

End ScanTwice.

Lemma library_by_id_set_last_scan lid now l lib :
  library_by_id lid l = Some lib ->
  exists lib', library_by_id lid (set_last_scan lid now l) = Some lib' /\
               l_path lib' = l_path lib.
Proof.
  unfold library_by_id, set_last_scan.
  induction l as [|r l IH]; simpl; [discriminate|].
  destruct (String.eqb (l_id r) lid) eqn:E; simpl.
  - intros H; injection H as <-. rewrite E. eauto.
  - rewrite E. exact IH.
Qed.


Lemma scan_library_found environ library_id uuid4 timestamp now st lib :
  library_by_id library_id (libraries (st_db st)) = Some lib ->
  scan_library environ library_id uuid4 timestamp now st
  = scan_library_of environ library_id uuid4 timestamp now (l_path lib) st.
Proof. intros H. unfold scan_library. now rewrite H. Qed.

Lemma scan_library_grows environ library_id uuid4 timestamp now st :
  extends (queue (st_db st))
          (queue (st_db (scan_library environ library_id uuid4 timestamp now st))).
Proof.
  unfold scan_library.
  destruct (library_by_id _ _) as [lib|]; [|apply extends_refl].
  destruct (dirs (st_fs st) !! l_path lib) as [[name [] fnames subs]|];
    try apply extends_refl.
  destruct (scan_walk _ _ _ _ _ _ _) as [s ok] eqn:E.
  apply scan_walk_grows in E as (Hq & _). now destruct ok.
Qed.

(** The counters of two scans in a row. *)
Lemma scan_library_twice_counts
    (environ : gmap string string) (library_id : string) (lib : LibraryRow)
    (uuid4 uuid4' : nat -> string) (timestamp now timestamp' now' : string)
    (st : State) :
  library_by_id library_id (libraries (st_db st)) = Some lib ->
  let st1 := scan_library environ library_id uuid4 timestamp now st in
  let st2 := scan_library environ library_id uuid4' timestamp' now' st1 in
  queue (st_db st2) = queue (st_db st1) /\
  exists first second,
    scan_status st1 !! library_id = Some first /\
    scan_status st2 !! library_id = Some second /\
    ss_added second = 0 /\
    ss_added first <= ss_skipped second.
Proof.
  intros Hlib st1 st2.
  assert (Hst1 : st1 = scan_library_of environ library_id uuid4 timestamp now
                         (l_path lib) st)
    by (now apply scan_library_found).
  assert (Hfs : st_fs st1 = st_fs st).
  { rewrite Hst1. unfold scan_library_of.
    destruct (dirs (st_fs st) !! l_path lib) as [[name [] fnames subs]|];
      try reflexivity.
    destruct (scan_walk _ _ _ _ _ _ _) as [s []]; reflexivity. }
  assert (Hlib1 : exists lib', library_by_id library_id (libraries (st_db st1)) = Some lib'
                               /\ l_path lib' = l_path lib).
  { rewrite Hst1. unfold scan_library_of.
    destruct (dirs (st_fs st) !! l_path lib) as [[name [] fnames subs]|];
      [|simpl; eauto..].
    destruct (scan_walk _ _ _ _ _ _ _) as [s []] eqn:E;
      apply scan_walk_grows in E as (_ & _ & _ & Hl); simpl in Hl;
      cbn [st_db with_db with_scan_status libraries set_libraries]; rewrite Hl.
    - now apply library_by_id_set_last_scan.
    - eauto. }
  destruct Hlib1 as (lib' & Hlib' & Hpath).
  assert (Hst2 : st2 = scan_library_of environ library_id uuid4' timestamp' now'
                         (l_path lib) st1).
  { subst st2. rewrite <- Hpath. now apply scan_library_found. }
  rewrite Hst2. clearbody st1 st2. clear Hst2 Hlib' st2.
  unfold scan_library_of. rewrite Hfs. clear Hfs. subst st1.
  unfold scan_library_of.
  destruct (dirs (st_fs st) !! l_path lib) as [[name [] fnames subs]|] eqn:Hdir.
  - (* the walk runs *)
    set (tree := Dir name true fnames subs).
    destruct (scan_walk environ (st_fs st) library_id uuid4 timestamp
                (os_walk (l_path lib) tree)
                {| sc_db := st_db st; sc_st := scan_started (l_path lib) |})
      as [s ok] eqn:E.
    pose proof (scan_walk_grows _ _ _ _ _ _ _ _ _ E) as (_ & Hh & Hs & _).
    simpl in Hh, Hs.
    destruct ok.
    + destruct (scan_walk_again environ (st_fs st) library_id uuid4 timestamp
                  uuid4' timestamp' _ _ _ _
                  {| sc_db := set_libraries (set_last_scan library_id now) (sc_db s);
                     sc_st := scan_started (l_path lib) |} E)
        as (r' & Hr' & Hdb & Ha & Hk);
        [exact Hh | exact Hs | apply extends_refl |].
      cbn [st_db with_db with_scan_status]. rewrite Hr'.
      destruct r' as [rdb rst]. simpl in Hdb, Ha, Hk. subst rdb.
      split; [reflexivity|].
      eexists. eexists. cbn [scan_status with_db with_scan_status].
      rewrite !lookup_insert_eq.
      split; [reflexivity|]. split; [reflexivity|]. simpl. lia.
    + destruct (scan_walk_again environ (st_fs st) library_id uuid4 timestamp
                  uuid4' timestamp' _ _ _ _
                  {| sc_db := sc_db s; sc_st := scan_started (l_path lib) |} E)
        as (r' & Hr' & Hdb & Ha & Hk);
        [exact Hh | exact Hs | reflexivity |].
      cbn [st_db with_db with_scan_status]. rewrite Hr'.
      destruct r' as [rdb rst]. simpl in Hdb, Ha, Hk. subst rdb.
      split; [reflexivity|].
      eexists. eexists. cbn [scan_status with_db with_scan_status].
      rewrite !lookup_insert_eq.
      split; [reflexivity|]. split; [reflexivity|]. simpl. lia.
  - (* the root cannot be listed *)
    simpl. split; [reflexivity|]. eexists. eexists. rewrite !lookup_insert_eq.
    split; [reflexivity|]. split; [reflexivity|]. simpl. lia.
  - (* the root is no directory *)
    simpl. split; [reflexivity|]. eexists. eexists. rewrite !lookup_insert_eq.
    split; [reflexivity|]. split; [reflexivity|]. simpl. lia.
Qed.

(** C7: scanning a library twice in a row, the filesystem and the rest of
    the store untouched in between, the second scan inserts no queue row:
    its [added] counter is 0 and the queue is the one the first scan left;
    every row the first scan added is found by the queue check ([pending]
    or [processing] row for the path) the second scan makes, and the
    second scan's [skipped] is at least the first scan's [added]. This
    also holds when the first scan was cut short by an exception: the
    second one stops at the same file. *)
Theorem scan_library_twice_adds_nothing
    (environ : gmap string string) (library_id : string) (lib : LibraryRow)
    (uuid4 uuid4' : nat -> string) (timestamp now timestamp' now' : string)
    (st : State) :
  library_by_id library_id (libraries (st_db st)) = Some lib ->
  let st1 := scan_library environ library_id uuid4 timestamp now st in
  let st2 := scan_library environ library_id uuid4' timestamp' now' st1 in
  queue (st_db st2) = queue (st_db st1) /\
  (forall r, In r (queue (st_db st1)) -> ~ In r (queue (st_db st)) ->
             is_Some (queue_existing (q_file_path r) (queue (st_db st1)))) /\
  exists first second,
    scan_status st1 !! library_id = Some first /\
    scan_status st2 !! library_id = Some second /\
    ss_added second = 0 /\
    ss_added first <= ss_skipped second.
Proof.
  intros Hlib st1 st2.
  destruct (scan_library_twice_counts environ library_id lib uuid4 uuid4'
              timestamp now timestamp' now' st Hlib) as (Hq & Hcount).
  split; [exact Hq|]. split; [|exact Hcount].
  intros r Hin Hnew. eapply extends_new_rows_found; [|exact Hin|exact Hnew].
  apply scan_library_grows.
Qed.

Lemma scan_library_twice_witness :
  let st1 := scan_library Sample.env_cpu "lib1" Sample.uuids
               "2024-05-01 09:00:00" "2024-05-01T09:00:01" Sample.st_library in
  let st2 := scan_library Sample.env_cpu "lib1" Sample.uuids
               "2024-05-01 09:10:00" "2024-05-01T09:10:01" st1 in
  List.map q_file_path (queue (st_db st1)) = ["/lib/a/movie.mkv"] /\
  queue (st_db st2) = queue (st_db st1) /\
  (ss_added <$> scan_status st1 !! "lib1") = Some 1 /\
  (ss_already_converted <$> scan_status st1 !! "lib1") = Some 1 /\
  (ss_added <$> scan_status st2 !! "lib1") = Some 0 /\
  (ss_skipped <$> scan_status st2 !! "lib1") = Some 1.
Proof.
  intros st1 st2.
  destruct (scan_library_twice_adds_nothing Sample.env_cpu "lib1" Sample.lib1
              Sample.uuids Sample.uuids
              "2024-05-01 09:00:00" "2024-05-01T09:00:01"
              "2024-05-01 09:10:00" "2024-05-01T09:10:01"
              Sample.st_library eq_refl) as (Hq & _).
  split; [vm_compute; reflexivity|]. split; [exact Hq|].
  repeat split; vm_compute; reflexivity.
Defined.

(** ** Progress frames *)


(** On a float that is not negative, [int] and [floor] agree. *)
Lemma int_floor_nonneg (x : float) :
  (0 <=? x)%float = true -> PyNum.floor x = PyNum.int x.
Proof.
  intros H. rewrite leb_spec in H.
  replace (Prim2SF 0) with (S754_zero false) in H by reflexivity.
  unfold PyNum.floor, PyNum.int.
  destruct (Prim2SF x) as [s|s| |[] m e]; try reflexivity; try discriminate H.
  simpl. now destruct (0 <=? e)%Z.
Qed.

Lemma startswith_fps_not_out_time line :
  PyStr.startswith "fps=" line = true -> PyStr.startswith "out_time_us=" line = false.
Proof.
  destruct line as [|ch line]; [discriminate|]. cbn [PyStr.startswith].
  destruct (Ascii.eqb_spec "f" ch) as [<-|_]; intros H;
    [reflexivity | discriminate H].
Qed.

(** C6 (as the code has it): for every [fps=] frame, what is committed to
    the job row is [progress], the parsed fps and [eta] with:
    [progress <= 99]; when [duration > 0] does not hold, [progress = 0]
    and [eta = ""]; when [duration > 0], [progress = min(int(current_sec /
    duration * 100), 99)] with [current_sec = out_time_us / 1_000_000],
    and [eta] is ["{m}m{s}s"] for [remaining_sec = int((duration -
    current_sec) / fps * 25)], [m = remaining_sec // 60], [s =
    remaining_sec % 60] when [fps > 0], the empty string otherwise. [int]
    rounds toward zero; it is the specification's [floor] whenever the
    rounded quantities are not negative, and then the committed values
    are exactly the ones the specification's formulas give. A frame whose
    number cannot be read or rounded commits nothing. *)
Theorem fps_frame_commit
    (py_float : string -> option float) (line : string)
    (c c' : Conversion) (st st' : State) :
  PyStr.startswith "fps=" (PyStr.strip line) = true ->
  run_conversion_stdout py_float line c st = (c', st') ->
  c' = c /\
  (st' = st \/
   exists fps_val progress eta,
     PyStr.split_eq_1 (PyStr.strip line) ≫= py_float = Some fps_val /\
     st' = with_db (set_queue
             (queue_update (c_job_id c) (set_progress progress fps_val eta))) st /\
     fps_frame (c_duration c) (c_out_time_us c) fps_val = Some (progress, eta) /\
     progress <= 99 /\
     ((0 <? c_duration c)%float = false -> progress = 0 /\ eta = "") /\
     ((0 <? c_duration c)%float = true ->
      exists current_sec p,
        PyNum.truediv (c_out_time_us c) 1000000 = Some current_sec /\
        PyNum.int (current_sec / c_duration c * 100)%float = Some p /\
        progress = Z.min p 99 /\
        ((0 <? fps_val)%float = false -> eta = "") /\
        ((0 <? fps_val)%float = true ->
         exists remaining_sec,
           PyNum.int ((c_duration c - current_sec) / fps_val * 25)%float
             = Some remaining_sec /\
           eta = PyStr.of_Z (remaining_sec / 60) +:+ "m" +:+
                 PyStr.of_Z (remaining_sec mod 60) +:+ "s") /\
        ((0 <=? current_sec / c_duration c * 100)%float = true ->
         ((0 <? fps_val)%float = true ->
          (0 <=? (c_duration c - current_sec) / fps_val * 25)%float = true) ->
         claimed_fps_frame (c_duration c) (c_out_time_us c) fps_val
           = Some (progress, eta)))).
Proof.
  intros Hfps. unfold run_conversion_stdout.
  rewrite (startswith_fps_not_out_time _ Hfps), Hfps.
  destruct (PyStr.split_eq_1 (PyStr.strip line) ≫= py_float) as [fps_val|];
    [|intros H; injection H as <- <-; auto].
  destruct (fps_frame (c_duration c) (c_out_time_us c) fps_val) as [[progress eta]|] eqn:E;
    [|intros H; injection H as <- <-; auto].
  intros H; injection H as <- <-. split; [reflexivity|]. right.
  exists fps_val, progress, eta.
  split; [reflexivity|]. split; [reflexivity|]. split; [exact E|].
  revert E. unfold fps_frame, claimed_fps_frame.
  destruct (0 <? c_duration c)%float.
  2:{ intros H; injection H as <- <-. split; [lia|]. split; [auto|discriminate]. }
  destruct (PyNum.truediv (c_out_time_us c) 1000000) as [current_sec|];
    [|discriminate].
  cbn [mbind option_bind].
  destruct (PyNum.int (current_sec / c_duration c * 100)) as [p|] eqn:Hp;
    [|discriminate].
  cbn [mbind option_bind].
  destruct (0 <? fps_val)%float.
  - destruct (PyNum.int ((c_duration c - current_sec) / fps_val * 25)) as [r|] eqn:Hr;
      [|discriminate].
    cbn [mbind option_bind]. intros H; injection H as <- <-.
    split; [lia|]. split; [discriminate|]. intros _.
    exists current_sec, p.
    split; [reflexivity|]. split; [exact Hp|]. split; [reflexivity|].
    split; [discriminate|]. split.
    + intros _. exists r. split; [exact Hr | reflexivity].
    + intros Hx Hy. rewrite (int_floor_nonneg _ Hx), Hp. cbn [mbind option_bind].
      rewrite (int_floor_nonneg _ (Hy eq_refl)), Hr. reflexivity.
  - intros H; injection H as <- <-.
    split; [lia|]. split; [discriminate|]. intros _.
    exists current_sec, p.
    split; [reflexivity|]. split; [exact Hp|]. split; [reflexivity|].
    split; [reflexivity|]. split; [discriminate|].
    intros Hx _. rewrite (int_floor_nonneg _ Hx), Hp. reflexivity.
Qed.

Lemma fps_frame_commit_witness :
  let c := set_out_time_us 5000000 Sample.conv_beside in
  let res := run_conversion_stdout Sample.float_of "fps=25.0" c
               (Sample.running Sample.st_queued) in
  fst res = c /\
  ((fun r => (q_progress r, q_eta r)) <$>
     queue_by_id Sample.job_id (queue (st_db (snd res)))) = Some (50, "0m5s") /\
  claimed_fps_frame 10 5000000 25 = Some (50, "0m5s").
Proof.
  intros c res.
  destruct (fps_frame_commit Sample.float_of "fps=25.0" c (fst res)
              (Sample.running Sample.st_queued) (snd res) eq_refl
              (surjective_pairing res)) as [Hc _].
  split; [exact Hc|]. split; vm_compute; reflexivity.
Defined.

(** C6 as the specification words it does not hold: once the transcoder
    reports a position past the probed duration (here 10.02 s of 10 s, at
    25 fps) the code commits eta ["0m0s"], where [floor] gives
    ["-1m59s"]; and for a position just below zero the code commits
    progress 0, where [floor] gives -1. *)
Lemma fps_frame_not_floor :
  let after_time := run_conversion_stdout Sample.float_of "out_time_us=10020000"
                      Sample.conv_beside (Sample.running Sample.st_queued) in
  let after_fps := run_conversion_stdout Sample.float_of "fps=25.0"
                     (fst after_time) (snd after_time) in
  ((fun r => (q_progress r, q_eta r)) <$>
     queue_by_id Sample.job_id (queue (st_db (snd after_fps)))) = Some (99, "0m0s") /\
  claimed_fps_frame 10 10020000 25 = Some (99, "-1m59s") /\
  fps_frame 10 10020000 25 <> claimed_fps_frame 10 10020000 25 /\
  fps_frame 10 (-50000) 25 = Some (0, "0m10s") /\
  claimed_fps_frame 10 (-50000) 25 = Some (-1, "0m10s") /\
  fps_frame 10 (-50000) 25 <> claimed_fps_frame 10 (-50000) 25.
Proof.
  repeat split; try (vm_compute; reflexivity); vm_compute; discriminate.
Qed.

(** * Further properties of the code *)

(** ** Probe-based skip *)

(** X1: a target codec that contains neither ["hevc"] nor ["h264"] -- the
    [libx265] and [libx264] of the four CPU profiles -- makes
    [needs_conversion] answer [True] for every file, whatever the probe
    reports, a file already in HEVC included. *)
Theorem needs_conversion_cpu_target (fs : FS) (file_path : string) :
  (forall target_codec,
     PyStr.contains "hevc" target_codec = false ->
     PyStr.contains "h264" target_codec = false ->
     needs_conversion fs file_path target_codec = true) /\
  (forall profile_id,
     In profile_id ["cpu_slow"; "cpu_medium"; "cpu_fast"; "h264_cpu"] ->
     needs_conversion fs file_path (fst (fst (profile_to_ffmpeg profile_id))) = true).
Proof.
  assert (H : forall target_codec,
             PyStr.contains "hevc" target_codec = false ->
             PyStr.contains "h264" target_codec = false ->
             needs_conversion fs file_path target_codec = true).
  { intros target_codec Hh Ha. unfold needs_conversion.
    destruct (ffprobe_streams fs file_path) as [streams|]; [|reflexivity].
    rewrite Hh, Ha. apply negb_true_iff.
    induction streams as [|st streams IH]; [reflexivity|].
    cbn [existsb]. rewrite IH. cbn [andb orb]. now rewrite andb_false_r. }
  split; [exact H|].
  intros profile_id Hin. apply H;
    simpl in Hin; repeat (destruct Hin as [<-|Hin]; [reflexivity|]); destruct Hin.
Qed.

(** X2: for an HEVC target (a codec token containing ["hevc"] and not
    ["h264"], as [hevc_nvenc]), [needs_conversion] answers [False] exactly
    when the probe succeeded and reports a video stream whose codec is
    [hevc] or [h265]; a failed probe always gives [True]. *)
Theorem needs_conversion_hevc_target (fs : FS) (file_path target_codec : string) :
  PyStr.contains "hevc" target_codec = true ->
  PyStr.contains "h264" target_codec = false ->
  (needs_conversion fs file_path target_codec = false <->
   exists streams st,
     ffprobe_streams fs file_path = Some streams /\ In st streams /\
     codec_type st = "video" /\ (codec_name st = "hevc" \/ codec_name st = "h265")) /\
  (ffprobe_streams fs file_path = None ->
   needs_conversion fs file_path target_codec = true).
Proof.
  intros Hh Ha. unfold needs_conversion. rewrite Hh, Ha. split.
  - destruct (ffprobe_streams fs file_path) as [streams|]; split.
    + intros H. apply negb_false_iff, existsb_exists in H as (st & Hin & Hst).
      rewrite orb_false_r in Hst. apply andb_true_iff in Hst as [Ht Hn].
      apply String.eqb_eq in Ht. simpl in Hn. unfold str_in in Hn. simpl in Hn.
      exists streams, st. repeat split; try assumption.
      rewrite orb_false_r in Hn. apply orb_true_iff in Hn as [Hn|Hn];
        apply String.eqb_eq in Hn; auto.
    + intros (streams' & st & Heq & Hin & Ht & Hn). injection Heq as <-.
      apply negb_false_iff, existsb_exists. exists st. split; [exact Hin|].
      rewrite Ht, String.eqb_refl. simpl. unfold str_in. simpl.
      destruct Hn as [-> | ->]; reflexivity.
    + discriminate.
    + intros (streams' & st & Heq & _). discriminate Heq.
  - intros ->. reflexivity.
Qed.

Lemma needs_conversion_hevc_target_witness :
  needs_conversion (st_fs Sample.st_library) "/lib/a/old.mp4" "hevc_nvenc" = false /\
  needs_conversion (st_fs Sample.st_library) "/lib/a/movie.mkv" "hevc_nvenc" = true /\
  needs_conversion (st_fs Sample.st_library) "/lib/a/old.mp4" "libx265" = true.
Proof.
  split; [|split; reflexivity].
  apply (proj1 (needs_conversion_hevc_target (st_fs Sample.st_library)
                  "/lib/a/old.mp4" "hevc_nvenc" eq_refl eq_refl)).
  exists [Sample.hevc_stream], Sample.hevc_stream. repeat split; simpl; auto.
Defined.

(** ** Transcoder command *)

(** X3: which argument form the transcoder gets. The NVENC form
    ([-rc constqp -qp <quality> -b:v 0]) is used exactly for an [nvenc]
    codec when [GPU_MODE], lower-cased, is [nvidia], with the codec token
    unchanged. An [nvenc] codec under any other mode gets the CPU form
    ([-crf <quality>]) with [libx265] when its token contains ["hevc"] and
    [libx264] otherwise; a codec without ["nvenc"] always gets the CPU
    form with its token unchanged. So the codec handed to the transcoder
    contains ["nvenc"] only when the mode is [nvidia]. *)
Theorem ffmpeg_cmd_forms
    (environ : gmap string string)
    (src video_codec preset quality audio_codec tmp_out : string) :
  (gpu_mode environ = "nvidia" -> PyStr.contains "nvenc" video_codec = true ->
   ffmpeg_cmd environ src video_codec preset quality audio_codec tmp_out =
     [ "ffmpeg"; "-y"; "-i"; src; "-c:v"; video_codec; "-preset"; preset;
       "-rc"; "constqp"; "-qp"; quality; "-b:v"; "0"; "-c:a"; audio_codec;
       "-c:s"; "copy"; "-progress"; "pipe:1"; "-nostats"; tmp_out ]) /\
  (gpu_mode environ <> "nvidia" -> PyStr.contains "nvenc" video_codec = true ->
   ffmpeg_cmd environ src video_codec preset quality audio_codec tmp_out =
     [ "ffmpeg"; "-y"; "-i"; src; "-c:v";
       (if PyStr.contains "hevc" video_codec then "libx265" else "libx264");
       "-preset"; preset; "-crf"; quality; "-c:a"; audio_codec;
       "-c:s"; "copy"; "-progress"; "pipe:1"; "-nostats"; tmp_out ]) /\
  (PyStr.contains "nvenc" video_codec = false ->
   ffmpeg_cmd environ src video_codec preset quality audio_codec tmp_out =
     [ "ffmpeg"; "-y"; "-i"; src; "-c:v"; video_codec; "-preset"; preset;
       "-crf"; quality; "-c:a"; audio_codec;
       "-c:s"; "copy"; "-progress"; "pipe:1"; "-nostats"; tmp_out ]) /\
  (PyStr.contains "nvenc" (effective_codec_of environ video_codec) = true ->
   gpu_mode environ = "nvidia").
Proof.
  unfold ffmpeg_cmd, is_nvenc_of, effective_codec_of. split; [|split; [|split]].
  - intros -> ->. reflexivity.
  - intros Hgpu ->. apply String.eqb_neq in Hgpu. rewrite Hgpu. reflexivity.
  - intros ->. reflexivity.
  - destruct (PyStr.contains "nvenc" video_codec) eqn:Hnv; simpl.
    + destruct (String.eqb_spec (gpu_mode environ) "nvidia") as [E|E]; [intros _; exact E|].
      simpl. now destruct (PyStr.contains "hevc" video_codec).
    + congruence.
Qed.

(** ** Finalisation, whatever the outcome *)



(** ** Job selection *)

Lemma string_compare_refl s : String.compare s s = Eq.
Proof.
  induction s as [|ch s IH]; [reflexivity|]. simpl.
  unfold Ascii.compare. now rewrite N.compare_refl.
Qed.

Lemma string_leb_refl s : String.leb s s = true.
Proof. unfold String.leb. now rewrite string_compare_refl. Qed.

Lemma string_compare_le_trans a : forall b c,
  String.compare a b <> Gt -> String.compare b c <> Gt -> String.compare a c <> Gt.
Proof.
  induction a as [|x a IH]; intros [|y b] [|z c]; simpl; try congruence.
  unfold Ascii.compare.
  destruct (N.compare_spec (N_of_ascii x) (N_of_ascii y)) as [Exy|Lxy|Gxy];
    destruct (N.compare_spec (N_of_ascii y) (N_of_ascii z)) as [Eyz|Lyz|Gyz];
    try congruence; intros Hab Hbc.
  - rewrite Exy, Eyz, N.compare_refl. now apply IH with b.
  - rewrite Exy. apply N.compare_lt_iff in Lyz. now rewrite Lyz.
  - rewrite <- Eyz. apply N.compare_lt_iff in Lxy. now rewrite Lxy.
  - assert (H : (N_of_ascii x < N_of_ascii z)%N) by lia.
    apply N.compare_lt_iff in H. now rewrite H.
Qed.

Lemma string_leb_trans a b c :
  String.leb a b = true -> String.leb b c = true -> String.leb a c = true.
Proof.
  unfold String.leb. intros Hab Hbc.
  pose proof (string_compare_le_trans a b c) as H.
  destruct (String.compare a b); destruct (String.compare b c);
    destruct (String.compare a c); try reflexivity; try discriminate;
    exfalso; apply H; congruence.
Qed.

Lemma oldest_least l m :
  oldest l = Some m ->
  In m l /\ forall r, In r l -> String.leb (q_added_at m) (q_added_at r) = true.
Proof.
  revert m. induction l as [|r0 l IH]; intros m; simpl; [discriminate|].
  destruct (oldest l) as [m'|] eqn:E.
  - destruct (IH m' eq_refl) as [Hin Hle].
    destruct (String.leb (q_added_at r0) (q_added_at m')) eqn:Hcmp;
      intros H; injection H as <-.
    + split; [now left|]. intros r [<-|Hr]; [apply string_leb_refl|].
      eapply string_leb_trans; [exact Hcmp | now apply Hle].
    + split; [now right|]. intros r [<-|Hr]; [|now apply Hle].
      destruct (String.leb_total (q_added_at r0) (q_added_at m')); congruence.
  - intros H; injection H as <-. destruct l; [|simpl in E; destruct (oldest l); [destruct (String.leb _ _)|]; discriminate].
    split; [now left|]. intros r [<-|[]]. apply string_leb_refl.
Qed.

Lemma oldest_none l : oldest l = None -> l = [].
Proof.
  destruct l as [|r l]; [reflexivity|]. simpl.
  destruct (oldest l); [destruct (String.leb _ _)|]; discriminate.
Qed.

Lemma str_in_false s l : str_in s l = false <-> ~ In s l.
Proof.
  unfold str_in. split.
  - intros H Hin. apply str_in_In in Hin. unfold str_in in Hin. congruence.
  - intros Hn. destruct (existsb (String.eqb s) l) eqn:E; [|reflexivity].
    apply existsb_exists in E as (x & Hx & Heq). apply String.eqb_eq in Heq.
    subst x. contradiction.
Qed.

Lemma selectable_spec ids r :
  selectable ids r = true <-> q_status r = Pending /\ ~ In (q_id r) ids.
Proof.
  unfold selectable. rewrite andb_true_iff, negb_true_iff, str_in_false.
  split; intros [H1 H2]; (split; [|exact H2]); [now destruct (q_status r) | now rewrite H1].
Qed.

(** What [select_pending] returns. *)
Lemma select_pending_spec (ids : list string) (q : list QueueRow) :
  (forall jid, select_pending ids q = Some jid ->
     exists r, In r q /\ q_id r = jid /\ q_status r = Pending /\ ~ In jid ids /\
       forall r', In r' q -> q_status r' = Pending -> ~ In (q_id r') ids ->
                  String.leb (q_added_at r) (q_added_at r') = true) /\
  (select_pending ids q = None <->
   forall r, In r q -> q_status r = Pending -> In (q_id r) ids).
Proof.
  unfold select_pending. split.
  - intros jid H. destruct (oldest _) as [m|] eqn:E; [|discriminate].
    injection H as <-. apply oldest_least in E as [Hin Hle].
    apply filter_In in Hin as [Hin Hsel]. apply selectable_spec in Hsel as [Hs Hn].
    exists m. repeat split; try assumption.
    intros r' Hr' Hs' Hn'. apply Hle, filter_In. split; [exact Hr'|].
    now apply selectable_spec.
  - split.
    + intros H r Hin Hs. destruct (oldest _) as [m|] eqn:E; [discriminate|].
      apply oldest_none in E.
      destruct (str_in (q_id r) ids) eqn:Hin'.
      * unfold str_in in Hin'. apply existsb_exists in Hin' as (x & Hx & Heq).
        apply String.eqb_eq in Heq. now subst x.
      * assert (Hf : In r (List.filter (selectable ids) q)).
        { apply filter_In. split; [exact Hin|]. apply selectable_spec.
          split; [exact Hs | now apply str_in_false]. }
        rewrite E in Hf. destruct Hf.
    + intros H. destruct (oldest _) as [m|] eqn:E; [|reflexivity].
      apply oldest_least in E as [Hin _]. apply filter_In in Hin as [Hin Hsel].
      apply selectable_spec in Hsel as [Hs Hn]. exfalso. apply Hn. now apply H.
Qed.

(** X5: the job a worker takes is a [pending] row whose id no worker holds
    in [active_jobs], and no other such row has an earlier [added_at]; the
    worker finds nothing exactly when every [pending] row is already held
    by a worker. *)
Theorem select_pending_oldest (ids : list string) (q : list QueueRow) :
  (forall jid, select_pending ids q = Some jid ->
     exists r, In r q /\ q_id r = jid /\ q_status r = Pending /\ ~ In jid ids /\
       forall r', In r' q -> q_status r' = Pending -> ~ In (q_id r') ids ->
                  String.leb (q_added_at r) (q_added_at r') = true) /\
  (select_pending ids q = None <->
   forall r, In r q -> q_status r = Pending -> In (q_id r) ids).
Proof. apply select_pending_spec. Qed.

Lemma active_ids_registered st slot jid pid :
  active_jobs st !! slot = Some (jid, pid) -> In jid (active_ids st).
Proof.
  intros H. unfold active_ids. apply in_map_iff. exists (jid, pid).
  split; [reflexivity|]. apply in_map_iff. exists (slot, (jid, pid)).
  split; [reflexivity|]. now apply list_elem_of_In, elem_of_map_to_list.
Qed.

(** X6: a job some worker holds in [active_jobs] is never handed out by a
    turn of the worker loop, paused or not; in particular, right after
    [run_conversion] has spawned the transcoder for a job, no other worker
    picks that job. *)
Theorem worker_loop_skips_active_job
    (environ : gmap string string) (workers_paused : bool) (st : State) :
  (forall slot jid pid, active_jobs st !! slot = Some (jid, pid) ->
     worker_loop_turn workers_paused st <> Run jid) /\
  (forall job_id slot_id now popen c st',
     run_conversion_begin environ job_id slot_id now popen st = Spawned c st' ->
     worker_loop_turn workers_paused st' <> Run job_id).
Proof.
  assert (H : forall s slot jid pid, active_jobs s !! slot = Some (jid, pid) ->
                worker_loop_turn workers_paused s <> Run jid).
  { intros s slot jid pid Hslot. unfold worker_loop_turn.
    destruct workers_paused; [discriminate|].
    destruct (select_pending _ _) as [j|] eqn:E; [|discriminate].
    apply (proj1 (select_pending_spec _ _)) in E as (r & _ & <- & _ & Hn & _).
    intros Heq. injection Heq as Heq. apply Hn. rewrite Heq.
    eapply active_ids_registered, Hslot. }
  split; [apply H|].
  intros job_id slot_id now popen c st' Hrun. apply (H st' slot_id job_id (c_process c)).
  unfold run_conversion_begin in Hrun.
  destruct (queue_by_id _ _) as [job|]; [|discriminate].
  destruct (negb _); [discriminate|].
  destruct (profile_to_ffmpeg _) as [[vc pr] ql].
  destruct (os_path_getsize _ _); [discriminate|].
  destruct popen as [pid|]; [|discriminate].
  injection Hrun as <- <-. simpl. apply lookup_insert_eq.
Qed.

Lemma queue_delete_update jid f q :
  (forall r, q_id (f r) = q_id r) ->
  queue_delete jid (queue_update jid f q) = queue_delete jid q.
Proof.
  intros Hid. unfold queue_delete, queue_update.
  induction q as [|r q IH]; simpl; [reflexivity|].
  destruct (String.eqb (q_id r) jid) eqn:E; simpl.
  - now rewrite Hid, E.
  - now rewrite E, IH.
Qed.

(** ** A whole conversion *)

(** X7: a job whose source exists, with nothing at its temp path and the
    temp path on the source's mount, goes through [run_conversion] like
    this when the transcoder exits 0 having written its output: the
    source path ends up holding that output, the temp path is empty
    again, the queue row is gone, the slot is free, and history gains one
    [success] row carrying the original's size and the output's size. *)
Theorem run_conversion_replaces_source
    (environ : gmap string string) (job_id slot_id now : string) (pid : nat)
    (st : State) (job : QueueRow) (original output : File)
    (stderr_out : string) (elapsed : Z) (finished hid : string) :
  queue_by_id job_id (queue (st_db st)) = Some job ->
  files (st_fs st) !! q_file_path job = Some original ->
  files (st_fs st) !! tmp_out_of environ (q_file_path job) job_id = None ->
  mount_of (st_fs st) (tmp_out_of environ (q_file_path job) job_id)
    = mount_of (st_fs st) (q_file_path job) ->
  exists c st1 st3,
    run_conversion_begin environ job_id slot_id now (Some pid) st = Spawned c st1 /\
    run_conversion_end c stderr_out elapsed finished hid
      (transcoder_exits c 0 (Some output) st1) = Some st3 /\
    files (st_fs st3) !! q_file_path job = Some output /\
    files (st_fs st3) !! tmp_out_of environ (q_file_path job) job_id = None /\
    history (st_db st3) =
      (history (st_db st) ++
       [new_history_row hid (q_library_id job) (q_file_path job) (f_size original)
          (f_size output) elapsed Success None finished])%list /\
    queue (st_db st3) = queue_delete job_id (queue (st_db st)) /\
    active_jobs st3 !! slot_id = None.
Proof.
  intros Hjob Hsrc Htmp Hmnt.
  set (src := q_file_path job) in *.
  set (tmp := tmp_out_of environ src job_id) in *.
  assert (Hne : src <> tmp) by congruence.
  unfold run_conversion_begin. rewrite Hjob. fold src.
  unfold os_path_exists, os_path_getsize. rewrite Hsrc. cbn [negb].
  destruct (profile_to_ffmpeg _) as [[vc pr] ql]. fold tmp.
  eexists. eexists. eexists. split; [reflexivity|].
  unfold transcoder_exits. cbn [c_process st_procs with_active_jobs with_procs].
  rewrite lookup_insert_eq.
  unfold run_conversion_end.
  cbn [c_process c_tmp_out c_src c_slot_id c_job_id c_job c_original_size
       st_procs st_fs st_db active_jobs with_fs with_procs with_active_jobs with_db
       files set_files mount_of].
  rewrite lookup_insert_eq. cbn [Z.eqb andb].
  unfold os_path_exists, os_path_getsize, os_remove, os_rename.
  cbn [files set_files mount_of st_fs with_fs].
  rewrite lookup_insert_eq. rewrite lookup_insert_ne by congruence. rewrite Hsrc.
  cbn [files set_files mount_of].
  rewrite lookup_delete_ne by exact Hne. rewrite lookup_insert_eq.
  rewrite Hmnt, Nat.eqb_refl.
  split; [reflexivity|]. cbn.
  split; [apply lookup_insert_eq|].
  split; [rewrite lookup_insert_ne by exact Hne; apply lookup_delete_eq|].
  split; [reflexivity|].
  split; [apply queue_delete_update; reflexivity|].
  apply lookup_delete_eq.
Qed.

Lemma run_conversion_replaces_source_witness :
  exists c st1 st3,
    run_conversion_begin Sample.env_cpu Sample.job_id "Worker-1" Sample.claimed_at
      (Some 1%nat) Sample.st_queued = Spawned c st1 /\
    run_conversion_end c "" 42 "2024-05-01T10:05:42" "hist-1"
      (transcoder_exits c 0 (Some Sample.movie_hevc) st1) = Some st3 /\
    files (st_fs st3) !! "/lib/a/movie.mkv" = Some Sample.movie_hevc /\
    queue (st_db st3) = [] /\
    List.map (fun h => (h_status h, h_original_size h, h_new_size h))
      (history (st_db st3)) = [(Success, 1000, 400)].
Proof.
  destruct (run_conversion_replaces_source Sample.env_cpu Sample.job_id "Worker-1"
              Sample.claimed_at 1%nat Sample.st_queued Sample.movie_job
              Sample.movie Sample.movie_hevc "" 42 "2024-05-01T10:05:42" "hist-1"
              eq_refl eq_refl eq_refl eq_refl)
    as (c & st1 & st3 & Hb & He & Hsrc & _ & Hh & Hq & _).
  exists c, st1, st3. split; [exact Hb|]. split; [exact He|].
  split; [exact Hsrc|]. split; [rewrite Hq; reflexivity|]. rewrite Hh. reflexivity.
Defined.

(** ** A transcoder that cannot be started *)

Lemma queue_update_In jid f q r :
  In r (queue_update jid f q) ->
  exists r0, In r0 q /\ r = (if String.eqb (q_id r0) jid then f r0 else r0).
Proof.
  unfold queue_update. intros H. apply in_map_iff in H as (r0 & <- & Hin). eauto.
Qed.

(** X8: when [subprocess.Popen] raises (no transcoder binary), the
    exception leaves [run_conversion] after the row was marked
    [processing]: no history row is written, no slot is registered, and
    the row stays [processing]. No turn of the worker loop hands that job
    out again; only the recovery at the next start puts it back to
    [pending]. *)
Theorem popen_failure_leaves_job_processing
    (environ : gmap string string) (job_id slot_id now : string)
    (st : State) (job : QueueRow) (original : File) :
  queue_by_id job_id (queue (st_db st)) = Some job ->
  files (st_fs st) !! q_file_path job = Some original ->
  exists st',
    run_conversion_begin environ job_id slot_id now None st = Raised st' /\
    history (st_db st') = history (st_db st) /\
    active_jobs st' = active_jobs st /\
    st_fs st' = st_fs st /\
    (forall r, In r (queue (st_db st')) -> q_id r = job_id -> q_status r = Processing) /\
    (forall workers_paused, worker_loop_turn workers_paused st' <> Run job_id) /\
    (forall r, In r (queue (st_db (cleanup_stale_conversions environ st'))) ->
               q_id r = job_id -> q_status r = Pending).
Proof.
  intros Hjob Hsrc. unfold run_conversion_begin. rewrite Hjob.
  unfold os_path_exists, os_path_getsize. rewrite Hsrc. cbn [negb].
  destruct (profile_to_ffmpeg _) as [[vc pr] ql].
  eexists. split; [reflexivity|]. cbn [st_db with_db history set_queue active_jobs st_fs].
  split; [reflexivity|]. split; [reflexivity|]. split; [reflexivity|].
  set (q' := queue_update job_id (mark_processing now (f_size original))
               (queue (st_db st))).
  assert (Hproc : forall r, In r q' -> q_id r = job_id -> q_status r = Processing).
  { intros r Hin Hid. apply queue_update_In in Hin as (r0 & _ & ->).
    destruct (String.eqb (q_id r0) job_id) eqn:E; [reflexivity|].
    apply String.eqb_neq in E. contradiction. }
  split; [exact Hproc|]. split.
  - intros workers_paused. unfold worker_loop_turn.
    destruct workers_paused; [discriminate|].
    destruct (select_pending _ _) as [j|] eqn:E; [|discriminate].
    apply (proj1 (select_pending_spec _ _)) in E as (r & Hin & <- & Hs & _).
    intros Heq. injection Heq as Heq. cbn [queue set_queue] in Hin. fold q' in Hin.
    rewrite (Hproc r Hin Heq) in Hs. discriminate Hs.
  - intros r. unfold cleanup_stale_conversions. rewrite cleanup_fold_queue.
    cbn [st_db with_db queue set_queue]. fold q'. unfold reset_ids.
    intros Hin Hid. apply in_map_iff in Hin as (r0 & <- & Hin0).
    assert (Hid0 : q_id r0 = job_id) by (now destruct (str_in _ _)).
    rewrite str_in_In; [reflexivity|].
    apply in_map, filter_In. split; [exact Hin0|].
    now rewrite (Hproc r0 Hin0 Hid0).
Qed.

Lemma popen_failure_witness :
  exists st',
    run_conversion_begin Sample.env_cpu Sample.job_id "Worker-1" Sample.claimed_at
      None Sample.st_queued = Raised st' /\
    List.map q_status (queue (st_db st')) = [Processing] /\
    worker_loop_turn false st' = Sleep 3 /\
    List.map q_status (queue (st_db (cleanup_stale_conversions Sample.env_cpu st')))
      = [Pending].
Proof.
  destruct (popen_failure_leaves_job_processing Sample.env_cpu Sample.job_id "Worker-1"
              Sample.claimed_at Sample.st_queued Sample.movie_job Sample.movie
              eq_refl eq_refl) as (st' & Hrun & _).
  exists st'. split; [exact Hrun|].
  vm_compute in Hrun. injection Hrun as <-.
  repeat split; vm_compute; reflexivity.
Defined.

(** ** Recovery *)

Lemma cleanup_job_frame environ st job :
  history (st_db (cleanup_job environ st job)) = history (st_db st) /\
  settings (st_db (cleanup_job environ st job)) = settings (st_db st) /\
  libraries (st_db (cleanup_job environ st job)) = libraries (st_db st) /\
  st_procs (cleanup_job environ st job) = st_procs st /\
  active_jobs (cleanup_job environ st job) = active_jobs st.
Proof.
  unfold cleanup_job.
  destruct (os_path_exists _ _); [destruct (os_remove _ _)|]; repeat split.
Qed.

Lemma cleanup_fold_frame environ stale st :
  history (st_db (fold_left (cleanup_job environ) stale st)) = history (st_db st) /\
  settings (st_db (fold_left (cleanup_job environ) stale st)) = settings (st_db st) /\
  libraries (st_db (fold_left (cleanup_job environ) stale st)) = libraries (st_db st) /\
  st_procs (fold_left (cleanup_job environ) stale st) = st_procs st /\
  active_jobs (fold_left (cleanup_job environ) stale st) = active_jobs st.
Proof.
  revert st. induction stale as [|j stale IH]; intros st; simpl; [repeat split|].
  destruct (IH (cleanup_job environ st j)) as (H1 & H2 & H3 & H4 & H5).
  destruct (cleanup_job_frame environ st j) as (G1 & G2 & G3 & G4 & G5).
  repeat split; congruence.
Qed.

Lemma filter_none {A} (f : A -> bool) l :
  (forall x, In x l -> f x = false) -> List.filter f l = [].
Proof.
  induction l as [|x l IH]; intros H; simpl; [reflexivity|].
  rewrite (H x) by now left. apply IH. intros y Hy. apply H. now right.
Qed.

(** X9: startup recovery changes nothing when no row is [processing], so
    running it a second time is a no-op; and it never touches history,
    settings or libraries. *)
Theorem cleanup_stale_conversions_idempotent
    (environ : gmap string string) (st : State) :
  cleanup_stale_conversions environ (cleanup_stale_conversions environ st)
    = cleanup_stale_conversions environ st /\
  ((forall r, In r (queue (st_db st)) -> q_status r <> Processing) ->
   cleanup_stale_conversions environ st = st) /\
  history (st_db (cleanup_stale_conversions environ st)) = history (st_db st) /\
  settings (st_db (cleanup_stale_conversions environ st)) = settings (st_db st) /\
  libraries (st_db (cleanup_stale_conversions environ st)) = libraries (st_db st).
Proof.
  assert (Hid : forall s, (forall r, In r (queue (st_db s)) -> q_status r <> Processing) ->
                          cleanup_stale_conversions environ s = s).
  { intros s Hs. unfold cleanup_stale_conversions. rewrite filter_none; [reflexivity|].
    intros r Hr. specialize (Hs r Hr). now destruct (q_status r). }
  split; [|split; [apply Hid|]].
  - apply Hid. intros r. apply cleanup_no_processing.
  - unfold cleanup_stale_conversions.
    destruct (cleanup_fold_frame environ
                (List.filter (fun r => QueueStatus_eqb (q_status r) Processing)
                   (queue (st_db st))) st) as (H1 & H2 & H3 & _).
    auto.
Qed.

(** ** What a scan changes *)

Lemma appended_trans may q1 q2 q3 :
  appended may q1 q2 -> appended may q2 q3 -> appended may q1 q3.
Proof.
  intros H12 H23. induction H23 as [|q2 q3 r H23 IH Hr]; [exact H12|].
  apply appended_row; [now apply IH | exact Hr].
Qed.

Lemma scan_file_appends environ fs library_id uuid4 timestamp root fname s s1 ok :
  scan_file environ fs library_id uuid4 timestamp root fname s = (s1, ok) ->
  appended (scan_enqueued environ fs library_id (history (sc_db s)))
           (queue (sc_db s)) (queue (sc_db s1)).
Proof.
  unfold scan_file.
  destruct (negb (str_in _ VIDEO_EXTENSIONS)) eqn:Hext;
    [intros H; injection H as <- <-; constructor|].
  destruct (PyStr.contains "_shrync_" fname) eqn:Hmark;
    [intros H; injection H as <- <-; constructor|].
  destruct (negb (String.eqb (CACHE_DIR environ) "") && _);
    [intros H; injection H as <- <-; constructor|].
  cbn [sc_db count_scanned].
  destruct (queue_existing _ _) eqn:Hex;
    [intros H; injection H as <- <-; constructor|].
  destruct (history_done _ _) eqn:Hdone;
    [intros H; injection H as <- <-; constructor|].
  destruct (profile_to_ffmpeg _) as [[global_codec preset] quality].
  destruct (negb (needs_conversion _ _ _));
    [intros H; injection H as <- <-; constructor|].
  unfold os_path_getsize.
  destruct (files fs !! PyPath.join root fname) as [f|] eqn:Hf;
    intros H; injection H as <- <-; [|constructor].
  cbn [sc_db count_added queue set_queue]. apply appended_row; [constructor|].
  unfold scan_enqueued. cbn.
  repeat split; try assumption.
  exists root, fname, f. apply negb_false_iff in Hext. repeat split; assumption.
Qed.

Lemma scan_files_appends environ fs library_id uuid4 timestamp root fnames s s1 ok :
  scan_files environ fs library_id uuid4 timestamp root fnames s = (s1, ok) ->
  appended (scan_enqueued environ fs library_id (history (sc_db s)))
           (queue (sc_db s)) (queue (sc_db s1)).
Proof.
  revert s. induction fnames as [|fname rest IH]; intros s; simpl.
  - intros H; injection H as <- <-. constructor.
  - destruct (scan_file _ _ _ _ _ root fname s) as [s' ok'] eqn:E.
    pose proof (scan_file_grows _ _ _ _ _ _ _ _ _ _ E) as (_ & Hh & _).
    apply scan_file_appends in E. destruct ok'.
    + intros H. apply IH in H. rewrite Hh in H. eapply appended_trans; eassumption.
    + intros H; injection H as <- <-. exact E.
Qed.

Lemma scan_walk_appends environ fs library_id uuid4 timestamp walk s s1 ok :
  scan_walk environ fs library_id uuid4 timestamp walk s = (s1, ok) ->
  appended (scan_enqueued environ fs library_id (history (sc_db s)))
           (queue (sc_db s)) (queue (sc_db s1)).
Proof.
  revert s. induction walk as [|[root fnames] rest IH]; intros s; simpl.
  - intros H; injection H as <- <-. constructor.
  - destruct (scan_files _ _ _ _ _ root fnames s) as [s' ok'] eqn:E.
    pose proof (scan_files_grows _ _ _ _ _ _ _ _ _ _ E) as (_ & Hh & _).
    apply scan_files_appends in E. destruct ok'.
    + intros H. apply IH in H. rewrite Hh in H. eapply appended_trans; eassumption.
    + intros H; injection H as <- <-. exact E.
Qed.



Lemma appended_prefix may q q' :
  appended may q q' -> exists rows, q' = (q ++ rows)%list.
Proof.
  induction 1 as [q|q q' r _ [rows ->] _]; [exists []; now rewrite app_nil_r|].
  exists (rows ++ [r])%list. now rewrite app_assoc.
Qed.



(** ** Scan counters *)

Lemma scan_file_counts environ fs library_id uuid4 timestamp root fname s s1 ok :
  scan_file environ fs library_id uuid4 timestamp root fname s = (s1, ok) ->
  unaccounted (sc_st s1) = unaccounted (sc_st s) + (if ok then 0 else 1) /\
  Z.of_nat (length (queue (sc_db s1))) - ss_added (sc_st s1)
    = Z.of_nat (length (queue (sc_db s))) - ss_added (sc_st s) /\
  ss_added (sc_st s) <= ss_added (sc_st s1) /\
  ss_skipped (sc_st s) <= ss_skipped (sc_st s1) /\
  ss_already_converted (sc_st s) <= ss_already_converted (sc_st s1) /\
  ss_status (sc_st s1) = ss_status (sc_st s).
Proof.
  rewrite scan_file_verdict. unfold unaccounted.
  destruct (scan_verdict _ _ _ _ _); simpl; intros H; injection H as <- <-; simpl;
    rewrite ?length_app; simpl; repeat split; lia.
Qed.

Lemma scan_files_counts environ fs library_id uuid4 timestamp root fnames s s1 ok :
  scan_files environ fs library_id uuid4 timestamp root fnames s = (s1, ok) ->
  unaccounted (sc_st s1) = unaccounted (sc_st s) + (if ok then 0 else 1) /\
  Z.of_nat (length (queue (sc_db s1))) - ss_added (sc_st s1)
    = Z.of_nat (length (queue (sc_db s))) - ss_added (sc_st s) /\
  ss_added (sc_st s) <= ss_added (sc_st s1) /\
  ss_skipped (sc_st s) <= ss_skipped (sc_st s1) /\
  ss_already_converted (sc_st s) <= ss_already_converted (sc_st s1) /\
  ss_status (sc_st s1) = ss_status (sc_st s).
Proof.
  revert s. induction fnames as [|fname rest IH]; intros s; simpl.
  - intros H; injection H as <- <-. repeat split; lia.
  - destruct (scan_file _ _ _ _ _ root fname s) as [s' ok'] eqn:E.
    apply scan_file_counts in E as (H1 & H2 & H3 & H4 & H5 & H6). destruct ok'.
    + intros H. apply IH in H as (G1 & G2 & G3 & G4 & G5 & G6).
      repeat split; try lia. congruence.
    + intros H; injection H as <- <-. repeat split; try lia. exact H6.
Qed.

Lemma scan_walk_counts environ fs library_id uuid4 timestamp walk s s1 ok :
  scan_walk environ fs library_id uuid4 timestamp walk s = (s1, ok) ->
  unaccounted (sc_st s1) = unaccounted (sc_st s) + (if ok then 0 else 1) /\
  Z.of_nat (length (queue (sc_db s1))) - ss_added (sc_st s1)
    = Z.of_nat (length (queue (sc_db s))) - ss_added (sc_st s) /\
  ss_added (sc_st s) <= ss_added (sc_st s1) /\
  ss_skipped (sc_st s) <= ss_skipped (sc_st s1) /\
  ss_already_converted (sc_st s) <= ss_already_converted (sc_st s1) /\
  ss_status (sc_st s1) = ss_status (sc_st s).
Proof.
  revert s. induction walk as [|[root fnames] rest IH]; intros s; simpl.
  - intros H; injection H as <- <-. repeat split; lia.
  - destruct (scan_files _ _ _ _ _ root fnames s) as [s' ok'] eqn:E.
    apply scan_files_counts in E as (H1 & H2 & H3 & H4 & H5 & H6). destruct ok'.
    + intros H. apply IH in H as (G1 & G2 & G3 & G4 & G5 & G6).
      repeat split; try lia. congruence.
    + intros H; injection H as <- <-. repeat split; try lia. exact H6.
Qed.

(** ** Error rows do not block enqueueing *)

Lemma appended_rows (may : list QueueRow -> QueueRow -> Prop) (P : QueueRow -> Prop) q q' :
  (forall q0 r, may q0 r -> P r) ->
  appended may q q' -> exists rows, q' = (q ++ rows)%list /\ Forall P rows.
Proof.
  intros HP H. induction H as [q|q q' r _ (rows & -> & IH) Hr].
  - exists []. split; [now rewrite app_nil_r | constructor].
  - exists (rows ++ [r])%list. split; [now rewrite app_assoc|].
    apply Forall_app. split; [exact IH|]. constructor; [eauto | constructor].
Qed.

Lemma queue_existing_found fpath q :
  is_Some (queue_existing fpath q) ->
  exists r, In r q /\ q_file_path r = fpath /\ is_active r = true.
Proof.
  unfold queue_existing. intros [i Hi].
  destruct (List.find _ q) as [r|] eqn:E; [|discriminate Hi].
  apply find_some in E as [Hin Hr]. apply andb_true_iff in Hr as [Hp Ha].
  apply String.eqb_eq in Hp. eauto.
Qed.

Section ScanReaches.

Variable environ : gmap string string.
Variable fs : FS.
Variable library_id : string.
Variable root fname : string.
Variable f : File.

Hypothesis Hext : str_in (PyStr.lower (PyPath.suffix fname)) VIDEO_EXTENSIONS = true.
Hypothesis Hmark : PyStr.contains "_shrync_" fname = false.
Hypothesis Hcache :
  negb (String.eqb (CACHE_DIR environ) "") &&
  PyStr.contains (CACHE_DIR environ) (PyPath.join root fname) = false.
Hypothesis Hfile : files fs !! PyPath.join root fname = Some f.

Local Abbreviation wanted_here := (wanted fs (PyPath.join root fname)).

Lemma wanted_same (d d' : Db) :
  history d' = history d -> settings d' = settings d ->
  wanted_here d -> wanted_here d'.
Proof.
  intros Hh Hs [H1 H2]. unfold wanted, get_global_setting in *. now rewrite Hh, Hs.
Qed.

Lemma scan_file_reaches uuid4 timestamp s s1 ok :
  scan_file environ fs library_id uuid4 timestamp root fname s = (s1, ok) ->
  wanted_here (sc_db s) ->
  ok = true /\ is_Some (queue_existing (PyPath.join root fname) (queue (sc_db s1))).
Proof.
  intros Hscan [Hdone Hneeds]. unfold scan_file in Hscan.
  rewrite Hext, Hmark, Hcache in Hscan. cbn [negb sc_db count_scanned] in Hscan.
  destruct (queue_existing _ _) as [i|] eqn:Hq.
  { injection Hscan as <- <-. cbn. rewrite Hq. eauto. }
  rewrite Hdone in Hscan.
  destruct (profile_to_ffmpeg _) as [[global_codec preset] quality].
  cbn [fst] in Hneeds. rewrite Hneeds in Hscan. cbn [negb] in Hscan.
  unfold os_path_getsize in Hscan. rewrite Hfile in Hscan.
  injection Hscan as <- <-. split; [reflexivity|]. cbn.
  apply queue_existing_new_row.
Qed.

Lemma scan_files_reaches uuid4 timestamp fnames s s1 :
  scan_files environ fs library_id uuid4 timestamp root fnames s = (s1, true) ->
  In fname fnames -> wanted_here (sc_db s) ->
  is_Some (queue_existing (PyPath.join root fname) (queue (sc_db s1))).
Proof.
  revert s. induction fnames as [|x rest IH]; intros s; simpl; [tauto|].
  destruct (scan_file _ _ _ _ _ root x s) as [s' ok'] eqn:E.
  destruct ok'; [|discriminate].
  intros Hrest Hin Hw.
  pose proof (scan_file_grows _ _ _ _ _ _ _ _ _ _ E) as (_ & Hh & Hs & _).
  destruct (String.string_dec x fname) as [->|Hne].
  - apply scan_file_reaches in E as [_ Hfound]; [|exact Hw].
    apply scan_files_grows in Hrest as (Hext' & _).
    eapply queue_existing_extends; eassumption.
  - destruct Hin as [Heq|Hin]; [contradiction|].
    apply (IH s' Hrest Hin). eapply wanted_same; eassumption.
Qed.

End ScanReaches.

Lemma scan_walk_reaches environ fs library_id root fname f fnames
    uuid4 timestamp walk s s1 :
  str_in (PyStr.lower (PyPath.suffix fname)) VIDEO_EXTENSIONS = true ->
  PyStr.contains "_shrync_" fname = false ->
  negb (String.eqb (CACHE_DIR environ) "") &&
    PyStr.contains (CACHE_DIR environ) (PyPath.join root fname) = false ->
  files fs !! PyPath.join root fname = Some f ->
  scan_walk environ fs library_id uuid4 timestamp walk s = (s1, true) ->
  In (root, fnames) walk -> In fname fnames ->
  wanted fs (PyPath.join root fname) (sc_db s) ->
  is_Some (queue_existing (PyPath.join root fname) (queue (sc_db s1))).
Proof.
  intros Hext Hmark Hcache Hfile. revert s.
  induction walk as [|[root' fnames'] rest IH]; intros s; simpl; [tauto|].
  destruct (scan_files _ _ _ _ _ root' fnames' s) as [s' ok'] eqn:E.
  destruct ok'; [|discriminate].
  intros Hrest Hin Hfn Hw.
  pose proof (scan_files_grows _ _ _ _ _ _ _ _ _ _ E) as (_ & Hh & Hs & _).
  destruct Hin as [Heq|Hin].
  - injection Heq as -> ->.
    eapply scan_files_reaches in E; try eassumption.
    apply scan_walk_grows in Hrest as (Hext' & _).
    eapply queue_existing_extends; eassumption.
  - apply (IH s' Hrest Hin Hfn). eapply wanted_same; eassumption.
Qed.

(** C10: the duplicate check shared by the scanner, the watcher's deferred
    enqueue and [POST /api/queue/add] looks only at [pending] and
    [processing] rows. So when every queue row of a path has status
    ['error'], the check finds nothing, and each of the three producers
    (its other conditions being met) appends a fresh [pending] row for
    that path: the request does, a deferred enqueue of the watcher does,
    and a scan of the library that runs to its end does, for a file
    [os.walk] lists below the library's directory. *)
Theorem error_row_does_not_block_enqueue
    (environ : gmap string string) (fpath : string) (q : list QueueRow) :
  only_error_rows fpath q ->
  queue_existing fpath q = None /\
  (forall data jid timestamp st fsize,
     queue (st_db st) = q ->
     data !! "file_path" = Some fpath ->
     fpath <> "" ->
     files (st_fs st) !! fpath = Some fsize ->
     api_add_to_queue data jid timestamp st =
       (with_db (set_queue (fun q =>
          q ++ [new_queue_row jid (data !! "library_id") fpath (f_size fsize)
                  timestamp])%list) st,
        Ok200 [("id", jid)])) /\
  (forall st library_id lib name fnames0 subdirs uuid4 timestamp now
          root fnames fname f,
     queue (st_db st) = q ->
     library_by_id library_id (libraries (st_db st)) = Some lib ->
     dirs (st_fs st) !! l_path lib = Some (Dir name true fnames0 subdirs) ->
     In (root, fnames) (os_walk (l_path lib) (Dir name true fnames0 subdirs)) ->
     In fname fnames ->
     PyPath.join root fname = fpath ->
     str_in (PyStr.lower (PyPath.suffix fname)) VIDEO_EXTENSIONS = true ->
     PyStr.contains "_shrync_" fname = false ->
     negb (String.eqb (CACHE_DIR environ) "") && PyStr.contains (CACHE_DIR environ) fpath
       = false ->
     history_done fpath (history (st_db st)) = None ->
     needs_conversion (st_fs st) fpath
       (fst (fst (profile_to_ffmpeg
                    (get_global_setting (st_db st) "conversion_profile" "nvenc_max"))))
       = true ->
     files (st_fs st) !! fpath = Some f ->
     let st1 := scan_library environ library_id uuid4 timestamp now st in
     (exists t, scan_status st1 !! library_id = Some t /\ ss_status t = "done") ->
     exists rows r,
       queue (st_db st1) = (q ++ rows)%list /\ In r rows /\
       q_file_path r = fpath /\ q_status r = Pending /\
       q_library_id r = Some library_id /\ q_file_size r = f_size f) /\
  (forall fs1 fs2 jid timestamp w d t f1 f2 lib,
     queue d = q ->
     _pending w !! fpath = Some t ->
     files fs1 !! fpath = Some f1 ->
     files fs2 !! fpath = Some f2 ->
     f_size f1 = f_size f2 ->
     history_done fpath (history d) = None ->
     library_by_id (w_library_id w) (libraries d) = Some lib ->
     needs_conversion fs2 fpath
       (fst (fst (profile_to_ffmpeg
                    (get_global_setting d "conversion_profile" "nvenc_max"))))
       = true ->
     _delayed_queue fpath fs1 fs2 jid timestamp w d =
       (set_pending (delete fpath) w,
        set_queue (fun q =>
          q ++ [new_queue_row jid (Some (w_library_id w)) fpath (f_size f2)
                  timestamp])%list d)).
Proof.
  intros Honly. pose proof (queue_existing_only_error fpath q Honly) as Hnone.
  split; [exact Hnone|]. split; [|split].
  - intros data jid timestamp st fsize Hq Hdata Hne Hfile.
    unfold api_add_to_queue. rewrite Hdata. simpl.
    apply String.eqb_neq in Hne. rewrite Hne.
    unfold os_path_exists, os_path_getsize. rewrite Hfile. simpl.
    rewrite Hq, Hnone. reflexivity.
  - intros st library_id lib name fnames0 subdirs uuid4 timestamp now
      root fnames fname f Hq Hlib Hdir Hwalk Hfn Hjoin Hext Hmark Hcache
      Hdone Hneeds Hfile st1 (t & Ht & Hstatus).
    subst fpath. subst st1. unfold scan_library in *. rewrite Hlib, Hdir in *.
    destruct (scan_walk _ _ _ _ _ _ _) as [s ok] eqn:E.
    pose proof (scan_walk_counts _ _ _ _ _ _ _ _ _ E) as (_ & _ & _ & _ & _ & Hss).
    cbn [sc_st scan_started ss_status] in Hss.
    destruct ok.
    2:{ cbn in Ht. rewrite lookup_insert_eq in Ht. injection Ht as <-.
        rewrite Hss in Hstatus. discriminate Hstatus. }
    pose proof (scan_walk_appends _ _ _ _ _ _ _ _ _ E) as Happ.
    cbn [sc_db] in Happ. rewrite Hq in Happ.
    assert (HP : forall q0 r,
              scan_enqueued environ (st_fs st) library_id (history (st_db st)) q0 r ->
              q_status r = Pending /\ q_library_id r = Some library_id /\
              exists f', files (st_fs st) !! q_file_path r = Some f' /\
                         q_file_size r = f_size f').
    { intros q0 r (H1 & H2 & _ & _ & (rt & fn & f' & _ & _ & _ & H6 & H7)). eauto 6. }
    destruct (appended_rows _ _ _ _ HP Happ) as (rows & Hrows & Hall).
    eapply scan_walk_reaches in E; try eassumption; [|now split].
    apply queue_existing_found in E as (r & Hin & Hpath & Hact).
    exists rows, r. cbn. split; [exact Hrows|].
    rewrite Hrows in Hin. apply in_app_or in Hin as [Hin|Hin].
    { exfalso. unfold is_active in Hact. rewrite (Honly r Hin Hpath) in Hact.
      discriminate Hact. }
    split; [exact Hin|]. split; [exact Hpath|].
    pose proof (proj1 (Forall_forall _ _) Hall r ltac:(now apply list_elem_of_In))
      as (Hp & Hl & f' & Hf' & Hsz).
    split; [exact Hp|]. split; [exact Hl|].
    rewrite Hpath, Hfile in Hf'. injection Hf' as <-. exact Hsz.
  - intros fs1 fs2 jid timestamp w d t f1 f2 lib
      Hq Hpend Hf1 Hf2 Hsize Hdone Hlib Hneeds.
    unfold _delayed_queue. rewrite Hpend.
    unfold os_path_getsize. rewrite Hf1, Hf2, Hsize, Z.eqb_refl. simpl.
    rewrite Hq, Hnone, Hdone.
    destruct (profile_to_ffmpeg _) as [[global_codec preset] quality].
    simpl in Hneeds. rewrite Hlib, Hneeds. reflexivity.
Qed.

Lemma error_row_does_not_block_enqueue_witness :
  let fpath := "/lib/a/movie.mkv" in
  let ts := "2024-05-02 08:00:00" in
  queue_existing fpath [Sample.failed_job] = None /\
  queue (st_db (fst (api_add_to_queue {[ "file_path" := fpath ]} "job-2" ts
                       Sample.st_failed)))
    = [Sample.failed_job; new_queue_row "job-2" None fpath 1000 ts] /\
  (exists rows r,
     queue (st_db (scan_library Sample.env_cpu "lib1" Sample.uuids ts
                     "2024-05-02T08:00:01" Sample.st_failed_library))
       = (Sample.failed_job :: rows) /\
     In r rows /\ q_file_path r = fpath /\ q_status r = Pending) /\
  queue (snd (_delayed_queue fpath (st_fs Sample.st_failed) (st_fs Sample.st_failed)
                "job-4" ts Sample.watcher (st_db Sample.st_failed)))
    = [Sample.failed_job; new_queue_row "job-4" (Some "lib1") fpath 1000 ts].
Proof.
  intros fpath ts.
  destruct (error_row_does_not_block_enqueue Sample.env_cpu fpath [Sample.failed_job])
    as (Hnone & Hapi & Hscan & Hwatch).
  { intros r [<-|[]] _. reflexivity. }
  split; [exact Hnone|]. split; [|split].
  - rewrite (Hapi {[ "file_path" := fpath ]} "job-2" ts Sample.st_failed Sample.movie);
      [reflexivity | reflexivity | reflexivity | discriminate | reflexivity].
  - destruct (Hscan Sample.st_failed_library "lib1" Sample.lib1 "lib" ["notes.txt"]
                [ Dir "a" true ["movie.mkv"; "old.mp4"; "clip_shrync_0a1b2c3d.mkv"] [];
                  Dir ".trash" true ["gone.mkv"] [] ]
                Sample.uuids ts "2024-05-02T08:00:01"
                "/lib/a" ["movie.mkv"; "old.mp4"; "clip_shrync_0a1b2c3d.mkv"]
                "movie.mkv" Sample.movie)
      as (rows & r & Hq & Hin & Hpath & Hstatus & _);
      try (vm_compute; reflexivity).
    + right. left. reflexivity.
    + left. reflexivity.
    + eexists. split; vm_compute; reflexivity.
    + exists rows, r. auto.
  - rewrite (Hwatch (st_fs Sample.st_failed) (st_fs Sample.st_failed) "job-4" ts
               Sample.watcher (st_db Sample.st_failed) 1714557600 Sample.movie
               Sample.movie Sample.lib1);
      reflexivity.
Defined.

(** X11: after [scan_library] for an existing library, the status entry's
    counters add up: the queue has grown by exactly [added] rows, the
    counters are not negative, and [scanned = added + skipped +
    already_converted] when the scan finished ([done]) or could not start
    ([error], all zero); when an exception cut the scan short the entry
    still says [scanning] and exactly one scanned file is unaccounted
    for. *)
Theorem scan_library_counters
    (environ : gmap string string) (library_id : string) (lib : LibraryRow)
    (uuid4 : nat -> string) (timestamp now : string) (st : State) :
  library_by_id library_id (libraries (st_db st)) = Some lib ->
  let st1 := scan_library environ library_id uuid4 timestamp now st in
  exists t,
    scan_status st1 !! library_id = Some t /\
    Z.of_nat (length (queue (st_db st1)))
      = Z.of_nat (length (queue (st_db st))) + ss_added t /\
    0 <= ss_added t /\ 0 <= ss_skipped t /\ 0 <= ss_already_converted t /\
    (ss_status t = "done" \/ ss_status t = "error" \/ ss_status t = "scanning") /\
    (ss_status t = "done" \/ ss_status t = "error" ->
     ss_scanned t = ss_added t + ss_skipped t + ss_already_converted t) /\
    (ss_status t = "scanning" ->
     ss_scanned t = ss_added t + ss_skipped t + ss_already_converted t + 1) /\
    (ss_status t = "error" -> ss_scanned t = 0 /\ ss_added t = 0).
Proof.
  intros Hlib st1. subst st1. rewrite (scan_library_found _ _ _ _ _ _ _ Hlib).
  unfold scan_library_of.
  destruct (dirs (st_fs st) !! l_path lib) as [[name [] fnames subs]|].
  - destruct (scan_walk _ _ _ _ _ _ _) as [s ok] eqn:E.
    apply scan_walk_counts in E as (H1 & H2 & H3 & H4 & H5 & H6).
    unfold unaccounted in H1. simpl in *.
    destruct ok; eexists; (split; [apply lookup_insert_eq|]); simpl;
      (split; [lia|]); repeat (split; [lia|]).
    + split; [now left|]. split; [lia|]. split; discriminate.
    + rewrite H6. split; [now right; right|]. split; [|split; [lia|discriminate]].
      intros [H|H]; discriminate H.
  - eexists. split; [apply lookup_insert_eq|]. simpl.
    split; [lia|]. repeat (split; [lia|]).
    split; [now right; left|]. split; [lia|]. split; [discriminate|]. split; reflexivity.
  - eexists. split; [apply lookup_insert_eq|]. simpl.
    split; [lia|]. repeat (split; [lia|]).
    split; [now right; left|]. split; [lia|]. split; [discriminate|]. split; reflexivity.
Qed.

Lemma scan_library_counters_witness :
  exists t,
    scan_status (scan_library Sample.env_cpu "lib1" Sample.uuids
                   "2024-05-01 09:00:00" "2024-05-01T09:00:01" Sample.st_library)
      !! "lib1" = Some t /\
    ss_status t = "done" /\
    (ss_scanned t, ss_added t, ss_skipped t, ss_already_converted t) = (2, 1, 0, 1).
Proof.
  destruct (scan_library_counters Sample.env_cpu "lib1" Sample.lib1 Sample.uuids
              "2024-05-01 09:00:00" "2024-05-01T09:00:01" Sample.st_library eq_refl)
    as (t & Ht & _).
  exists t. split; [exact Ht|].
  vm_compute in Ht. injection Ht as <-. split; reflexivity.
Defined.

(** ** One live row per path *)





(** Rows may be dropped or lose their live status, never gain it. *)
Lemma exclusive_shrink (g : QueueRow -> option QueueRow) q :
  (forall r r', g r = Some r' ->
     q_file_path r' = q_file_path r /\ (is_active r' = true -> is_active r = true)) ->
  exclusive q -> exclusive (omap g q).
Proof.
  intros Hg. unfold exclusive, active_paths.
  induction q as [|r q IH]; simpl; [intros _; constructor|].
  assert (Hsub : forall p, In p (List.map q_file_path (List.filter is_active (omap g q))) ->
                           In p (List.map q_file_path (List.filter is_active q))).
  { clear IH. intros p. induction q as [|r0 q IHq]; simpl; [tauto|].
    destruct (g r0) as [r0'|] eqn:E0.
    - destruct (Hg r0 r0' E0) as [Hp Ha]. simpl.
      destruct (is_active r0') eqn:Ea'; simpl.
      + rewrite (Ha eq_refl). simpl. rewrite Hp. intros [->|H]; [now left | right; auto].
      + intros H. destruct (is_active r0); simpl; [right|]; auto.
    - intros H. destruct (is_active r0); simpl; [right|]; auto. }
  intros Hnd.
  assert (Hq : NoDup (List.map q_file_path (List.filter is_active q))).
  { destruct (is_active r); simpl in Hnd; [now apply NoDup_cons in Hnd as [_ H] | exact Hnd]. }
  destruct (g r) as [r'|] eqn:E; [|now apply IH].
  destruct (Hg r r' E) as [Hp Ha]. simpl.
  destruct (is_active r') eqn:Ea'; simpl; [|now apply IH].
  rewrite (Ha eq_refl) in Hnd. simpl in Hnd. apply NoDup_cons in Hnd as [Hnin _].
  apply NoDup_cons. split; [|now apply IH].
  rewrite Hp. intros Hin. apply Hnin. apply list_elem_of_In.
  apply list_elem_of_In in Hin. now apply Hsub.
Qed.

Lemma queue_delete_omap jid q :
  queue_delete jid q = omap (fun r => if String.eqb (q_id r) jid then None else Some r) q.
Proof.
  unfold queue_delete. induction q as [|r q IH]; simpl; [reflexivity|].
  destruct (String.eqb (q_id r) jid); simpl; now rewrite IH.
Qed.

Lemma exclusive_delete jid q : exclusive q -> exclusive (queue_delete jid q).
Proof.
  rewrite queue_delete_omap. apply exclusive_shrink. intros r r'.
  destruct (String.eqb (q_id r) jid); [discriminate|]. intros H; injection H as <-. auto.
Qed.

Lemma exclusive_update jid f q :
  (forall r, q_file_path (f r) = q_file_path r) ->
  (forall r, In r q -> q_id r = jid -> is_active (f r) = true -> is_active r = true) ->
  exclusive q -> exclusive (queue_update jid f q).
Proof.
  intros Hp Ha. unfold exclusive, active_paths, queue_update.
  induction q as [|r q IH]; simpl; [intros _; constructor|].
  assert (Hsub : forall p,
            In p (List.map q_file_path (List.filter is_active
                   (List.map (fun r => if String.eqb (q_id r) jid then f r else r) q))) ->
            In p (List.map q_file_path (List.filter is_active q))).
  { intros p Hin. apply in_map_iff in Hin as (x & <- & Hx).
    apply filter_In in Hx as [Hx Hact]. apply in_map_iff in Hx as (r0 & <- & Hr0).
    apply in_map_iff. exists r0. destruct (String.eqb (q_id r0) jid) eqn:E.
    - split; [now rewrite Hp|]. apply filter_In. split; [exact Hr0|].
      apply String.eqb_eq in E. apply Ha; [now right | exact E | exact Hact].
    - split; [reflexivity|]. now apply filter_In. }
  intros Hnd.
  assert (Hq : NoDup (List.map q_file_path (List.filter is_active q))).
  { destruct (is_active r); simpl in Hnd; [now apply NoDup_cons in Hnd as [_ H] | exact Hnd]. }
  assert (IH' := IH (fun r0 Hr0 => Ha r0 (or_intror Hr0)) Hq).
  set (r' := if String.eqb (q_id r) jid then f r else r).
  assert (Hr' : q_file_path r' = q_file_path r /\ (is_active r' = true -> is_active r = true)).
  { unfold r'. destruct (String.eqb (q_id r) jid) eqn:E; [|auto].
    split; [apply Hp|]. apply String.eqb_eq in E. apply Ha; [now left | exact E]. }
  destruct Hr' as [Hpr Har].
  destruct (is_active r') eqn:Ea'; simpl; [|exact IH'].
  rewrite (Har eq_refl) in Hnd. simpl in Hnd. apply NoDup_cons in Hnd as [Hnin _].
  apply NoDup_cons. split; [|exact IH'].
  rewrite Hpr. intros Hin. apply Hnin, list_elem_of_In.
  apply list_elem_of_In in Hin. now apply Hsub.
Qed.

Lemma unique_id_row q r r' :
  NoDup (List.map q_id q) -> In r q -> In r' q -> q_id r = q_id r' -> r = r'.
Proof.
  induction q as [|x q IH]; simpl; [tauto|].
  intros Hnd Hr Hr' Hid. apply NoDup_cons in Hnd as [Hx Hnd].
  destruct Hr as [<-|Hr], Hr' as [<-|Hr']; [reflexivity| | |now apply IH].
  - exfalso. apply Hx. rewrite Hid. now apply list_elem_of_In, in_map.
  - exfalso. apply Hx. rewrite <- Hid. now apply list_elem_of_In, in_map.
Qed.



Lemma run_conversion_end_queue c stderr_out elapsed now hid st st' :
  run_conversion_end c stderr_out elapsed now hid st = Some st' ->
  queue (st_db st') = queue_delete (c_job_id c) (queue (st_db st)).
Proof.
  unfold run_conversion_end.
  destruct (st_procs st !! c_process c) as [[|rc]|]; try discriminate.
  destruct ((rc =? 0)%Z && _); [|intros H; injection H as <-; reflexivity].
  cbn [st_fs with_active_jobs].
  destruct (os_remove _ _) as [e|fs1];
    [|destruct (os_rename _ _ _) as [e|fs2]]; intros H; injection H as <-; reflexivity.
Qed.

(** X13: the steps that move a job on keep the queue free of duplicates
    too: deleting a row through the API, finalising a conversion and
    committing a progress frame always do; claiming a job does when every
    row carrying the job's id is [pending] or [processing] (the id is a
    primary key and the worker picked a [pending] row); startup recovery
    does when ids are unique. *)
Theorem lifecycle_keeps_queue_exclusive
    (environ : gmap string string) (st : State) :
  exclusive (queue (st_db st)) ->
  (forall jid, exclusive (queue (st_db (fst (api_remove_queue jid st))))) /\
  (forall c stderr_out elapsed now hid st',
     run_conversion_end c stderr_out elapsed now hid st = Some st' ->
     exclusive (queue (st_db st'))) /\
  (forall py_float line c,
     exclusive (queue (st_db (snd (run_conversion_stdout py_float line c st))))) /\
  (forall job_id slot_id now popen,
     (forall r, In r (queue (st_db st)) -> q_id r = job_id -> is_active r = true) ->
     match run_conversion_begin environ job_id slot_id now popen st with
     | Returned st' | Raised st' | Spawned _ st' => exclusive (queue (st_db st'))
     end) /\
  (NoDup (List.map q_id (queue (st_db st))) ->
   exclusive (queue (st_db (cleanup_stale_conversions environ st)))).
Proof.
  intros Hex. split; [|split; [|split; [|split]]].
  - intros jid. unfold api_remove_queue. simpl.
    destruct (queue_by_id _ _) as [job|]; [destruct (QueueStatus_eqb _ _)|];
      now apply exclusive_delete.
  - intros c stderr_out elapsed now hid st' H.
    rewrite (run_conversion_end_queue _ _ _ _ _ _ _ H). now apply exclusive_delete.
  - intros py_float line c. unfold run_conversion_stdout.
    destruct (PyStr.startswith "out_time_us=" _).
    { now destruct (_ ≫= PyStr.py_int). }
    destruct (PyStr.startswith "fps=" _); [|exact Hex].
    destruct (_ ≫= py_float) as [fps_val|]; [|exact Hex].
    destruct (fps_frame _ _ _) as [[progress eta]|]; [|exact Hex].
    simpl. apply exclusive_update; auto.
  - intros job_id slot_id now popen Hact. unfold run_conversion_begin.
    destruct (queue_by_id _ _) as [job|]; [|exact Hex].
    destruct (negb _).
    { simpl. apply exclusive_update; [reflexivity | discriminate | exact Hex]. }
    destruct (profile_to_ffmpeg _) as [[vc pr] ql].
    destruct (os_path_getsize _ _) as [|sz]; [exact Hex|].
    assert (Hq : exclusive (queue_update job_id (mark_processing now sz) (queue (st_db st)))).
    { apply exclusive_update; [reflexivity | | exact Hex].
      intros r Hin Hid _. now apply Hact. }
    destruct popen; exact Hq.
  - intros Hnd. unfold cleanup_stale_conversions. rewrite cleanup_fold_queue.
    unfold reset_ids, exclusive, active_paths.
    assert (Heq : List.filter is_active
              (List.map (fun r => if str_in (q_id r)
                   (List.map q_id (List.filter
                      (fun r0 => QueueStatus_eqb (q_status r0) Processing)
                      (queue (st_db st))))
                 then reset_to_pending r else r) (queue (st_db st)))
              = List.map (fun r => if str_in (q_id r)
                   (List.map q_id (List.filter
                      (fun r0 => QueueStatus_eqb (q_status r0) Processing)
                      (queue (st_db st))))
                 then reset_to_pending r else r) (List.filter is_active (queue (st_db st)))).
    { set (ids := List.map q_id _).
      assert (Hids : forall r, In r (queue (st_db st)) -> str_in (q_id r) ids = true ->
                               is_active r = true).
      { intros r Hr Hin. unfold str_in in Hin.
        apply existsb_exists in Hin as (x & Hx & Heq). apply String.eqb_eq in Heq.
        subst x. apply in_map_iff in Hx as (r' & Hid & Hr').
        apply filter_In in Hr' as [Hr' Hs].
        rewrite (unique_id_row _ r r' Hnd Hr Hr' (eq_sym Hid)).
        unfold is_active. now destruct (q_status r'). }
      revert Hids. generalize (queue (st_db st)) as q. induction q as [|r q IH]; intros Hids;
        [reflexivity|]. simpl.
      rewrite IH by (intros r0 Hr0; apply Hids; now right).
      destruct (str_in (q_id r) ids) eqn:E.
      - rewrite (Hids r (or_introl eq_refl) E). simpl. now rewrite E.
      - destruct (is_active r); simpl; [now rewrite E | reflexivity]. }
    rewrite Heq, map_map.
    erewrite map_ext; [exact Hex|]. intros r. now destruct (str_in _ _).
Qed.

Lemma lifecycle_keeps_queue_exclusive_witness :
  exclusive (queue (st_db Sample.st_interrupted)) /\
  exclusive (queue (st_db (cleanup_stale_conversions Sample.env_cache
                             Sample.st_interrupted))) /\
  exclusive (queue (st_db (fst (api_remove_queue Sample.job_id Sample.st_interrupted)))).
Proof.
  assert (H : exclusive (queue (st_db Sample.st_interrupted))).
  { unfold exclusive. vm_compute. apply NoDup_singleton. }
  destruct (lifecycle_keeps_queue_exclusive Sample.env_cache Sample.st_interrupted H)
    as (Hdel & _ & _ & _ & Hclean).
  split; [exact H|]. split; [|apply Hdel].
  apply Hclean. vm_compute. apply NoDup_singleton.
Defined.

(** ** The watcher's deferred enqueue *)

(** X14: a deferred enqueue forgets the path in [_pending] and changes
    nothing else but, at most, the queue: either the queue is as it was,
    or exactly one [pending] row for the path was appended, and that
    only when the path was pending in the watcher, both size samples
    succeeded and agree, the path has no [pending] or [processing] row and
    no successful history row, the watcher's library still exists and the
    probe asks for a conversion. *)
Theorem delayed_queue_outcome
    (fpath : string) (fs1 fs2 : FS) (jid timestamp : string)
    (w : LibraryWatcher) (d : Db) :
  let w' := fst (_delayed_queue fpath fs1 fs2 jid timestamp w d) in
  let d' := snd (_delayed_queue fpath fs1 fs2 jid timestamp w d) in
  _pending w' = delete fpath (_pending w) /\
  w_library_id w' = w_library_id w /\
  history d' = history d /\ settings d' = settings d /\ libraries d' = libraries d /\
  (queue d' = queue d \/
   exists f1 f2,
     queue d' = (queue d ++ [new_queue_row jid (Some (w_library_id w)) fpath
                               (f_size f2) timestamp])%list /\
     is_Some (_pending w !! fpath) /\
     files fs1 !! fpath = Some f1 /\ files fs2 !! fpath = Some f2 /\
     f_size f1 = f_size f2 /\
     queue_existing fpath (queue d) = None /\
     history_done fpath (history d) = None /\
     is_Some (library_by_id (w_library_id w) (libraries d)) /\
     needs_conversion fs2 fpath
       (fst (fst (profile_to_ffmpeg
                    (get_global_setting d "conversion_profile" "nvenc_max")))) = true).
Proof.
  unfold _delayed_queue.
  destruct (_pending w !! fpath) as [t|] eqn:Hpend; cbn [fst snd].
  2:{ rewrite delete_id by exact Hpend. repeat split. now left. }
  unfold os_path_getsize.
  destruct (files fs1 !! fpath) as [f1|] eqn:Hf1; [|repeat split; now left].
  destruct (files fs2 !! fpath) as [f2|] eqn:Hf2; [|repeat split; now left].
  destruct (f_size f1 =? f_size f2)%Z eqn:Hsz; cbn [negb]; [|repeat split; now left].
  destruct (queue_existing fpath (queue d)) eqn:Hq; [repeat split; now left|].
  destruct (history_done fpath (history d)) eqn:Hh; [repeat split; now left|].
  destruct (profile_to_ffmpeg _) as [[gc pr] ql]. cbn [fst].
  destruct (library_by_id _ _) eqn:Hlib; [|repeat split; now left].
  destruct (needs_conversion fs2 fpath gc) eqn:Hn; cbn [negb]; [|repeat split; now left].
  cbn. repeat split. right. exists f1, f2. apply Z.eqb_eq in Hsz.
  repeat split; eauto.
Qed.

(** ** Temp artifacts are invisible to the scanner and the watcher *)

Lemma append_cons (x : ascii) (a b : string) :
  String x a +:+ b = String x (a +:+ b).
Proof. reflexivity. Qed.

Lemma append_nil_l (b : string) : "" +:+ b = b.
Proof. reflexivity. Qed.

Lemma append_assoc (a b c : string) : ((a +:+ b) +:+ c = a +:+ (b +:+ c))%string.
Proof.
  induction a as [|x a IH]; rewrite ?append_cons, ?append_nil_l;
    [reflexivity | now f_equal].
Qed.

Lemma occurs_app (c : ascii) (a b : string) :
  occurs c (a +:+ b) = occurs c a || occurs c b.
Proof.
  induction a as [|x a IH]; rewrite ?append_cons, ?append_nil_l; simpl;
    [reflexivity|].
  now rewrite IH, orb_assoc.
Qed.

Lemma rsplit1_none (sep : ascii) (s : string) :
  occurs sep s = false -> PyStr.rsplit1 sep s = None.
Proof.
  induction s as [|x s IH]; cbn [occurs PyStr.rsplit1]; [reflexivity|].
  intros [Hx Hs]%orb_false_iff. now rewrite IH, Hx.
Qed.

Lemma rsplit1_app (sep : ascii) (a b : string) :
  occurs sep b = false ->
  PyStr.rsplit1 sep (a +:+ b) =
    match PyStr.rsplit1 sep a with
    | Some (x, y) => Some (x, y +:+ b)
    | None => None
    end.
Proof.
  intros Hb. induction a as [|c a IH]; rewrite ?append_cons, ?append_nil_l; simpl.
  - now apply rsplit1_none.
  - rewrite IH. destruct (PyStr.rsplit1 sep a) as [[x y]|]; [reflexivity|].
    now destruct (Ascii.eqb c sep).
Qed.

Lemma name_app (a b : string) :
  occurs "/" b = false -> PyPath.name (a +:+ b) = PyPath.name a +:+ b.
Proof.
  intros Hb. unfold PyPath.name. rewrite rsplit1_app by exact Hb.
  now destruct (PyStr.rsplit1 "/" a) as [[x y]|].
Qed.

Lemma startswith_app (p s : string) : PyStr.startswith p (p +:+ s) = true.
Proof.
  induction p as [|c p IH]; rewrite ?append_cons, ?append_nil_l; simpl;
    [reflexivity|].
  now rewrite Ascii.eqb_refl, IH.
Qed.

Lemma contains_prefix (p s : string) : PyStr.contains p (p +:+ s) = true.
Proof.
  destruct (p +:+ s) eqn:E; cbn [PyStr.contains]; rewrite <- E, startswith_app;
    reflexivity.
Qed.

Lemma contains_app_r (p a b : string) :
  PyStr.contains p b = true -> PyStr.contains p (a +:+ b) = true.
Proof.
  intros Hb. induction a as [|c a IH]; rewrite ?append_cons, ?append_nil_l;
    [exact Hb|].
  cbn [PyStr.contains]. rewrite IH. apply orb_true_r.
Qed.

Lemma join_suffix (a b : string) : exists pre, PyPath.join a b = pre +:+ b.
Proof.
  unfold PyPath.join. destruct (PyStr.startswith "/" b); [now exists ""|].
  destruct a as [|c a]; [now exists ""|].
  destruct (PyStr.rsplit1 "/" (String c a)) as [[x [|y0 y]]|].
  - now exists (String c a).
  - exists (String c a +:+ "/"). symmetry. apply append_assoc.
  - exists (String c a +:+ "/"). symmetry. apply append_assoc.
Qed.

Lemma tmp_out_name_marked (env : gmap string string) (src job_id : string) :
  occurs "/" (PyStr.take 8 job_id) = false ->
  PyStr.contains "_shrync_" (PyPath.name (tmp_out_of env src job_id)) = true.
Proof.
  intros Hid. unfold tmp_out_of.
  destruct (join_suffix (if String.eqb (CACHE_DIR env) "" then PyPath.parent src
                         else CACHE_DIR env)
              (PyPath.stem src +:+ "_shrync_" +:+ PyStr.take 8 job_id +:+ ".mkv"))
    as [pre ->].
  rewrite <- append_assoc, name_app.
  - apply contains_app_r, contains_prefix.
  - rewrite !occurs_app, Hid. reflexivity.
Qed.

(** X15: the temp output of a conversion is never picked up as new work.
    When the first eight characters of the job id contain no [/] (as in
    the ids [uuid.uuid4] makes), the file name of the temp path carries the
    [_shrync_] marker, so the watcher's [_handle] schedules nothing for that
    path and the scanner passes over a file of that name in any directory,
    counting and enqueueing nothing. *)
Theorem temp_artifact_is_ignored
    (env : gmap string string) (src job_id : string)
    (Hid : occurs "/" (PyStr.take 8 job_id) = false) :
  let tmp_out := tmp_out_of env src job_id in
  (forall t w, _handle env tmp_out t w = (w, false)) /\
  (forall fs library_id uuid4 timestamp root s,
     scan_file env fs library_id uuid4 timestamp root (PyPath.name tmp_out) s
       = (s, true)).
Proof.
  pose proof (tmp_out_name_marked env src job_id Hid) as Hm.
  cbn zeta. split.
  - intros t w. unfold _handle. rewrite Hm.
    now destruct (negb (str_in _ VIDEO_EXTENSIONS)).
  - intros fs library_id uuid4 timestamp root s. unfold scan_file. rewrite Hm.
    now destruct (negb (str_in _ VIDEO_EXTENSIONS)).
Qed.

Lemma temp_artifact_is_ignored_witness :
  tmp_out_of Sample.env_cpu "/lib/a/movie.mkv" Sample.job_id
    = "/lib/a/movie_shrync_3f2a9c1e.mkv" /\
  _handle Sample.env_cpu "/lib/a/movie_shrync_3f2a9c1e.mkv" 1714557600 Sample.watcher
    = (Sample.watcher, false).
Proof.
  split; [vm_compute; reflexivity|].
  destruct (temp_artifact_is_ignored Sample.env_cpu "/lib/a/movie.mkv" Sample.job_id)
    as [Hh _]; [vm_compute; reflexivity|].
  exact (Hh 1714557600 Sample.watcher).
Defined.

(** ** Settings *)




(** ** Store initialisation *)

Lemma insert_or_ignore_union (key value : string) (m : gmap string string) :
  insert_or_ignore key value m = m ∪ {[ key := value ]}.
Proof.
  unfold insert_or_ignore. apply map_eq. intros k.
  destruct (m !! key) as [x|] eqn:Hk.
  - destruct (m !! k) as [y|] eqn:Hy.
    + symmetry. now apply lookup_union_Some_l.
    + rewrite lookup_union_r by exact Hy.
      destruct (decide (key = k)) as [->|Hne]; [congruence|].
      now rewrite lookup_singleton_ne.
  - destruct (decide (key = k)) as [->|Hne].
    + rewrite lookup_insert_eq, lookup_union_r by exact Hk.
      now rewrite lookup_singleton_eq.
    + rewrite lookup_insert_ne by exact Hne.
      destruct (m !! k) as [y|] eqn:Hy.
      * symmetry. now apply lookup_union_Some_l.
      * rewrite lookup_union_r by exact Hy. now rewrite lookup_singleton_ne.
Qed.

Lemma Db_eq (d1 d2 : Db) :
  libraries d1 = libraries d2 -> queue d1 = queue d2 -> history d1 = history d2 ->
  settings d1 = settings d2 -> d1 = d2.
Proof. destruct d1, d2; cbn; intros; subst; reflexivity. Qed.

Lemma init_db_settings (d : Db) :
  settings (init_db d) =
    settings d ∪ {[ "max_workers" := "1"; "language" := "en";
                    "conversion_profile" := "nvenc_max"; "audio_codec" := "copy" ]}.
Proof.
  unfold init_db. cbn [settings]. rewrite !insert_or_ignore_union.
  rewrite <- !(assoc_L (∪)). f_equal.
Qed.

(** X17: [init_db] only fills gaps. Afterwards the settings are the stored
    ones, completed by the four defaults for the keys that were missing; a
    stored value is never overwritten, the three tables keep their rows,
    and running it again changes nothing. The defaults it writes are the
    fallbacks the readers use, so the pool size, the conversion profile
    and the audio codec read after initialisation are those read
    before. *)
Theorem init_db_fills_gaps (d : Db) :
  settings (init_db d) =
    settings d ∪ {[ "max_workers" := "1"; "language" := "en";
                    "conversion_profile" := "nvenc_max"; "audio_codec" := "copy" ]} /\
  (forall k v, settings d !! k = Some v -> settings (init_db d) !! k = Some v) /\
  libraries (init_db d) = libraries d /\ queue (init_db d) = queue d /\
  history (init_db d) = history d /\
  init_db (init_db d) = init_db d /\
  get_max_workers (init_db d) = get_max_workers d /\
  get_global_setting (init_db d) "conversion_profile" "nvenc_max"
    = get_global_setting d "conversion_profile" "nvenc_max" /\
  get_global_setting (init_db d) "audio_codec" "copy"
    = get_global_setting d "audio_codec" "copy".
Proof.
  pose proof (init_db_settings d) as Hs.
  assert (Hget : forall k dflt,
            ({[ "max_workers" := "1"; "language" := "en";
                "conversion_profile" := "nvenc_max"; "audio_codec" := "copy" ]}
               : gmap string string) !! k = Some dflt ->
            get_global_setting (init_db d) k dflt = get_global_setting d k dflt).
  { intros k dflt Hk. unfold get_global_setting. rewrite Hs.
    destruct (settings d !! k) as [v|] eqn:Hv.
    - now rewrite (lookup_union_Some_l _ _ _ _ Hv).
    - now rewrite lookup_union_r, Hk by exact Hv. }
  split; [exact Hs|].
  split. { intros k v Hk. rewrite Hs. now apply lookup_union_Some_l. }
  split; [reflexivity|]. split; [reflexivity|]. split; [reflexivity|].
  split.
  { assert (Hss : settings (init_db (init_db d)) = settings (init_db d)).
    { rewrite (init_db_settings (init_db d)), Hs.
      rewrite <- (assoc_L (∪)). f_equal. }
    apply Db_eq; [reflexivity | reflexivity | reflexivity | exact Hss]. }
  split. { unfold get_max_workers. rewrite Hget; [reflexivity | vm_compute; reflexivity]. }
  split; apply Hget; vm_compute; reflexivity.
Qed.

(** ** Deleting a library *)

Lemma library_by_id_deleted (lid : string) (l : list LibraryRow) :
  library_by_id lid (List.filter (fun r => negb (String.eqb (l_id r) lid)) l) = None.
Proof.
  unfold library_by_id. induction l as [|r l IH]; simpl; [reflexivity|].
  destruct (String.eqb (l_id r) lid) eqn:E; simpl; [exact IH|].
  rewrite E. exact IH.
Qed.

(** X18: [DELETE /api/libraries/{lid}] removes the library row and nothing
    else: queue and history rows that name the library stay (there is no
    cascade), and so do the settings. From then on the library is inert:
    a scan of it returns at once without touching the state, and a watcher
    still running for it (the request does not restart the watchers)
    enqueues nothing, whatever file events it has pending. *)
Theorem deleted_library_is_inert
    (environ : gmap string string) (lid : string) (d : Db) :
  let d' := api_delete_library lid d in
  library_by_id lid (libraries d') = None /\
  (forall r, In r (libraries d') <-> In r (libraries d) /\ l_id r <> lid) /\
  queue d' = queue d /\ history d' = history d /\ settings d' = settings d /\
  (forall uuid4 timestamp now st,
     st_db st = d' -> scan_library environ lid uuid4 timestamp now st = st) /\
  (forall fpath fs1 fs2 jid timestamp w,
     w_library_id w = lid ->
     snd (_delayed_queue fpath fs1 fs2 jid timestamp w d') = d').
Proof.
  cbn zeta.
  assert (Hnone : library_by_id lid (libraries (api_delete_library lid d)) = None)
    by apply library_by_id_deleted.
  split; [exact Hnone|].
  split.
  { intros r. unfold api_delete_library, set_libraries. cbn [libraries].
    rewrite filter_In, negb_true_iff, String.eqb_neq. reflexivity. }
  split; [reflexivity|]. split; [reflexivity|]. split; [reflexivity|].
  split.
  { intros uuid4 timestamp now st Hst. unfold scan_library. now rewrite Hst, Hnone. }
  intros fpath fs1 fs2 jid timestamp w Hw. unfold _delayed_queue.
  destruct (_pending w !! fpath); [|reflexivity].
  destruct (os_path_getsize fs1 fpath); [reflexivity|].
  destruct (os_path_getsize fs2 fpath); [reflexivity|].
  destruct (negb _); [reflexivity|].
  destruct (queue_existing _ _); [reflexivity|].
  destruct (history_done _ _); [reflexivity|].
  destruct (profile_to_ffmpeg _) as [[gc pr] ql].
  cbn [w_library_id set_pending]. rewrite Hw, Hnone. reflexivity.
Qed.

(** ** Removing a job through the API *)

Lemma queue_delete_absent (jid : string) (q : list QueueRow) :
  queue_by_id jid q = None -> queue_delete jid q = q.
Proof.
  unfold queue_by_id, queue_delete. induction q as [|r q IH]; simpl; [reflexivity|].
  destruct (String.eqb (q_id r) jid); [discriminate|]. simpl. intros H. now rewrite IH.
Qed.

(** X19: [DELETE /api/queue/{jid}] always answers [ok], also for an id
    that is not in the queue. It removes the rows with that id and leaves
    every other row, the history, the settings, the libraries and the
    files as they are. The only processes it can touch are those
    registered in [active_jobs] under this very job id, and none at all
    unless the row exists with status [processing]. *)
Theorem api_remove_queue_frame (jid : string) (st : State) :
  let st1 := fst (api_remove_queue jid st) in
  snd (api_remove_queue jid st) = Ok200 [("ok", "True")] /\
  queue (st_db st1) = queue_delete jid (queue (st_db st)) /\
  (forall r, In r (queue (st_db st)) -> q_id r <> jid -> In r (queue (st_db st1))) /\
  (queue_by_id jid (queue (st_db st)) = None -> queue (st_db st1) = queue (st_db st)) /\
  history (st_db st1) = history (st_db st) /\
  settings (st_db st1) = settings (st_db st) /\
  libraries (st_db st1) = libraries (st_db st) /\
  st_fs st1 = st_fs st /\ active_jobs st1 = active_jobs st /\
  (forall pid, (forall slot, active_jobs st !! slot <> Some (jid, pid)) ->
     st_procs st1 !! pid = st_procs st !! pid) /\
  ((forall job, queue_by_id jid (queue (st_db st)) = Some job ->
                q_status job <> Processing) ->
   st_procs st1 = st_procs st).
Proof.
  cbn zeta. unfold api_remove_queue. cbn [fst snd].
  split; [reflexivity|].
  assert (Hq : forall s : State,
            queue (st_db (with_db (set_queue (queue_delete jid)) s))
              = queue_delete jid (queue (st_db s))) by reflexivity.
  destruct (queue_by_id jid (queue (st_db st))) as [job|] eqn:Hjob.
  - destruct (QueueStatus_eqb (q_status job) Processing) eqn:Hst.
    + repeat split; try reflexivity.
      * intros r Hr Hne. rewrite Hq. apply filter_In. split; [exact Hr|].
        now apply negb_true_iff, String.eqb_neq.
      * discriminate.
      * intros pid Hpid. cbn. apply foldr_kill_other.
        intros [slot Hslot]%handle_registered. exact (Hpid slot Hslot).
      * intros Hnp. exfalso. apply (Hnp job eq_refl).
        now destruct (q_status job).
    + repeat split; try reflexivity.
      * intros r Hr Hne. rewrite Hq. apply filter_In. split; [exact Hr|].
        now apply negb_true_iff, String.eqb_neq.
      * discriminate.
  - repeat split; try reflexivity.
    + intros r Hr Hne. rewrite Hq. apply filter_In. split; [exact Hr|].
      now apply negb_true_iff, String.eqb_neq.
    + intros _. rewrite Hq. now apply queue_delete_absent.
Qed.

(** ** Savings and statistics *)

Lemma fold_left_add {A} (f : A -> Z) (l : list A) (a : Z) :
  fold_left (fun acc r => acc + f r) l a = a + py_sum f l.
Proof.
  unfold py_sum. revert a. induction l as [|x l IH]; intros a; simpl; [lia|].
  rewrite (IH (a + f x)), (IH (0 + f x)). lia.
Qed.

Lemma py_sum_cons {A} (f : A -> Z) (x : A) (l : list A) :
  py_sum f (x :: l) = f x + py_sum f l.
Proof. unfold py_sum at 1. simpl. rewrite fold_left_add. lia. Qed.

Lemma py_sum_nil {A} (f : A -> Z) : py_sum f [] = 0.
Proof. reflexivity. Qed.

Lemma py_sum_sub {A} (f g : A -> Z) (l : list A) :
  py_sum (fun r => f r - g r) l = py_sum f l - py_sum g l.
Proof.
  induction l as [|x l IH]; [reflexivity|]. rewrite !py_sum_cons, IH. lia.
Qed.

Lemma py_sum_ones {A} (l : list A) : py_sum (fun _ => 1) l = Z.of_nat (length l).
Proof.
  induction l as [|x l IH]; [reflexivity|]. rewrite py_sum_cons, IH. simpl length. lia.
Qed.

Lemma py_sum_filter {A} (p : A -> bool) (f : A -> Z) (l : list A) :
  py_sum f (List.filter p l) = py_sum (fun r => if p r then f r else 0) l.
Proof.
  induction l as [|x l IH]; [reflexivity|]. simpl. rewrite py_sum_cons.
  destruct (p x); [rewrite py_sum_cons|]; rewrite IH; lia.
Qed.

Lemma py_sum_insert_sorted {A} (before : A -> A -> bool) (g : A -> Z) (x : A) (l : list A) :
  py_sum g (insert_sorted before x l) = g x + py_sum g l.
Proof.
  induction l as [|y l IH]; simpl; [now rewrite py_sum_cons|].
  destruct (before x y); rewrite !py_sum_cons; [reflexivity|]. rewrite IH. lia.
Qed.

Lemma py_sum_sorted {A} (before : A -> A -> bool) (g : A -> Z) (l : list A) :
  py_sum g (sorted before l) = py_sum g l.
Proof.
  induction l as [|x l IH]; [reflexivity|]. unfold sorted in *. simpl.
  now rewrite py_sum_insert_sorted, py_sum_cons, IH.
Qed.

Lemma Forall_insert_sorted {A} (P : A -> Prop) (before : A -> A -> bool) (x : A) (l : list A) :
  P x -> Forall P l -> Forall P (insert_sorted before x l).
Proof.
  intros Hx Hl. induction Hl as [|y l Hy Hl IH]; simpl; [now repeat constructor|].
  destruct (before x y); repeat constructor; assumption.
Qed.

Lemma Forall_sorted {A} (P : A -> Prop) (before : A -> A -> bool) (l : list A) :
  Forall P l -> Forall P (sorted before l).
Proof.
  intros Hl. induction Hl as [|x l Hx Hl IH]; [constructor|].
  unfold sorted in *. simpl. now apply Forall_insert_sorted.
Qed.

(** A value that grows by [delta] at each update adds up, over the dict,
    to [delta] more. *)
Lemma py_sum_dict_update {A} (g : A -> Z) (delta : Z) (key : string) (init : A)
    (f : A -> A) (m : list (string * A)) :
  g init = 0 -> (forall e, g (f e) = g e + delta) ->
  py_sum g (List.map snd (dict_update key init f m))
    = py_sum g (List.map snd m) + delta.
Proof.
  intros Hinit Hf. induction m as [|[k v] m IH]; simpl.
  - rewrite py_sum_cons, py_sum_nil, Hf, Hinit. lia.
  - destruct (String.eqb k key); simpl; rewrite !py_sum_cons; [rewrite Hf|rewrite IH]; lia.
Qed.

Lemma Forall_dict_update {A} (P : A -> Prop) (key : string) (init : A)
    (f : A -> A) (m : list (string * A)) :
  P (f init) -> (forall e, P e -> P (f e)) ->
  Forall P (List.map snd m) -> Forall P (List.map snd (dict_update key init f m)).
Proof.
  intros Hinit Hf. induction m as [|[k v] m IH]; simpl; intros Hm.
  - now repeat constructor.
  - inversion Hm as [|? ? Hv Hm']; subst. destruct (String.eqb k key); simpl.
    + constructor; [now apply Hf | assumption].
    + constructor; [assumption | now apply IH].
Qed.

(** A measure of the dict that each step raises by the weight of its row
    is, after the loop, the sum of the weights. *)
Lemma fold_left_measure {A R} (step : A -> R -> A) (mu : A -> Z) (w : R -> Z)
    (rows : list R) (m : A) :
  (forall m r, mu (step m r) = mu m + w r) ->
  mu (fold_left step rows m) = mu m + py_sum w rows.
Proof.
  intros Hstep. revert m. induction rows as [|r rows IH]; intros m; simpl.
  - rewrite py_sum_nil. lia.
  - rewrite IH, Hstep, py_sum_cons. lia.
Qed.

Lemma fold_left_invariant {A R} (step : A -> R -> A) (P : A -> Prop)
    (rows : list R) (m : A) :
  (forall m r, P m -> P (step m r)) -> P m -> P (fold_left step rows m).
Proof.
  intros Hstep. revert m. induction rows as [|r rows IH]; intros m Hm; simpl;
    [exact Hm|]. apply IH, Hstep, Hm.
Qed.

(** X20: the three parts of [GET /api/savings] agree with one another.
    With no successful conversion all three are empty. Otherwise the
    per-library entries add up to the totals, in files, original bytes,
    new bytes and saved bytes; each entry has at least one file and saves
    its original minus its new size; and the daily entries add up to the
    files and the saved bytes of the rows that carry a finish time. *)
Theorem api_savings_adds_up (d : Db) :
  let s := api_savings d in
  let rows := success_rows d in
  match totals s with
  | None => rows = [] /\ per_library s = [] /\ daily s = []
  | Some t =>
      total_files t = Z.of_nat (length rows) /\
      total_saved t = py_sum saved_of rows /\
      py_sum ls_files (per_library s) = total_files t /\
      py_sum ls_original (per_library s) = total_original t /\
      py_sum ls_new_size (per_library s) = total_new t /\
      py_sum ls_saved (per_library s) = total_saved t /\
      Forall (fun e => ls_saved e = ls_original e - ls_new_size e /\ 0 < ls_files e)
             (per_library s) /\
      py_sum ds_files (daily s) = Z.of_nat (length (List.filter has_finished_at rows)) /\
      py_sum ds_saved (daily s) = py_sum saved_of (List.filter has_finished_at rows)
  end.
Proof.
  cbn zeta. unfold api_savings.
  destruct (success_rows d) as [|r0 rows0] eqn:Hrows; cbn [totals per_library daily];
    [repeat split|].
  set (rows := r0 :: rows0).
  cbn [total_files total_original total_new total_saved].
  assert (Hsaved : py_sum (fun r => h_original_size (fst r)) rows
                   - py_sum (fun r => h_new_size (fst r)) rows = py_sum saved_of rows).
  { unfold saved_of. now rewrite py_sum_sub. }
  assert (Hlib : forall (g : LibrarySavings -> Z) (w : HistoryRow * option string -> Z),
            (forall n, g {| ls_library_name := n; ls_files := 0; ls_original := 0;
                            ls_new_size := 0; ls_saved := 0 |} = 0) ->
            (forall r e, g {| ls_library_name := ls_library_name e;
                              ls_files := ls_files e + 1;
                              ls_original := ls_original e + h_original_size (fst r);
                              ls_new_size := ls_new_size e + h_new_size (fst r);
                              ls_saved := ls_saved e + saved_of r |} = g e + w r) ->
            py_sum g (List.map snd (fold_left libs_map_step rows [])) = py_sum w rows).
  { intros g w H0 Hstep.
    rewrite (fold_left_measure libs_map_step (fun m => py_sum g (List.map snd m)) w).
    - reflexivity.
    - intros m r. unfold libs_map_step.
      apply py_sum_dict_update; [apply H0 | intros e; apply Hstep]. }
  assert (Hday : forall (g : DaySavings -> Z) (w : HistoryRow * option string -> Z),
            (forall day, g {| ds_day := day; ds_files := 0; ds_saved := 0 |} = 0) ->
            (forall r e, g {| ds_day := ds_day e; ds_files := ds_files e + 1;
                              ds_saved := ds_saved e + saved_of r |} = g e + w r) ->
            py_sum g (List.map snd (fold_left daily_map_step rows []))
              = py_sum (fun r => if has_finished_at r then w r else 0) rows).
  { intros g w H0 Hstep.
    rewrite (fold_left_measure daily_map_step (fun m => py_sum g (List.map snd m))
               (fun r => if has_finished_at r then w r else 0)).
    - reflexivity.
    - intros m r. unfold daily_map_step, has_finished_at.
      destruct (String.eqb (h_finished_at (fst r)) ""); cbn [negb]; [lia|].
      apply py_sum_dict_update; [apply H0 | intros e; apply Hstep]. }
  split; [reflexivity|].
  split; [exact Hsaved|].
  rewrite !py_sum_sorted.
  split. { rewrite (Hlib ls_files (fun _ => 1)); auto using py_sum_ones. }
  split. { now rewrite (Hlib ls_original (fun r => h_original_size (fst r))). }
  split. { now rewrite (Hlib ls_new_size (fun r => h_new_size (fst r))). }
  split. { rewrite (Hlib ls_saved saved_of); auto. }
  split.
  { apply Forall_sorted.
    apply (fold_left_invariant libs_map_step
             (fun m => Forall (fun e => ls_saved e = ls_original e - ls_new_size e /\
                                        0 < ls_files e) (List.map snd m))).
    - intros m r Hm. unfold libs_map_step.
      apply Forall_dict_update; [| |exact Hm].
      + cbn. unfold saved_of. lia.
      + intros e [He1 He2]. cbn. unfold saved_of. lia.
    - constructor. }
  split.
  { rewrite (Hday ds_files (fun _ => 1)); auto.
    rewrite <- (py_sum_filter has_finished_at (fun _ => 1)). apply py_sum_ones. }
  rewrite (Hday ds_saved saved_of); auto.
  symmetry. apply py_sum_filter.
Qed.












(** Past 64 bits the two pages part: the sum of [GET /api/stats] overflows
    and the request fails, while [GET /api/savings] adds up in Python. *)
Lemma api_stats_overflow :
  let d := Sample.db_of []
             [ new_history_row "h1" None "/lib/a.mkv" (2 ^ 63 - 1) 0 60 Success None
                 "2024-05-01T10:01:00";
               new_history_row "h2" None "/lib/b.mkv" 1 0 60 Success None
                 "2024-05-01T10:02:00" ] in
  api_stats (fun s => Some (PyStr.take 10 s)) "2024-05-01" d = None /\
  total_saved <$> totals (api_savings d) = Some (2 ^ 63).
Proof. vm_compute. split; reflexivity. Qed.

Lemma insert_sorted_perm {A} (before : A -> A -> bool) (x : A) (l : list A) :
  insert_sorted before x l ≡ₚ x :: l.
Proof.
  induction l as [|y l IH]; simpl; [reflexivity|].
  destruct (before x y); [reflexivity|]. rewrite IH. apply Permutation_swap.
Qed.

Lemma sorted_perm {A} (before : A -> A -> bool) (l : list A) : sorted before l ≡ₚ l.
Proof.
  induction l as [|x l IH]; [reflexivity|]. unfold sorted in *. simpl.
  now rewrite insert_sorted_perm, IH.
Qed.

Lemma insert_sorted_ordered {A} (before : A -> A -> bool) (x : A) (l : list A) :
  (forall a b, before a b = false -> before b a = true) ->
  (forall a b c, before a b = true -> before b c = true -> before a c = true) ->
  StronglySorted (fun a b => before a b = true) l ->
  StronglySorted (fun a b => before a b = true) (insert_sorted before x l).
Proof.
  intros Htot Htrans. induction l as [|y l IH]; simpl; intros Hl.
  - repeat constructor.
  - apply StronglySorted_inv in Hl as [Hl Hy]. destruct (before x y) eqn:E.
    + constructor; [now constructor|]. constructor; [exact E|].
      eapply Forall_impl; [exact Hy|]. intros z Hz. now apply (Htrans x y z).
    + constructor; [now apply IH|].
      apply Forall_forall. intros z Hz. rewrite insert_sorted_perm in Hz.
      apply elem_of_cons in Hz as [->|Hz]; [now apply Htot|].
      now apply (proj1 (Forall_forall _ _) Hy).
Qed.

Lemma sorted_ordered {A} (before : A -> A -> bool) (l : list A) :
  (forall a b, before a b = false -> before b a = true) ->
  (forall a b c, before a b = true -> before b c = true -> before a c = true) ->
  StronglySorted (fun a b => before a b = true) (sorted before l).
Proof.
  intros Htot Htrans. induction l as [|x l IH]; [constructor|].
  unfold sorted in *. simpl. now apply insert_sorted_ordered.
Qed.

Lemma StronglySorted_weaken {A} (R R' : A -> A -> Prop) (l : list A) :
  (forall x y, R x y -> R' x y) -> StronglySorted R l -> StronglySorted R' l.
Proof.
  intros HR Hl. induction Hl as [|x l Hl IH Hx]; constructor; [exact IH|].
  eapply Forall_impl; [exact Hx|]. intros y. apply HR.
Qed.

(** The keys of a dict stay distinct, and an entry that records its key
    keeps recording it. *)
Lemma dict_update_keys {A} (key : string) (init : A) (f : A -> A)
    (tag : A -> string) (m : list (string * A)) :
  tag (f init) = key -> (forall e, tag (f e) = tag e) ->
  NoDup (List.map fst m) /\ Forall (fun kv => tag (snd kv) = fst kv) m ->
  NoDup (List.map fst (dict_update key init f m)) /\
  Forall (fun kv => tag (snd kv) = fst kv) (dict_update key init f m).
Proof.
  intros Hinit Hf. induction m as [|[k v] m IH]; simpl; intros [Hnd Htag].
  - split; [apply NoDup_singleton | repeat constructor; exact Hinit].
  - apply NoDup_cons in Hnd as [Hk Hnd]. apply Forall_cons in Htag as [Hv Htag].
    cbn in Hv. destruct (String.eqb k key) eqn:E; simpl.
    + split; [now apply NoDup_cons|]. constructor; [cbn; now rewrite Hf | exact Htag].
    + destruct (IH (conj Hnd Htag)) as [IHnd IHtag].
      split; [|now constructor].
      apply NoDup_cons. split; [|exact IHnd].
      intros Hin. apply list_elem_of_In, in_map_iff in Hin as ([k' v'] & Hk' & Hin).
      cbn in Hk'. subst k'.
      assert (Hcases : forall m', In (k, v') (dict_update key init f m') ->
                k = key \/ In k (List.map fst m')).
      { clear. induction m' as [|[k0 v0] m' IHm]; simpl.
        - intros [H|[]]. left. congruence.
        - destruct (String.eqb k0 key); simpl.
          + intros [H|H]; [right; left; congruence | right; right].
            now apply (in_map fst _ (k, v')).
          + intros [H|H]; [right; left; congruence|].
            destruct (IHm H) as [->|Hr]; [now left | right; now right]. }
      destruct (Hcases m Hin) as [->|Hr].
      * now rewrite String.eqb_refl in E.
      * apply Hk. now apply list_elem_of_In.
Qed.

(** X22: the lists of [GET /api/savings] come in the order a chart needs.
    [per_library] is in order of decreasing [saved]; [daily] is in
    increasing order of day, and no day comes twice. *)
Theorem api_savings_ordered (d : Db) :
  StronglySorted (fun x y => ls_saved y <= ls_saved x) (per_library (api_savings d)) /\
  StronglySorted (fun x y => String.leb (ds_day x) (ds_day y) = true)
                 (daily (api_savings d)) /\
  NoDup (List.map ds_day (daily (api_savings d))).
Proof.
  unfold api_savings.
  destruct (success_rows d) as [|r0 rows0]; cbn [per_library daily].
  { repeat split; constructor. }
  set (rows := r0 :: rows0). split; [|split].
  - eapply StronglySorted_weaken;
      [|apply (sorted_ordered (fun x y => (ls_saved y <=? ls_saved x)%Z))].
    + intros x y H. now apply Z.leb_le in H.
    + intros a b H. apply Z.leb_gt in H. apply Z.leb_le. lia.
    + intros a b c H1 H2. apply Z.leb_le in H1, H2. apply Z.leb_le. lia.
  - apply (sorted_ordered (fun x y => String.leb (ds_day x) (ds_day y))).
    + intros a b H. destruct (String.leb_total (ds_day a) (ds_day b)); congruence.
    + intros a b c. apply string_leb_trans.
  - rewrite sorted_perm.
    assert (Hinv : NoDup (List.map fst (fold_left daily_map_step rows [])) /\
                   Forall (fun kv => ds_day (snd kv) = fst kv)
                          (fold_left daily_map_step rows [])).
    { apply (fold_left_invariant daily_map_step
               (fun m => NoDup (List.map fst m) /\
                         Forall (fun kv => ds_day (snd kv) = fst kv) m)).
      - intros m r Hm. unfold daily_map_step.
        destruct (String.eqb (h_finished_at (fst r)) ""); [exact Hm|].
        now apply dict_update_keys.
      - split; constructor. }
    destruct Hinv as [Hnd Htag].
    rewrite map_map.
    erewrite map_ext_in; [exact Hnd|].
    intros kv Hkv. cbn. now apply (proj1 (Forall_forall _ _) Htag), list_elem_of_In.
Qed.

(** ** The progress loop *)

Lemma fps_frame_le_99 (duration : float) (out_time_us : Z) (fps_val : float)
    (progress : Z) (eta : string) :
  fps_frame duration out_time_us fps_val = Some (progress, eta) -> progress <= 99.
Proof.
  unfold fps_frame. destruct (0 <? duration)%float; [|intros H; inversion H; subst; lia].
  destruct (PyNum.truediv out_time_us 1000000) as [cs|]; [|discriminate]. cbn.
  destruct (PyNum.int (cs / duration * 100)%float) as [p|]; [|discriminate]. cbn.
  destruct (0 <? fps_val)%float.
  - destruct (PyNum.int ((duration - cs) / fps_val * 25)%float) as [rs|];
      [|discriminate].
    cbn. intros H; inversion H; subst. apply Z.le_min_r.
  - intros H; inversion H; subst. apply Z.le_min_r.
Qed.

Lemma progress_of_refl (jid : string) (r : QueueRow) : progress_of jid r r.
Proof.
  split; [reflexivity|]. exists (q_progress r), (q_fps r), (q_eta r).
  split; [now destruct r | trivial].
Qed.

Lemma progress_of_trans (jid : string) (r1 r2 r3 : QueueRow) :
  progress_of jid r1 r2 -> progress_of jid r2 r3 -> progress_of jid r1 r3.
Proof.
  intros [H1 (p1 & f1 & e1 & -> & Hp1)] [H2 (p2 & f2 & e2 & -> & Hp2)]. split.
  - intros Hne. rewrite H2 by exact Hne. now apply H1.
  - exists p2, f2, e2. split; [reflexivity|]. intros H. apply Hp2. cbn. now apply Hp1.
Qed.

Lemma progress_of_update (jid : string) (progress : Z) (fps_val : float) (eta : string)
    (q : list QueueRow) :
  progress <= 99 ->
  Forall2 (progress_of jid) q (queue_update jid (set_progress progress fps_val eta) q).
Proof.
  intros Hp. unfold queue_update. induction q as [|r q IH]; simpl; constructor; [|exact IH].
  destruct (String.eqb (q_id r) jid) eqn:E; [|apply progress_of_refl].
  split.
  - intros Hne. now apply String.eqb_neq in Hne; congruence.
  - exists progress, fps_val, eta. now split.
Qed.

Lemma Forall2_progress_refl (jid : string) (q : list QueueRow) :
  Forall2 (progress_of jid) q q.
Proof. induction q; constructor; [apply progress_of_refl | assumption]. Qed.

Lemma Forall2_progress_trans (jid : string) (q1 q2 q3 : list QueueRow) :
  Forall2 (progress_of jid) q1 q2 -> Forall2 (progress_of jid) q2 q3 ->
  Forall2 (progress_of jid) q1 q3.
Proof.
  intros H12. revert q3. induction H12 as [|r1 r2 q1 q2 Hr H12 IH]; intros q3 H23.
  - inversion H23; subst. constructor.
  - inversion H23 as [|? r3 ? q3' Hr' H23']; subst. constructor.
    + eapply progress_of_trans; eassumption.
    + now apply IH.
Qed.

Lemma stdout_frame_refl (c : Conversion) (st : State) : stdout_frame c c st st.
Proof.
  unfold stdout_frame. repeat split; try reflexivity; [now destruct c|].
  apply Forall2_progress_refl.
Qed.

Lemma run_conversion_stdout_frame (py_float : string -> option float)
    (line : string) (c : Conversion) (st : State) :
  stdout_frame c (fst (run_conversion_stdout py_float line c st))
               st (snd (run_conversion_stdout py_float line c st)).
Proof.
  unfold run_conversion_stdout.
  destruct (PyStr.startswith "out_time_us=" _).
  { destruct (_ ≫= PyStr.py_int) as [v|]; cbn [fst snd]; [|apply stdout_frame_refl].
    unfold stdout_frame. repeat split; try reflexivity; [now destruct c|].
    apply Forall2_progress_refl. }
  destruct (PyStr.startswith "fps=" _); [|apply stdout_frame_refl].
  destruct (_ ≫= py_float) as [fps_val|]; [|apply stdout_frame_refl].
  destruct (fps_frame _ _ fps_val) as [[progress eta]|] eqn:Hf; [|apply stdout_frame_refl].
  cbn [fst snd]. unfold stdout_frame. repeat split; try reflexivity; [now destruct c|].
  apply progress_of_update. eapply fps_frame_le_99, Hf.
Qed.

(** X23: whatever the transcoder prints, and however many lines, the
    progress loop can do no harm: it changes nothing of the history, the
    settings, the libraries, the files, the processes and the slots, and
    in the queue it adds, drops and reorders no row. Rows of other jobs
    are untouched; a row of the running job keeps its id, path, status and
    sizes and differs at most in [progress], [fps] and [eta], with a
    progress that does not pass 99 unless it did before. Of the locals of
    the conversion only [out_time_us] moves. *)
Theorem stdout_only_moves_progress
    (py_float : string -> option float) (lines : list string)
    (c : Conversion) (st : State) :
  let c' := fst (run_conversion_lines py_float lines c st) in
  let st' := snd (run_conversion_lines py_float lines c st) in
  set_out_time_us (c_out_time_us c) c' = c /\
  history (st_db st') = history (st_db st) /\
  settings (st_db st') = settings (st_db st) /\
  libraries (st_db st') = libraries (st_db st) /\
  st_fs st' = st_fs st /\ st_procs st' = st_procs st /\
  active_jobs st' = active_jobs st /\ scan_status st' = scan_status st /\
  Forall2 (progress_of (c_job_id c)) (queue (st_db st)) (queue (st_db st')).
Proof.
  cbn zeta. fold (stdout_frame c (fst (run_conversion_lines py_float lines c st))
                    st (snd (run_conversion_lines py_float lines c st))).
  unfold run_conversion_lines. revert c st.
  induction lines as [|line lines IH]; intros c st; [apply stdout_frame_refl|].
  cbn [fold_left fst snd].
  pose proof (run_conversion_stdout_frame py_float line c st) as H1.
  destruct (run_conversion_stdout py_float line c st) as [c1 st1]. cbn [fst snd] in *.
  specialize (IH c1 st1).
  destruct (fold_left _ lines (c1, st1)) as [c2 st2]. cbn [fst snd] in *.
  destruct H1 as (Hc1 & Hh1 & Hs1 & Hl1 & Hf1 & Hp1 & Ha1 & Hsc1 & Hq1).
  destruct IH as (Hc2 & Hh2 & Hs2 & Hl2 & Hf2 & Hp2 & Ha2 & Hsc2 & Hq2).
  assert (Hid : c_job_id c1 = c_job_id c) by (rewrite <- Hc1; reflexivity).
  unfold stdout_frame. repeat split; try congruence.
  - rewrite <- Hc1, <- Hc2. reflexivity.
  - rewrite Hid in Hq2. eapply Forall2_progress_trans; eassumption.
Qed.

(** ** Startup *)










(** ** Library rows *)




